(** * RustStack integration harness: readiness probing, fixtures and the
      test-run aggregator

    A shallow embedding of [examples/conftest.py],
    [.github/scripts/integration_test.py], and of parts of
    [examples/test_integration.py] and [examples/flask-lambda/app.py].
    The Python code of the harness talks to a
    remote service, a subprocess, the clock and standard output; here all
    of that is explicit state: a [World] holds the clock, the list of
    remote interactions performed so far and the lines printed, and the
    remote side is an arbitrary function of the time, the history and the
    request.  Python exceptions are results of a computation, and a raised
    exception keeps the state reached so far (nothing is rolled back).

    Time is counted in milliseconds as an integer: [time.sleep(0.1)] is a
    sleep of 100 and a [timeout] of 30.0 seconds is 30000. *)

From Stdlib Require Import ZArith String List Lia Bool Ascii.
From Stdlib Require Import DecimalString.
Import ListNotations.
Local Open Scope string_scope.
Local Open Scope Z_scope.

Set Implicit Arguments.
Local Set Warnings "-register-all".

(** ** Python values *)

(** The values exchanged with the client libraries.  A Python dict is an
    association list in insertion order, a tuple is a [VList]. *)
Inductive value : Type :=
| VNone
| VBool (b : bool)
| VInt (z : Z)
| VStr (s : string)
| VBytes (b : list Byte.byte)
| VList (l : list value)
| VDict (d : list (string * value))
| VProc (pid : Z).

Definition kwargs := list (string * value).

Definition str_of_Z (z : Z) : string := NilZero.string_of_int (Z.to_int z).
Definition str_of_nat (n : nat) : string := str_of_Z (Z.of_nat n).

(** [repr(v)]; escape sequences inside strings are not modelled. *)
Fixpoint py_repr (v : value) : string :=
  match v with
  | VNone => "None"
  | VBool true => "True"
  | VBool false => "False"
  | VInt z => str_of_Z z
  | VStr s => "'" ++ s ++ "'"
  | VBytes b => "b'" ++ string_of_list_byte b ++ "'"
  | VList l => "[" ++ String.concat ", " (map py_repr l) ++ "]"
  | VDict d =>
      "{" ++ String.concat ", "
               (map (fun kv : string * value => let (k, x) := kv in "'" ++ k ++ "': " ++ py_repr x) d)
          ++ "}"
  | VProc pid => "<Popen: " ++ str_of_Z pid ++ ">"
  end.

(** [str(v)], what an f-string prints for [{v}]. *)
Definition py_str (v : value) : string :=
  match v with
  | VStr s => s
  | _ => py_repr v
  end.

(** Truth value of [v] in a condition. *)
Definition truthy (v : value) : bool :=
  match v with
  | VNone => false
  | VBool b => b
  | VInt z => negb (z =? 0)
  | VStr s => negb (String.eqb s "")
  | VBytes b => match b with [] => false | _ => true end
  | VList l => match l with [] => false | _ => true end
  | VDict d => match d with [] => false | _ => true end
  | VProc _ => true
  end.

(** [v == s] for a string literal [s]. *)
Definition eq_str (v : value) (s : string) : bool :=
  match v with
  | VStr s' => String.eqb s' s
  | _ => false
  end.

(** [v == b] for a bytes literal [b]. *)
Definition eq_bytes (v : value) (b : list Byte.byte) : bool :=
  match v with
  | VBytes b' => if list_eq_dec Byte.byte_eq_dec b' b then true else false
  | _ => false
  end.

Fixpoint lookup (k : string) (d : list (string * value)) : option value :=
  match d with
  | [] => None
  | (k', v) :: d' => if String.eqb k' k then Some v else lookup k d'
  end.

(** ** Exceptions *)

(** Errors that the client libraries raise: the [requests] family
    ([ConnectionError], [Timeout], ... all subclasses of
    [requests.RequestException]), botocore's errors, [subprocess]'s
    [TimeoutExpired] and [OSError]. *)
Inductive lib_error : Type :=
| RequestException
| ClientError
| TimeoutExpired
| OSError.

Inductive exn_class : Type :=
| LibError (c : lib_error)
| AssertionError
| KeyError
| IndexError
| TypeError
| AttributeError
| UnicodeDecodeError
| Skipped      (* raised by pytest.skip *)
| Failed.      (* raised by pytest.fail *)

(** An exception with the text that [str(e)] gives; [SystemExit] is what
    [sys.exit(code)] raises. *)
Inductive exn : Type :=
| Exn (c : exn_class) (msg : string)
| SystemExit (code : Z).

Definition lib_error_eqb (a b : lib_error) : bool :=
  match a, b with
  | RequestException, RequestException => true
  | ClientError, ClientError => true
  | TimeoutExpired, TimeoutExpired => true
  | OSError, OSError => true
  | _, _ => false
  end.

(** [isinstance(e, Exception)]: pytest's outcome exceptions and
    [SystemExit] derive from [BaseException] only. *)
Definition is_Exception (e : exn) : bool :=
  match e with
  | Exn Skipped _ => false
  | Exn Failed _ => false
  | Exn _ _ => true
  | SystemExit _ => false
  end.

(** [isinstance(e, requests.RequestException)]. *)
Definition is_RequestException (e : exn) : bool :=
  match e with
  | Exn (LibError RequestException) _ => true
  | _ => false
  end.

(** A bare [except:]. *)
Definition any_exn (e : exn) : bool := true.

Definition str_of_exn (e : exn) : string :=
  match e with
  | Exn _ msg => msg
  | SystemExit code => str_of_Z code
  end.

(** ** The remote side *)

(** botocore's [Config(retries=..., connect_timeout=..., read_timeout=...)]. *)
Record Config := {
  retries_max_attempts : Z;
  retries_mode : string;
  connect_timeout : Z;
  read_timeout : Z
}.

(** What [boto3.client(...)] was given; building one contacts nothing. *)
Record client := {
  service_name : string;
  endpoint_url : string;
  aws_access_key_id : string;
  aws_secret_access_key : string;
  region_name : string;
  client_config : option Config
}.

(** Every interaction other than an HTTP GET. *)
Inductive call : Type :=
| Boto (c : client) (operation : string) (args : kwargs)
| Uuid4Hex                                   (* uuid.uuid4().hex *)
| EnvironGet (name default : string)         (* os.environ.get *)
| PathExists (path : string)                 (* os.path.exists *)
| Popen (argv : list string)                 (* subprocess.Popen *)
| ProcKill (proc : value)
| ProcCommunicate (proc : value)
| ProcTerminate (proc : value)
| ProcWait (proc : value) (timeout : Z).

Record response := { status_code : Z; json_body : option value }.

Inductive outcome (A : Type) : Type :=
| Ok (a : A)
| Fault (c : lib_error) (msg : string).
Arguments Fault {A} c msg.

(** One interaction: when it was issued, what was asked, what came back
    and how long it took. *)
Inductive event : Type :=
| HttpEvent (issued : Z) (url : string) (timeout : Z)
            (r : outcome response) (latency : N)
| CallEvent (issued : Z) (c : call) (r : outcome value) (latency : N).

(** The remote side answers from the current time and the history. *)
Record Remote := {
  http_get : Z -> list event -> string -> Z -> outcome response * N;
  invoke : Z -> list event -> call -> outcome value * N
}.

Record World := {
  clock : Z;
  trace : list event;
  stdout : list string
}.

Definition initial_world : World := {| clock := 0; trace := []; stdout := [] |}.

(** ** Computations *)

(** How a piece of Python code ends: it returns, it raises, or (for the
    bounded unrolling of a [while] loop only) the unrolling was too
    short. *)
Inductive result (A : Type) : Type :=
| Returned (a : A)
| Raised (e : exn)
| OutOfFuel.
Arguments Raised {A} e.
Arguments OutOfFuel {A}.

Definition M (A : Type) : Type := World -> result A * World.

Definition ret {A} (a : A) : M A := fun w => (Returned a, w).

Definition bind {A B} (m : M A) (f : A -> M B) : M B :=
  fun w =>
    match m w with
    | (Returned a, w') => f a w'
    | (Raised e, w') => (Raised e, w')
    | (OutOfFuel, w') => (OutOfFuel, w')
    end.

Definition raise {A} (e : exn) : M A := fun w => (Raised e, w).

Definition diverge {A} : M A := fun w => (OutOfFuel, w).

Declare Scope py_scope.
Delimit Scope py_scope with py.
Notation "x <- m ;; k" := (bind m (fun x => k))
  (at level 100, m at next level, right associativity) : py_scope.
Notation "m ;; k" := (bind m (fun _ => k))
  (at level 100, right associativity) : py_scope.
Local Open Scope py_scope.

(** [try: m except C as e: h e], where [handles] decides [isinstance(e, C)]. *)
Definition try_except {A} (m : M A) (handles : exn -> bool) (h : exn -> M A) : M A :=
  fun w =>
    match m w with
    | (Raised e, w') => if handles e then h e w' else (Raised e, w')
    | other => other
    end.

(** [try: m finally: fin].  An exception of [fin] replaces the outcome of
    [m]. *)
Definition try_finally {A} (m : M A) (fin : M unit) : M A :=
  fun w =>
    match m w with
    | (OutOfFuel, w') => (OutOfFuel, w')
    | (r, w') =>
        match fin w' with
        | (Returned _, w'') => (r, w'')
        | (Raised e, w'') => (Raised e, w'')
        | (OutOfFuel, w'') => (OutOfFuel, w'')
        end
    end.

(** [assert cond, msg]. *)
Definition py_assert (cond : bool) (msg : string) : M unit :=
  if cond then ret tt else raise (Exn AssertionError msg).

(** [for x in l: body x]. *)
Fixpoint for_each {A} (l : list A) (body : A -> M unit) : M unit :=
  match l with
  | [] => ret tt
  | x :: l' => body x ;; for_each l' body
  end.

(** The line feed that a Python literal writes as a backslash and [n]. *)
Definition newline : string := String (ascii_of_nat 10) "".

(** A string literal's text between double quotes, as in JSON. *)
Definition quoted (s : string) : string :=
  String (ascii_of_nat 34) s ++ String (ascii_of_nat 34) "".

(** [s * n]. *)
Fixpoint str_repeat (s : string) (n : nat) : string :=
  match n with
  | O => ""
  | S n' => s ++ str_repeat s n'
  end.

(** [v is None]. *)
Definition is_none (v : value) : bool :=
  match v with
  | VNone => true
  | _ => false
  end.

(** [print(s)]. *)
Definition print (s : string) : M unit :=
  fun w => (Returned tt,
            {| clock := clock w; trace := trace w; stdout := stdout w ++ [s] |}).

(** [time.time()], in milliseconds. *)
Definition time_time : M Z := fun w => (Returned (clock w), w).

(** [time.sleep(ms / 1000)]. *)
Definition time_sleep (ms : Z) : M unit :=
  fun w => (Returned tt,
            {| clock := clock w + ms; trace := trace w; stdout := stdout w |}).

(** [sys.exit(code)]. *)
Definition sys_exit {A} (code : Z) : M A := raise (SystemExit code).

(** [pytest.skip(msg)] and [pytest.fail(msg)]. *)
Definition pytest_skip {A} (msg : string) : M A := raise (Exn Skipped msg).
Definition pytest_fail {A} (msg : string) : M A := raise (Exn Failed msg).

(** *** Operations on values, with the errors Python raises *)

(** [v[k]] on a dict. *)
Definition subscript (v : value) (k : string) : M value :=
  match v with
  | VDict d =>
      match lookup k d with
      | Some x => ret x
      | None => raise (Exn KeyError ("'" ++ k ++ "'"))
      end
  | _ => raise (Exn TypeError "object is not subscriptable")
  end.

(** [v[i]] on a list. *)
Definition index (v : value) (i : nat) : M value :=
  match v with
  | VList l =>
      match nth_error l i with
      | Some x => ret x
      | None => raise (Exn IndexError "list index out of range")
      end
  | _ => raise (Exn TypeError "object is not subscriptable")
  end.

(** [v.get(k)] and [v.get(k, default)] on a dict. *)
Definition dict_get (v : value) (k : string) (default : value) : M value :=
  match v with
  | VDict d =>
      match lookup k d with
      | Some x => ret x
      | None => ret default
      end
  | _ => raise (Exn AttributeError "object has no attribute 'get'")
  end.

(** [len(v)]. *)
Definition py_len (v : value) : M nat :=
  match v with
  | VStr s => ret (String.length s)
  | VBytes b => ret (List.length b)
  | VList l => ret (List.length l)
  | VDict d => ret (List.length d)
  | _ => raise (Exn TypeError "object has no len()")
  end.

(** The items that [for x in v] or a comprehension over [v] visits. *)
Definition iterate (v : value) : M (list value) :=
  match v with
  | VList l => ret l
  | VDict d => ret (map (fun kv => VStr (fst kv)) d)
  | _ => raise (Exn TypeError "object is not iterable")
  end.

(** [[f x for x in l]]. *)
Fixpoint map_M {A B} (f : A -> M B) (l : list A) : M (list B) :=
  match l with
  | [] => ret []
  | x :: l' => y <- f x ;; ys <- map_M f l' ;; ret (y :: ys)
  end.

(** [s in l] for a string [s] and a list [l]. *)
Definition str_in (s : string) (l : list value) : bool :=
  existsb (fun v => eq_str v s) l.

(** [body.read()] on the streaming body of an object. *)
Definition stream_read (v : value) : M value :=
  match v with
  | VBytes b => ret (VBytes b)
  | _ => raise (Exn AttributeError "object has no attribute 'read'")
  end.

(** The byte [b] lies between [lo] and [hi]. *)
Definition between (lo hi : N) (b : Byte.byte) : bool :=
  ((lo <=? Byte.to_N b) && (Byte.to_N b <=? hi))%N.

(** The bytes [l] are well-formed UTF-8, which is what the strict codec
    accepts: every sequence is complete and of the shortest form, and
    encodes no surrogate and nothing above U+10FFFF. *)
Fixpoint utf8_valid (l : list Byte.byte) : bool :=
  match l with
  | [] => true
  | b0 :: l1 =>
      if between 0 127 b0 then utf8_valid l1
      else if between 194 223 b0 then
        match l1 with
        | b1 :: l2 => between 128 191 b1 && utf8_valid l2
        | _ => false
        end
      else if between 224 239 b0 then
        match l1 with
        | b1 :: b2 :: l3 =>
            between (if between 224 224 b0 then 160 else 128)
                    (if between 237 237 b0 then 159 else 191) b1
            && between 128 191 b2 && utf8_valid l3
        | _ => false
        end
      else if between 240 244 b0 then
        match l1 with
        | b1 :: b2 :: b3 :: l4 =>
            between (if between 240 240 b0 then 144 else 128)
                    (if between 244 244 b0 then 143 else 191) b1
            && between 128 191 b2 && between 128 191 b3 && utf8_valid l4
        | _ => false
        end
      else false
  end.

(** [b.decode()], with the default codec 'utf-8' and strict errors: bytes
    that are not well-formed UTF-8 raise [UnicodeDecodeError].  A decoded
    string is kept as its UTF-8 bytes, as every string of this file is;
    the message of the error, which names the offending byte and its
    position, is shortened. *)
Definition decode (v : value) : M string :=
  match v with
  | VBytes b =>
      if utf8_valid b then ret (string_of_list_byte b)
      else raise (Exn UnicodeDecodeError "'utf-8' codec can't decode bytes")
  | _ => raise (Exn AttributeError "object has no attribute 'decode'")
  end.

(** [s[:n]]. *)
Definition str_prefix (v : value) (n : nat) : M string :=
  match v with
  | VStr s => ret (substring 0 n s)
  | _ => raise (Exn TypeError "object is not subscriptable")
  end.

Section Harness.

Variable remote : Remote.

(** ** examples/conftest.py *)

(** Configuration, read from the environment when the module is
    imported: [RUSTSTACK_PORT] (default 4566) and [RUSTSTACK_HOST]
    (default "localhost"). *)
Variable RUSTSTACK_PORT : Z.
Variable RUSTSTACK_HOST : string.

Definition RUSTSTACK_ENDPOINT : string :=
  "http://" ++ RUSTSTACK_HOST ++ ":" ++ str_of_Z RUSTSTACK_PORT.

Definition AWS_ACCESS_KEY_ID : string := "testing".
Definition AWS_SECRET_ACCESS_KEY : string := "testing".
Definition AWS_REGION : string := "us-east-1".

(** Issue a call: the remote side answers, the clock advances by the
    latency, the interaction is appended to the trace, and a fault is
    raised as the library's exception. *)
Definition perform (c : call) : M value :=
  fun w =>
    let (r, latency) := invoke remote (clock w) (trace w) c in
    let w' := {| clock := clock w + Z.of_N latency;
                 trace := trace w ++ [CallEvent (clock w) c r latency];
                 stdout := stdout w |} in
    match r with
    | Ok v => (Returned v, w')
    | Fault c msg => (Raised (Exn (LibError c) msg), w')
    end.

(** [requests.get(url, timeout=timeout)], the timeout in seconds. *)
Definition requests_get (url : string) (timeout : Z) : M response :=
  fun w =>
    let (r, latency) := http_get remote (clock w) (trace w) url timeout in
    let w' := {| clock := clock w + Z.of_N latency;
                 trace := trace w ++ [HttpEvent (clock w) url timeout r latency];
                 stdout := stdout w |} in
    match r with
    | Ok resp => (Returned resp, w')
    | Fault c msg => (Raised (Exn (LibError c) msg), w')
    end.

(** The [while] loop of [wait_for_ruststack], unrolled [fuel] times.
    The [try] block yields [Some True] where the Python code returns
    from inside the loop and [None] where it falls through to the
    sleep. *)
Fixpoint wait_loop (fuel : nat) (endpoint : string) (start timeout : Z) : M bool :=
  match fuel with
  | O => diverge
  | S fuel' =>
      now <- time_time ;;
      if now - start <? timeout then
        r <- try_except
               (resp <- requests_get (endpoint ++ "/health") 1 ;;
                if status_code resp =? 200 then ret (Some true) else ret None)
               is_RequestException
               (fun _ => ret None) ;;
        match r with
        | Some b => ret b
        | None => time_sleep 100 ;; wait_loop fuel' endpoint start timeout
        end
      else ret false
  end.

(** Every iteration sleeps 100 ms, so the loop body runs at most once
    per started 100 ms of the timeout; one more unrolling reaches the
    test that leaves the loop. *)
Definition wait_fuel (timeout : Z) : nat := Z.to_nat (timeout / 100) + 2.

Definition wait_for_ruststack (endpoint : string) (timeout : Z) : M bool :=
  start <- time_time ;;
  wait_loop (wait_fuel timeout) endpoint start timeout.

(** The default [timeout: float = 30.0]. *)
Definition default_timeout : Z := 30000.

(** *** Session fixtures for the service itself *)

(** A generator fixture is the code before its [yield], which leaves
    the generator suspended with its local variables [R] (among them
    the value handed to the tests), and the code after the [yield]. *)
Record fixture (R : Type) := {
  setup : M R;
  teardown : R -> M unit
}.

Definition ruststack_endpoint : fixture string := {|
  setup :=
    ready <- wait_for_ruststack RUSTSTACK_ENDPOINT default_timeout ;;
    if negb ready then
      pytest_skip ("RustStack not available at " ++ RUSTSTACK_ENDPOINT ++ ". "
                   ++ "Start it with: docker-compose up -d ruststack")
    else ret RUSTSTACK_ENDPOINT;
  teardown := fun _ => ret tt
|}.

(** The [finally] block of [ruststack_process]. *)
Definition ruststack_process_finally (proc : value) : M unit :=
  perform (ProcTerminate proc) ;;
  perform (ProcWait proc 5) ;;
  ret tt.

(** The [try] block of [ruststack_process] up to the [yield]. *)
Definition ruststack_process_startup (proc : value) : M (value * string) :=
  ready <- wait_for_ruststack RUSTSTACK_ENDPOINT default_timeout ;;
  if negb ready then
    perform (ProcKill proc) ;;
    out <- perform (ProcCommunicate proc) ;;
    stdout_ <- index out 0 ;;
    stderr_ <- index out 1 ;;
    so <- decode stdout_ ;;
    se <- decode stderr_ ;;
    pytest_fail ("RustStack failed to start." ++ newline
                 ++ "stdout: " ++ so ++ newline
                 ++ "stderr: " ++ se)
  else ret (proc, RUSTSTACK_ENDPOINT).

(** [ruststack_process]: the suspended generator holds the process
    handle and the endpoint it yields.  An exception inside the [try]
    before the [yield] runs the [finally] block and then propagates;
    after the [yield] the [finally] block is all that is left. *)
Definition ruststack_process : fixture (value * string) := {|
  setup :=
    binary <- perform (EnvironGet "RUSTSTACK_BINARY" "./target/release/ruststack") ;;
    found <- perform (PathExists (py_str binary)) ;;
    if negb (truthy found) then
      pytest_skip ("RustStack binary not found at " ++ py_str binary)
    else
      proc <- perform (Popen [py_str binary; "--host"; "0.0.0.0"; "--port";
                              str_of_Z RUSTSTACK_PORT]) ;;
      try_except
        (ruststack_process_startup proc)
        any_exn
        (fun e => ruststack_process_finally proc ;; raise e);
  teardown := fun st => ruststack_process_finally (fst st)
|}.

(** *** Clients *)

Definition boto3_client (service ruststack_endpoint : string) : client := {|
  service_name := service;
  endpoint_url := ruststack_endpoint;
  aws_access_key_id := AWS_ACCESS_KEY_ID;
  aws_secret_access_key := AWS_SECRET_ACCESS_KEY;
  region_name := AWS_REGION;
  client_config := None
|}.

Definition s3_client := boto3_client "s3".
Definition dynamodb_client := boto3_client "dynamodb".
Definition lambda_client := boto3_client "lambda".
Definition logs_client := boto3_client "logs".
Definition secretsmanager_client := boto3_client "secretsmanager".
Definition iam_client := boto3_client "iam".
Definition apigatewayv2_client := boto3_client "apigatewayv2".
Definition firehose_client := boto3_client "firehose".

(** [f"{prefix}{uuid.uuid4().hex[:8]}"]. *)
Definition fresh_name (prefix : string) : M string :=
  hex <- perform Uuid4Hex ;;
  suffix <- str_prefix hex 8 ;;
  ret (prefix ++ suffix).

(** A client method called for its effect only. *)
Definition boto_ (c : client) (operation : string) (args : kwargs) : M unit :=
  perform (Boto c operation args) ;; ret tt.

(** *** Resource fixtures *)

Definition s3_bucket (s3 : client) : fixture string := {|
  setup :=
    bucket_name <- fresh_name "test-bucket-" ;;
    boto_ s3 "create_bucket" [("Bucket", VStr bucket_name)] ;;
    ret bucket_name;
  teardown := fun bucket_name =>
    try_except
      (response <- perform (Boto s3 "list_objects_v2" [("Bucket", VStr bucket_name)]) ;;
       contents <- dict_get response "Contents" (VList []) ;;
       objs <- iterate contents ;;
       for_each objs (fun obj =>
         key <- subscript obj "Key" ;;
         boto_ s3 "delete_object" [("Bucket", VStr bucket_name); ("Key", key)]) ;;
       boto_ s3 "delete_bucket" [("Bucket", VStr bucket_name)])
      is_Exception
      (fun _ => ret tt)
|}.

Definition table_key_schema : value :=
  VList [VDict [("AttributeName", VStr "pk"); ("KeyType", VStr "HASH")];
         VDict [("AttributeName", VStr "sk"); ("KeyType", VStr "RANGE")]].

Definition table_attribute_definitions : value :=
  VList [VDict [("AttributeName", VStr "pk"); ("AttributeType", VStr "S")];
         VDict [("AttributeName", VStr "sk"); ("AttributeType", VStr "S")]].

Definition dynamodb_table (dynamodb : client) : fixture string := {|
  setup :=
    table_name <- fresh_name "test-table-" ;;
    boto_ dynamodb "create_table"
          [("TableName", VStr table_name);
           ("KeySchema", table_key_schema);
           ("AttributeDefinitions", table_attribute_definitions);
           ("BillingMode", VStr "PAY_PER_REQUEST")] ;;
    ret table_name;
  teardown := fun table_name =>
    try_except
      (boto_ dynamodb "delete_table" [("TableName", VStr table_name)])
      is_Exception
      (fun _ => ret tt)
|}.

Definition secret (secretsmanager : client) : fixture string := {|
  setup :=
    secret_name <- fresh_name "test-secret-" ;;
    boto_ secretsmanager "create_secret"
          [("Name", VStr secret_name);
           ("SecretString",
            VStr ("{" ++ quoted "username" ++ ": " ++ quoted "admin" ++ ", "
                      ++ quoted "password" ++ ": " ++ quoted "secret123" ++ "}"))] ;;
    ret secret_name;
  teardown := fun secret_name =>
    try_except
      (boto_ secretsmanager "delete_secret"
             [("SecretId", VStr secret_name);
              ("ForceDeleteWithoutRecovery", VBool true)])
      is_Exception
      (fun _ => ret tt)
|}.

Definition assume_role_policy : string :=
  "{" ++ newline
  ++ "        " ++ quoted "Version" ++ ": " ++ quoted "2012-10-17" ++ "," ++ newline
  ++ "        " ++ quoted "Statement" ++ ": [{" ++ newline
  ++ "            " ++ quoted "Effect" ++ ": " ++ quoted "Allow" ++ "," ++ newline
  ++ "            " ++ quoted "Principal" ++ ": {" ++ quoted "Service" ++ ": "
                    ++ quoted "lambda.amazonaws.com" ++ "}," ++ newline
  ++ "            " ++ quoted "Action" ++ ": " ++ quoted "sts:AssumeRole" ++ newline
  ++ "        }]" ++ newline
  ++ "    }".

Definition iam_role (iam : client) : fixture string := {|
  setup :=
    role_name <- fresh_name "test-role-" ;;
    boto_ iam "create_role"
          [("RoleName", VStr role_name);
           ("AssumeRolePolicyDocument", VStr assume_role_policy)] ;;
    ret role_name;
  teardown := fun role_name =>
    try_except
      (attached <- perform (Boto iam "list_attached_role_policies"
                                 [("RoleName", VStr role_name)]) ;;
       policies <- dict_get attached "AttachedPolicies" (VList []) ;;
       items <- iterate policies ;;
       for_each items (fun policy =>
         arn <- subscript policy "PolicyArn" ;;
         boto_ iam "detach_role_policy"
               [("RoleName", VStr role_name); ("PolicyArn", arn)]) ;;
       boto_ iam "delete_role" [("RoleName", VStr role_name)])
      is_Exception
      (fun _ => ret tt)
|}.

(** [http_api] yields the [ApiId] of the response, whatever value the
    service put there. *)
Definition http_api (apigatewayv2 : client) : fixture value := {|
  setup :=
    api_name <- fresh_name "test-api-" ;;
    response <- perform (Boto apigatewayv2 "create_api"
                              [("Name", VStr api_name); ("ProtocolType", VStr "HTTP")]) ;;
    api_id <- subscript response "ApiId" ;;
    ret api_id;
  teardown := fun api_id =>
    try_except
      (boto_ apigatewayv2 "delete_api" [("ApiId", api_id)])
      is_Exception
      (fun _ => ret tt)
|}.

(** The keyword arguments of [create_delivery_stream]. *)
Definition delivery_stream_args (stream_name s3_bucket_name : string) : kwargs :=
  [("DeliveryStreamName", VStr stream_name);
   ("DeliveryStreamType", VStr "DirectPut");
   ("ExtendedS3DestinationConfiguration",
    VDict [("BucketARN", VStr ("arn:aws:s3:::" ++ s3_bucket_name));
           ("RoleARN", VStr "arn:aws:iam::000000000000:role/firehose-role");
           ("BufferingHints",
            VDict [("SizeInMBs", VInt 1); ("IntervalInSeconds", VInt 60)])])].

(** [delivery_stream] takes the name that the [s3_bucket] fixture
    yielded. *)
Definition delivery_stream (firehose : client) (s3_bucket_name : string)
  : fixture string := {|
  setup :=
    stream_name <- fresh_name "test-stream-" ;;
    boto_ firehose "create_delivery_stream"
          (delivery_stream_args stream_name s3_bucket_name) ;;
    ret stream_name;
  teardown := fun stream_name =>
    try_except
      (boto_ firehose "delete_delivery_stream" [("DeliveryStreamName", VStr stream_name)])
      is_Exception
      (fun _ => ret tt)
|}.

(** ** .github/scripts/integration_test.py *)

Definition ENDPOINT_URL : string := "http://localhost:4566".

Definition config : Config := {|
  retries_max_attempts := 3;
  retries_mode := "standard";
  connect_timeout := 5;
  read_timeout := 30
|}.

Definition get_client (service : string) : client := {|
  service_name := service;
  endpoint_url := ENDPOINT_URL;
  aws_access_key_id := "test";
  aws_secret_access_key := "test";
  region_name := "us-east-1";
  client_config := Some config
|}.

(** [response.json()]: a body that is not JSON raises requests'
    [JSONDecodeError], one of the [RequestException] family. *)
Definition response_json (resp : response) : M value :=
  match json_body resp with
  | Some v => ret v
  | None => raise (Exn (LibError RequestException) "Expecting value: line 1 column 1 (char 0)")
  end.

Definition test_health_check : M unit :=
  print "Testing health check..." ;;
  response <- requests_get (ENDPOINT_URL ++ "/health") 10 ;;
  py_assert (status_code response =? 200)
            ("Health check failed: " ++ str_of_Z (status_code response)) ;;
  data <- response_json response ;;
  status <- dict_get data "status" VNone ;;
  py_assert (eq_str status "running") ("Unexpected status: " ++ py_str data) ;;
  print "✓ Health check passed".

Definition object_key : string := "test-object.txt".
Definition object_content : list Byte.byte := list_byte_of_string "Hello, RustStack!".

(** The [try] block of [test_s3_operations]. *)
Definition test_s3_operations_try (s3 : client) (bucket_name : string) : M unit :=
  (* Create bucket *)
  boto_ s3 "create_bucket" [("Bucket", VStr bucket_name)] ;;
  print ("  Created bucket: " ++ bucket_name) ;;
  (* List buckets *)
  buckets <- perform (Boto s3 "list_buckets" []) ;;
  listed <- subscript buckets "Buckets" ;;
  items <- iterate listed ;;
  bucket_names <- map_M (fun b => subscript b "Name") items ;;
  py_assert (str_in bucket_name bucket_names)
            ("Bucket not found in list: " ++ py_repr (VList bucket_names)) ;;
  print ("  Listed buckets: " ++ str_of_nat (List.length bucket_names) ++ " buckets") ;;
  (* Put object *)
  boto_ s3 "put_object" [("Bucket", VStr bucket_name); ("Key", VStr object_key);
                         ("Body", VBytes object_content)] ;;
  print ("  Put object: " ++ object_key) ;;
  (* Get object *)
  response <- perform (Boto s3 "get_object"
                            [("Bucket", VStr bucket_name); ("Key", VStr object_key)]) ;;
  stream <- subscript response "Body" ;;
  retrieved_content <- stream_read stream ;;
  py_assert (eq_bytes retrieved_content object_content) "Object content mismatch" ;;
  n <- py_len retrieved_content ;;
  print ("  Got object: " ++ str_of_nat n ++ " bytes") ;;
  (* List objects *)
  response <- perform (Boto s3 "list_objects_v2" [("Bucket", VStr bucket_name)]) ;;
  objects <- dict_get response "Contents" (VList []) ;;
  n <- py_len objects ;;
  py_assert (Nat.eqb n 1) ("Expected 1 object, got " ++ str_of_nat n) ;;
  first <- index objects 0 ;;
  key <- subscript first "Key" ;;
  py_assert (eq_str key object_key) "" ;;
  n <- py_len objects ;;
  print ("  Listed objects: " ++ str_of_nat n ++ " objects") ;;
  (* Delete object *)
  boto_ s3 "delete_object" [("Bucket", VStr bucket_name); ("Key", VStr object_key)] ;;
  print ("  Deleted object: " ++ object_key) ;;
  (* Delete bucket *)
  boto_ s3 "delete_bucket" [("Bucket", VStr bucket_name)] ;;
  print ("  Deleted bucket: " ++ bucket_name).

(** The [except Exception as e] block of [test_s3_operations]: cleanup
    on failure, then the exception is raised again. *)
Definition test_s3_operations_except (s3 : client) (bucket_name : string) (e : exn)
  : M unit :=
  try_except
    (boto_ s3 "delete_object" [("Bucket", VStr bucket_name); ("Key", VStr object_key)])
    any_exn (fun _ => ret tt) ;;
  try_except
    (boto_ s3 "delete_bucket" [("Bucket", VStr bucket_name)])
    any_exn (fun _ => ret tt) ;;
  raise e.

Definition test_s3_operations : M unit :=
  print "Testing S3 operations..." ;;
  let s3 := get_client "s3" in
  bucket_name <- fresh_name "test-bucket-" ;;
  try_except
    (test_s3_operations_try s3 bucket_name)
    is_Exception
    (test_s3_operations_except s3 bucket_name) ;;
  print "✓ S3 operations passed".

Definition user_key : value :=
  VDict [("pk", VDict [("S", VStr "user#123")]); ("sk", VDict [("S", VStr "profile")])].

Definition test_dynamodb_operations : M unit :=
  print "Testing DynamoDB operations..." ;;
  let dynamodb := get_client "dynamodb" in
  table_name <- fresh_name "test-table-" ;;
  try_except
    ((* Create table *)
     boto_ dynamodb "create_table"
           [("TableName", VStr table_name);
            ("KeySchema", table_key_schema);
            ("AttributeDefinitions", table_attribute_definitions);
            ("BillingMode", VStr "PAY_PER_REQUEST")] ;;
     print ("  Created table: " ++ table_name) ;;
     (* Wait for table to be active *)
     time_sleep 500 ;;
     (* Describe table *)
     response <- perform (Boto dynamodb "describe_table" [("TableName", VStr table_name)]) ;;
     table <- subscript response "Table" ;;
     status <- subscript table "TableStatus" ;;
     py_assert (eq_str status "ACTIVE") ("Table not active: " ++ py_str status) ;;
     print ("  Table status: " ++ py_str status) ;;
     (* Put item *)
     let item := VDict [("pk", VDict [("S", VStr "user#123")]);
                        ("sk", VDict [("S", VStr "profile")]);
                        ("name", VDict [("S", VStr "Test User")]);
                        ("email", VDict [("S", VStr "test@example.com")]);
                        ("age", VDict [("N", VStr "25")])] in
     boto_ dynamodb "put_item" [("TableName", VStr table_name); ("Item", item)] ;;
     print "  Put item" ;;
     (* Get item *)
     response <- perform (Boto dynamodb "get_item"
                               [("TableName", VStr table_name); ("Key", user_key)]) ;;
     retrieved_item <- dict_get response "Item" VNone ;;
     py_assert (negb (is_none retrieved_item)) "Item not found" ;;
     name_attr <- subscript retrieved_item "name" ;;
     name_s <- subscript name_attr "S" ;;
     py_assert (eq_str name_s "Test User") "" ;;
     print "  Got item" ;;
     (* Query *)
     response <- perform (Boto dynamodb "query"
                               [("TableName", VStr table_name);
                                ("KeyConditionExpression", VStr "pk = :pk");
                                ("ExpressionAttributeValues",
                                 VDict [(":pk", VDict [("S", VStr "user#123")])])]) ;;
     items <- dict_get response "Items" (VList []) ;;
     n <- py_len items ;;
     py_assert (Nat.eqb n 1) ("Expected 1 item, got " ++ str_of_nat n) ;;
     n <- py_len items ;;
     print ("  Query returned " ++ str_of_nat n ++ " items") ;;
     (* Update item *)
     boto_ dynamodb "update_item"
           [("TableName", VStr table_name);
            ("Key", user_key);
            ("UpdateExpression", VStr "SET age = :age");
            ("ExpressionAttributeValues", VDict [(":age", VDict [("N", VStr "26")])])] ;;
     print "  Updated item" ;;
     (* Verify update *)
     response <- perform (Boto dynamodb "get_item"
                               [("TableName", VStr table_name); ("Key", user_key)]) ;;
     item' <- subscript response "Item" ;;
     age <- subscript item' "age" ;;
     age_n <- subscript age "N" ;;
     py_assert (eq_str age_n "26") "Update failed" ;;
     print "  Verified update" ;;
     (* Delete item *)
     boto_ dynamodb "delete_item" [("TableName", VStr table_name); ("Key", user_key)] ;;
     print "  Deleted item" ;;
     (* Delete table *)
     boto_ dynamodb "delete_table" [("TableName", VStr table_name)] ;;
     print ("  Deleted table: " ++ table_name))
    is_Exception
    (fun e =>
       (* Cleanup on failure *)
       try_except
         (boto_ dynamodb "delete_table" [("TableName", VStr table_name)])
         any_exn (fun _ => ret tt) ;;
       raise e) ;;
  print "✓ DynamoDB operations passed".

Definition test_lambda_api : M unit :=
  print "Testing Lambda API..." ;;
  let lambda_client := get_client "lambda" in
  response <- perform (Boto lambda_client "list_functions" []) ;;
  functions <- dict_get response "Functions" (VList []) ;;
  n <- py_len functions ;;
  print ("  Listed functions: " ++ str_of_nat n ++ " functions") ;;
  print "✓ Lambda API passed".

(** A test function: its [__name__] and what calling it does. *)
Record TestCase := {
  name : string;
  body : M unit
}.

(** The [for test in tests] loop of [main]; [failed] is the list that
    the loop appends to. *)
Fixpoint run_tests (tests : list TestCase) (failed : list (string * string))
  : M (list (string * string)) :=
  match tests with
  | [] => ret failed
  | test :: rest =>
      failed' <- try_except
                   (body test ;;
                    print "" ;;
                    ret failed)
                   is_Exception
                   (fun e =>
                      print ("✗ " ++ name test ++ " FAILED: " ++ str_of_exn e) ;;
                      print "" ;;
                      ret (failed ++ [(name test, str_of_exn e)])%list) ;;
      run_tests rest failed'
  end.

(** [main], for the list [tests] that it builds. *)
Definition main_on (tests : list TestCase) : M unit :=
  print (str_repeat "=" 60) ;;
  print "RustStack Integration Tests" ;;
  print (str_repeat "=" 60) ;;
  print ("Endpoint: " ++ ENDPOINT_URL) ;;
  print "" ;;
  failed <- run_tests tests [] ;;
  print (str_repeat "=" 60) ;;
  match failed with
  | _ :: _ =>
      print ("FAILED: " ++ str_of_nat (List.length failed) ++ "/"
                        ++ str_of_nat (List.length tests) ++ " tests") ;;
      for_each failed (fun entry =>
        let (name, error) := entry in
        print ("  - " ++ name ++ ": " ++ error)) ;;
      sys_exit 1
  | [] =>
      print ("PASSED: " ++ str_of_nat (List.length tests) ++ "/"
                        ++ str_of_nat (List.length tests) ++ " tests") ;;
      sys_exit 0
  end.

Definition tests : list TestCase :=
  [ {| name := "test_health_check"; body := test_health_check |};
    {| name := "test_s3_operations"; body := test_s3_operations |};
    {| name := "test_dynamodb_operations"; body := test_dynamodb_operations |};
    {| name := "test_lambda_api"; body := test_lambda_api |} ].

Definition main : M unit := main_on tests.

End Harness.

(** The exit status of the process when its main program ends with [r]:
    0 after a normal return, the code of a [SystemExit], 1 after any
    other uncaught exception. *)
Definition exit_code (r : result unit) : option Z :=
  match r with
  | Returned _ => Some 0
  | Raised (SystemExit code) => Some code
  | Raised (Exn _ _) => Some 1
  | OutOfFuel => None
  end.

(** Modelled from the spec: the test runner's handling of a fixture
    (pytest itself is not under src/).  Section 4.3 and 4.4: the fixture
    is created before the test body receives it; if creation fails there
    is no teardown and the body does not run; otherwise the teardown runs
    on every exit path of the body, and a teardown failure is recorded as
    a log line and never replaces the outcome of the body. *)
Definition with_fixture {R A} (f : fixture R) (test_body : R -> M A) : M A :=
  (r <- setup f ;;
   try_finally (test_body r)
     (try_except (teardown f r) any_exn
        (fun e => print ("teardown error: " ++ str_of_exn e))))%py.

(** Modelled from the spec: a test that requests the [delivery_stream]
    fixture, whose creation takes the identifier of the [s3_bucket]
    fixture (section 4.3, ordering invariant: the fixture depended upon
    is created first and torn down last). *)
Definition with_delivery_stream {A} (remote : Remote) (endpoint : string)
    (test_body : string -> string -> M A) : M A :=
  with_fixture (s3_bucket remote (s3_client endpoint)) (fun bucket_name =>
    with_fixture (delivery_stream remote (firehose_client endpoint) bucket_name)
      (fun stream_name => test_body stream_name bucket_name)).

(** ** examples/flask-lambda/app.py *)

Module FlaskApp.

(** A dict with string keys, in insertion order: [find] is [d[k]] and
    [k in d], [assign] is [d[k] = v] (an existing key keeps its place),
    [remove] is [del d[k]]. *)
Fixpoint find {V} (k : string) (d : list (string * V)) : option V :=
  match d with
  | [] => None
  | (k', v) :: d' => if String.eqb k' k then Some v else find k d'
  end.

Fixpoint assign {V} (k : string) (v : V) (d : list (string * V)) : list (string * V) :=
  match d with
  | [] => [(k, v)]
  | (k', v') :: d' =>
      if String.eqb k' k then (k, v) :: d' else (k', v') :: assign k v d'
  end.

Fixpoint remove {V} (k : string) (d : list (string * V)) : list (string * V) :=
  match d with
  | [] => []
  | (k', v') :: d' =>
      if String.eqb k' k then remove k d' else (k', v') :: remove k d'
  end.

(** An item is a dict; the module-level [items] maps an item id to its
    item. *)
Definition item : Type := list (string * value).
Definition Items : Type := list (string * item).

(** A view function runs on the dict [items]; an exception it raises
    leaves the dict as it was at that point. *)
Definition View (A : Type) : Type := Items -> result A * Items.

Definition view_ret {A} (a : A) : View A := fun items => (Returned a, items).

Definition view_bind {A B} (m : View A) (f : A -> View B) : View B :=
  fun items =>
    match m items with
    | (Returned a, items') => f a items'
    | (Raised e, items') => (Raised e, items')
    | (OutOfFuel, items') => (OutOfFuel, items')
    end.

Definition view_raise {A} (e : exn) : View A := fun items => (Raised e, items).

Declare Scope view_scope.
Delimit Scope view_scope with view.
Notation "x <- m ;; k" := (view_bind m (fun x => k))
  (at level 100, m at next level, right associativity) : view_scope.
Notation "m ;; k" := (view_bind m (fun _ => k))
  (at level 100, right associativity) : view_scope.

(** [k in v]: a key of a dict, an element of a list, a substring of a
    string; anything else is not iterable. *)
Definition contains (k : string) (v : value) : View bool :=
  match v with
  | VDict d => view_ret (match lookup k d with Some _ => true | None => false end)
  | VList l => view_ret (str_in k l)
  | VStr s => view_ret (match String.index 0%nat k s with Some _ => true | None => false end)
  | _ => view_raise (Exn TypeError "argument is not iterable")
  end.

(** [v[k]] for a string [k]. *)
Definition getitem (v : value) (k : string) : View value :=
  match v with
  | VDict d =>
      match lookup k d with
      | Some x => view_ret x
      | None => view_raise (Exn KeyError ("'" ++ k ++ "'"))
      end
  | VList _ => view_raise (Exn TypeError "list indices must be integers or slices, not str")
  | VStr _ => view_raise (Exn TypeError "string indices must be integers, not 'str'")
  | _ => view_raise (Exn TypeError "object is not subscriptable")
  end.

(** [v.get(k, default)]. *)
Definition get (v : value) (k : string) (default : value) : View value :=
  match v with
  | VDict d =>
      match lookup k d with
      | Some x => view_ret x
      | None => view_ret default
      end
  | _ => view_raise (Exn AttributeError "object has no attribute 'get'")
  end.

(** [jsonify({'error': msg})]. *)
Definition error_body (msg : string) : value := VDict [("error", VStr msg)].

(** [items[item_id]]; the views call it after [item_id in items]. *)
Definition the_item (item_id : string) : View item :=
  fun items =>
    match find item_id items with
    | Some it => (Returned it, items)
    | None => (Raised (Exn KeyError ("'" ++ item_id ++ "'")), items)
    end.

(** [items[item_id][field] = v]. *)
Definition set_field (item_id field : string) (v : value) : View unit :=
  fun items =>
    match find item_id items with
    | Some it => (Returned tt, assign item_id (assign field v it) items)
    | None => (Raised (Exn KeyError ("'" ++ item_id ++ "'")), items)
    end.

Local Open Scope view_scope.

(** A view returns the JSON body and the status; [AWS_REGION] is the
    environment variable, if set. *)
Definition health (AWS_REGION : option string) : View (value * Z) :=
  view_ret (VDict [("status", VStr "healthy");
                   ("service", VStr "flask-lambda");
                   ("region", VStr (match AWS_REGION with
                                    | Some region => region
                                    | None => "unknown"
                                    end))], 200).

Definition list_items : View (value * Z) :=
  fun items =>
    (Returned (VDict [("items", VList (map (fun kv => VDict (snd kv)) items))], 200),
     items).

Definition get_item (item_id : string) : View (value * Z) :=
  fun items =>
    match find item_id items with
    | None => (Returned (error_body "Item not found", 404), items)
    | Some it => (Returned (VDict it, 200), items)
    end.

(** [data] is [request.get_json()], [uuid4] the text of the uuid drawn. *)
Definition create_item (data : value) (uuid4 : string) : View (value * Z) :=
  if negb (truthy data) then view_ret (error_body "Name required", 400)
  else
    named <- contains "name" data ;;
    if negb named then view_ret (error_body "Name required", 400)
    else
      let item_id := uuid4 in
      name <- getitem data "name" ;;
      description <- get data "description" (VStr "") ;;
      let it := [("id", VStr item_id); ("name", name); ("description", description)] in
      (fun items => (Returned tt, assign item_id it items)) ;;
      view_ret (VDict it, 201).

Definition update_item (item_id : string) (data : value) : View (value * Z) :=
  fun items =>
    match find item_id items with
    | None => (Returned (error_body "Item not found", 404), items)
    | Some _ =>
        (name <- get data "name" VNone ;;
         (if truthy name
          then (v <- getitem data "name" ;; set_field item_id "name" v)
          else view_ret tt) ;;
         description <- get data "description" VNone ;;
         (if truthy description
          then (v <- getitem data "description" ;; set_field item_id "description" v)
          else view_ret tt) ;;
         it <- the_item item_id ;;
         view_ret (VDict it, 200)) items
    end.

Definition delete_item (item_id : string) : View (value * Z) :=
  fun items =>
    match find item_id items with
    | None => (Returned (error_body "Item not found", 404), items)
    | Some _ => (Returned (VStr "", 204), remove item_id items)
    end.

(** The routes that the decorators declare, with what a request brings:
    the id in the path, the JSON body, and for a creation the uuid drawn
    while serving it. *)
Inductive request : Type :=
| GET_health
| GET_items
| GET_item (item_id : string)
| POST_items (data : value) (uuid4 : string)
| PUT_item (item_id : string) (data : value)
| DELETE_item (item_id : string).

Definition serve (AWS_REGION : option string) (req : request) : View (value * Z) :=
  match req with
  | GET_health => health AWS_REGION
  | GET_items => list_items
  | GET_item item_id => get_item item_id
  | POST_items data uuid4 => create_item data uuid4
  | PUT_item item_id data => update_item item_id data
  | DELETE_item item_id => delete_item item_id
  end.

(** The dict after a sequence of requests, whatever each one answered. *)
Fixpoint serve_all (AWS_REGION : option string) (reqs : list request) (items : Items)
  : Items :=
  match reqs with
  | [] => items
  | req :: reqs' => serve_all AWS_REGION reqs' (snd (serve AWS_REGION req items))
  end.

End FlaskApp.

(** ** examples/test_integration.py *)

(** The tests that create a resource themselves and release it in a
    [finally] block.  Each takes its client from the fixture of that
    name. *)

Section Tests.

Variable remote : Remote.

(** [s in v]: a key of a dict, an element of a list, a substring of a
    string. *)
Definition py_in (s : string) (v : value) : M bool :=
  match v with
  | VDict d => ret (match lookup s d with Some _ => true | None => false end)
  | VList l => ret (str_in s l)
  | VStr t => ret (match String.index 0%nat s t with Some _ => true | None => false end)
  | _ => raise (Exn TypeError "argument is not iterable")
  end.

(** *** TestAPIGatewayV2 *)

(** The [try] block of [test_api_lifecycle]. *)
Definition test_api_lifecycle_try (apigatewayv2_client : client) (api_name : string)
    (response api_id : value) : M unit :=
  name_ <- subscript response "Name" ;;
  py_assert (eq_str name_ api_name) "" ;;
  protocol <- subscript response "ProtocolType" ;;
  py_assert (eq_str protocol "HTTP") "" ;;
  (* Get *)
  response <- perform remote (Boto apigatewayv2_client "get_api" [("ApiId", api_id)]) ;;
  name_ <- subscript response "Name" ;;
  py_assert (eq_str name_ api_name) "".

Definition test_api_lifecycle (apigatewayv2_client : client) : M unit :=
  api_name <- fresh_name remote "test-" ;;
  (* Create *)
  response <- perform remote (Boto apigatewayv2_client "create_api"
                                [("Name", VStr api_name); ("ProtocolType", VStr "HTTP")]) ;;
  api_id <- subscript response "ApiId" ;;
  try_finally
    (test_api_lifecycle_try apigatewayv2_client api_name response api_id)
    ((* Delete *)
     boto_ remote apigatewayv2_client "delete_api" [("ApiId", api_id)]).

(** *** TestFirehose *)

(** The [try] block of [test_delivery_stream_lifecycle]. *)
Definition test_delivery_stream_lifecycle_try (firehose_client : client)
    (stream_name : string) : M unit :=
  (* Describe *)
  response <- perform remote (Boto firehose_client "describe_delivery_stream"
                                [("DeliveryStreamName", VStr stream_name)]) ;;
  desc <- subscript response "DeliveryStreamDescription" ;;
  name_ <- subscript desc "DeliveryStreamName" ;;
  py_assert (eq_str name_ stream_name) "" ;;
  status <- subscript desc "DeliveryStreamStatus" ;;
  py_assert (eq_str status "ACTIVE") "" ;;
  (* List *)
  response <- perform remote (Boto firehose_client "list_delivery_streams" []) ;;
  names <- subscript response "DeliveryStreamNames" ;;
  found <- py_in stream_name names ;;
  py_assert found "".

Definition test_delivery_stream_lifecycle (firehose_client : client) (s3_bucket : string)
  : M unit :=
  stream_name <- fresh_name remote "test-" ;;
  (* Create *)
  boto_ remote firehose_client "create_delivery_stream"
        [("DeliveryStreamName", VStr stream_name);
         ("DeliveryStreamType", VStr "DirectPut");
         ("ExtendedS3DestinationConfiguration",
          VDict [("BucketARN", VStr ("arn:aws:s3:::" ++ s3_bucket));
                 ("RoleARN", VStr "arn:aws:iam::000000000000:role/firehose")])] ;;
  try_finally
    (test_delivery_stream_lifecycle_try firehose_client stream_name)
    ((* Delete *)
     boto_ remote firehose_client "delete_delivery_stream"
           [("DeliveryStreamName", VStr stream_name)]).

(** *** TestCloudWatchLogs *)

(** The [try] block of [test_log_group_lifecycle]. *)
Definition test_log_group_lifecycle_try (logs_client : client) (group_name : string)
  : M unit :=
  (* Describe *)
  response <- perform remote (Boto logs_client "describe_log_groups"
                                [("logGroupNamePrefix", VStr group_name)]) ;;
  log_groups <- subscript response "logGroups" ;;
  items <- iterate log_groups ;;
  groups <- map_M (fun g => subscript g "logGroupName") items ;;
  py_assert (str_in group_name groups) "".

Definition test_log_group_lifecycle (logs_client : client) : M unit :=
  group_name <- fresh_name remote "/test/" ;;
  (* Create *)
  boto_ remote logs_client "create_log_group" [("logGroupName", VStr group_name)] ;;
  try_finally
    (test_log_group_lifecycle_try logs_client group_name)
    ((* Delete *)
     boto_ remote logs_client "delete_log_group" [("logGroupName", VStr group_name)]).

(** *** TestDynamoDB *)

(** [test_table_lifecycle] has no [finally]: the deletion is its last
    statement. *)
Definition test_table_lifecycle (dynamodb_client : client) : M unit :=
  table_name <- fresh_name remote "test-" ;;
  (* Create *)
  boto_ remote dynamodb_client "create_table"
        [("TableName", VStr table_name);
         ("KeySchema", VList [VDict [("AttributeName", VStr "id"); ("KeyType", VStr "HASH")]]);
         ("AttributeDefinitions",
          VList [VDict [("AttributeName", VStr "id"); ("AttributeType", VStr "S")]]);
         ("BillingMode", VStr "PAY_PER_REQUEST")] ;;
  (* Describe *)
  response <- perform remote (Boto dynamodb_client "describe_table"
                                [("TableName", VStr table_name)]) ;;
  table <- subscript response "Table" ;;
  name_ <- subscript table "TableName" ;;
  py_assert (eq_str name_ table_name) "" ;;
  (* Delete *)
  boto_ remote dynamodb_client "delete_table" [("TableName", VStr table_name)].

End Tests.

(** * Notions used in the properties *)

(** ** Reading a run of the readiness loop *)

Definition health_url (endpoint : string) : string := endpoint ++ "/health".

Local Open Scope list_scope.
Unset Implicit Arguments.

(** The world after a health request issued in [w]. *)
Definition after_get (remote : Remote) (url : string) (timeout : Z) (w : World) : World :=
  let (r, latency) := http_get remote (clock w) (trace w) url timeout in
  {| clock := clock w + Z.of_N latency;
     trace := trace w ++ [HttpEvent (clock w) url timeout r latency];
     stdout := stdout w |}.

Definition after_sleep (ms : Z) (w : World) : World :=
  {| clock := clock w + ms; trace := trace w; stdout := stdout w |}.

(** How the loop reads one health event: a response with status 200 ends
    it with [True], any other response and any error of the
    [RequestException] family lead to the sleep, any other error
    propagates. *)
Definition is_ready (ev : event) : bool :=
  match ev with
  | HttpEvent _ _ _ (Ok resp) _ => status_code resp =? 200
  | _ => false
  end.

Definition is_retry (ev : event) : bool :=
  match ev with
  | HttpEvent _ _ _ (Ok resp) _ => negb (status_code resp =? 200)
  | HttpEvent _ _ _ (Fault c _) _ => lib_error_eqb c RequestException
  | _ => false
  end.

Definition propagated (ev : event) : option exn :=
  match ev with
  | HttpEvent _ _ _ (Fault c msg) _ =>
      if lib_error_eqb c RequestException then None else Some (Exn (LibError c) msg)
  | _ => None
  end.

Definition ev_latency (ev : event) : Z :=
  match ev with
  | HttpEvent _ _ _ _ l => Z.of_N l
  | CallEvent _ _ _ l => Z.of_N l
  end.

(** [ev] is a health request of a loop started at [start] with budget
    [timeout]: a GET of [endpoint/health] with a 1 s timeout, issued
    while the elapsed time was still below [timeout]. *)
Definition probes (endpoint : string) (start timeout : Z) (ev : event) : Prop :=
  match ev with
  | HttpEvent t url to _ _ => url = health_url endpoint /\ to = 1 /\ t - start < timeout
  | CallEvent _ _ _ _ => False
  end.

(** The health events of one run and how the run ends. *)
Inductive polls : list event -> result bool -> Prop :=
| polls_timeout : polls [] (Returned false)
| polls_ready ev : is_ready ev = true -> polls [ev] (Returned true)
| polls_raise ev e : propagated ev = Some e -> polls [ev] (Raised e)
| polls_retry ev evs r : is_retry ev = true -> polls evs r -> polls (ev :: evs) r.

(** Every recorded interaction is an answer of the remote side. *)
Definition answered_by (remote : Remote) (ev : event) : Prop :=
  match ev with
  | HttpEvent t url to o lat => exists h, http_get remote t h url to = (o, lat)
  | CallEvent t c o lat => exists h, invoke remote t h c = (o, lat)
  end.

(** What one run of the loop from [w] to [w'] with result [r] did. *)
Definition loop_facts (remote : Remote) (endpoint : string) (start timeout d : Z)
    (w : World) (r : result bool) (w' : World) : Prop :=
  exists evs,
    trace w' = trace w ++ evs /\
    stdout w' = stdout w /\
    polls evs r /\
    Forall (probes endpoint start timeout) evs /\
    Forall (answered_by remote) evs /\
    clock w <= clock w' /\
    (r = Returned false -> timeout <= clock w' - start) /\
    (Forall (fun ev => ev_latency ev <= d) evs ->
     clock w - start < timeout + 100 + d ->
     clock w' - start < timeout + 100 + d).

(** A run read from its end: the events before the deciding one all led
    to the sleep. *)
Definition ends_with (evs : list event) (last : event -> Prop) : Prop :=
  exists before ev, evs = before ++ [ev] /\ Forall (fun x => is_retry x = true) before /\ last ev.

Definition run_shape (evs : list event) (r : result bool) : Prop :=
  match r with
  | Returned true => ends_with evs (fun ev => is_ready ev = true)
  | Returned false => Forall (fun x => is_retry x = true) evs
  | Raised e => is_RequestException e = false /\ ends_with evs (fun ev => propagated ev = Some e)
  | OutOfFuel => False
  end.

(** The "ready" payload of the interface description: HTTP 200 with a
    JSON body that has a status field whose value signals that the
    service is operational; [test_health_check] accepts "running". *)
Definition ready_payload (resp : response) : bool :=
  (status_code resp =? 200) &&
  match json_body resp with
  | Some (VDict d) =>
      match lookup "status" d with
      | Some v => eq_str v "running"
      | None => false
      end
  | _ => false
  end.

Definition carries_ready_payload (ev : event) : bool :=
  match ev with
  | HttpEvent _ _ _ (Ok resp) _ => ready_payload resp
  | _ => false
  end.

(** The service never responds: every health request fails with an error
    of the [RequestException] family (refused, reset, timed out) after at
    most [d] milliseconds. *)
Definition never_responds (remote : Remote) (d : Z) : Prop :=
  forall t h url to, exists msg lat,
    http_get remote t h url to = (Fault RequestException msg, lat) /\ Z.of_N lat <= d.

(** The health event that a request issued in [w] records. *)
Definition event_at (remote : Remote) (endpoint : string) (w : World) : event :=
  let (o, lat) := http_get remote (clock w) (trace w) (health_url endpoint) 1 in
  HttpEvent (clock w) (health_url endpoint) 1 o lat.

(** The world in which attempt number [k] (from 0) is issued when all
    attempts before it led to the sleep. *)
Fixpoint attempt (remote : Remote) (endpoint : string) (k : nat) (w : World) : World :=
  match k with
  | O => w
  | S k' =>
      attempt remote endpoint k'
        (after_sleep 100 (after_get remote (health_url endpoint) 1 w))
  end.

(** ** Reading a run of the aggregator *)

(** The world after [print(s)]. *)
Definition printed (s : string) (w : World) : World :=
  {| clock := clock w; trace := trace w; stdout := stdout w ++ [s] |}.

(** [m] always ends, and what it raises is an [Exception]. *)
Definition catchable {A} (m : M A) : Prop :=
  forall w, match fst (m w) with
            | Returned _ => True
            | Raised e => is_Exception e = true
            | OutOfFuel => False
            end.

(** A test either returns or fails with an exception that
    [except Exception] catches: a failed assertion, an error of a client
    call, a missing key. *)
Definition passes_or_fails (m : M unit) : Prop := catchable m.

(** What the loop of [main] prints once a test has ended with [r]. *)
Definition report (test : TestCase) (r : result unit) (w : World) : World :=
  match r with
  | Returned _ => printed "" w
  | Raised e =>
      printed "" (printed ("✗ " ++ name test ++ " FAILED: " ++ str_of_exn e)%string w)
  | OutOfFuel => w
  end.

(** [ran tests w outs w']: starting in [w], the body of every test of
    [tests] was run once, in order, each in the world that the report of
    the one before left; [outs] pairs each test's name with how its body
    ended, and [w'] is the world after the last report. *)
Inductive ran : list TestCase -> World -> list (string * result unit) -> World -> Prop :=
| ran_nil w : ran [] w [] w
| ran_cons test rest w r w1 outs w' :
    body test w = (r, w1) ->
    ran rest (report test r w1) outs w' ->
    ran (test :: rest) w ((name test, r) :: outs) w'.

(** The entry that [main] appends to [failed] for an outcome. *)
Definition failure (out : string * result unit) : list (string * string) :=
  match snd out with
  | Raised e => [(fst out, str_of_exn e)]
  | _ => []
  end.

Definition failures (outs : list (string * result unit)) : list (string * string) :=
  flat_map failure outs.

(** The world in which the loop of [main] starts. *)
Definition after_banner (w : World) : World :=
  printed "" (printed ("Endpoint: " ++ ENDPOINT_URL)%string
    (printed (str_repeat "=" 60) (printed "RustStack Integration Tests"
      (printed (str_repeat "=" 60) w)))).

(** The lines that [main] prints after the loop. *)
Definition summary (total : nat) (failed : list (string * string)) : list string :=
  str_repeat "=" 60 ::
  match failed with
  | [] => [("PASSED: " ++ str_of_nat total ++ "/" ++ str_of_nat total ++ " tests")%string]
  | _ :: _ =>
      ("FAILED: " ++ str_of_nat (List.length failed) ++ "/" ++ str_of_nat total
                  ++ " tests")%string
      :: map (fun entry => ("  - " ++ fst entry ++ ": " ++ snd entry)%string) failed
  end.

(** A short name for an interaction. *)
Definition label (ev : event) : string :=
  match ev with
  | HttpEvent _ url _ _ _ => ("GET " ++ url)%string
  | CallEvent _ (Boto c operation _) _ _ => (service_name c ++ "." ++ operation)%string
  | CallEvent _ Uuid4Hex _ _ => "uuid4"
  | CallEvent _ (EnvironGet _ _) _ _ => "environ.get"
  | CallEvent _ (PathExists _) _ _ => "path.exists"
  | CallEvent _ (Popen _) _ _ => "Popen"
  | CallEvent _ (ProcKill _) _ _ => "kill"
  | CallEvent _ (ProcCommunicate _) _ _ => "communicate"
  | CallEvent _ (ProcTerminate _) _ _ => "terminate"
  | CallEvent _ (ProcWait _ _) _ _ => "wait"
  end.

(** The call of an interaction, if it is one of a client library. *)
Definition ev_call (ev : event) : option call :=
  match ev with
  | HttpEvent _ _ _ _ _ => None
  | CallEvent _ c _ _ => Some c
  end.

(** The service is unavailable: every health request and every client
    call fails. *)
Definition unavailable (remote : Remote) : Prop :=
  (forall t h url to, exists c msg lat, http_get remote t h url to = (Fault c msg, lat)) /\
  (forall t h c op args, exists cl msg lat,
     invoke remote t h (Boto c op args) = (Fault cl msg, lat)).

(** ** Reading a teardown *)

(** [m] returns, whatever the remote side does. *)
Definition never_raises (m : M unit) : Prop :=
  forall w, exists w', m w = (Returned tt, w').

(** Run twice in a row in the [finally] of a test body, [td] does not
    raise and leaves the outcome [r] of the body, passed or failed, as it
    was. *)
Definition repeatable (td : M unit) : Prop :=
  never_raises (td ;; td) /\
  forall (A : Type) (test_body : M A) w r w1,
    test_body w = (r, w1) -> r <> OutOfFuel ->
    exists w2, try_finally test_body (td ;; td) w = (r, w2).

(** What the [finally] block of [ruststack_process] does between [w] and
    [w']: it asks the process to terminate and, unless that call itself
    failed, waits for it with a timeout of 5 s; an error of either call
    is the exception it ends with, and nothing is sent after the wait. *)
Definition terminate_then_wait (proc : value) (w : World) (r : result unit) (w' : World)
  : Prop :=
  exists o1 lat1,
    match o1 with
    | Fault c msg =>
        trace w' = trace w ++ [CallEvent (clock w) (ProcTerminate proc) o1 lat1] /\
        r = Raised (Exn (LibError c) msg)
    | Ok _ =>
        exists o2 lat2,
          trace w' = trace w ++
            [CallEvent (clock w) (ProcTerminate proc) o1 lat1;
             CallEvent (clock w + Z.of_N lat1) (ProcWait proc 5) o2 lat2] /\
          r = match o2 with
              | Ok _ => Returned tt
              | Fault c msg => Raised (Exn (LibError c) msg)
              end
    end.

(** [m] only ever appends to the trace. *)
Definition grows {A} (m : M A) : Prop :=
  forall w r w', m w = (r, w') -> exists evs, trace w' = trace w ++ evs.

(** [m], when it returns, has added interactions with the labels [ls] to
    the trace. *)
Definition emits {A} (m : M A) (ls : list string) : Prop :=
  forall w a w', m w = (Returned a, w') ->
    map label (trace w') = map label (trace w) ++ ls.

(** ** Concrete remote sides *)

(** Nothing listens: every client call fails to connect at once.  What
    stays on the local machine works: a uuid is drawn, the environment
    has no [RUSTSTACK_BINARY] and no binary has been built. *)
Definition refuse_call : Z -> list event -> call -> outcome value * N :=
  fun _ _ c =>
    match c with
    | Uuid4Hex => (Ok (VStr "9f1c2ab47d3e4c0fa5b6c7d8e9f00112"), 0%N)
    | EnvironGet _ default => (Ok (VStr default), 0%N)
    | PathExists _ => (Ok (VBool false), 0%N)
    | _ => (Fault ClientError "Could not connect to the endpoint URL", 0%N)
    end.

Definition remote_down : Remote := {|
  http_get := fun _ _ _ _ => (Fault RequestException "Connection refused", 0%N);
  invoke := refuse_call
|}.

(** Every health request runs into its 1 s timeout. *)
Definition remote_timing_out : Remote := {|
  http_get := fun _ _ _ _ => (Fault RequestException "Read timed out. (read timeout=1)", 1000%N);
  invoke := refuse_call
|}.

(** Something else answers on the port: status 200 with a body that is
    not JSON. *)
Definition remote_not_json : Remote := {|
  http_get := fun _ _ _ _ => (Ok {| status_code := 200; json_body := None |}, 5%N);
  invoke := refuse_call
|}.

(** The request fails with an error outside the [requests] family. *)
Definition remote_os_error : Remote := {|
  http_get := fun _ _ _ _ => (Fault OSError "Too many open files", 0%N);
  invoke := refuse_call
|}.

(** The service is starting: 503 twice, then 200 with the running
    status. *)
Definition remote_starting : Remote := {|
  http_get := fun _ h _ _ =>
    if (List.length h <? 2)%nat
    then (Ok {| status_code := 503; json_body := None |}, 20%N)
    else (Ok {| status_code := 200;
                json_body := Some (VDict [("status", VStr "running")]) |}, 20%N);
  invoke := refuse_call
|}.

(** The bucket holds two objects and the service refuses to delete
    objects; everything else succeeds. *)
Definition remote_delete_refused : Remote := {|
  http_get := fun _ _ _ _ =>
    (Ok {| status_code := 200;
           json_body := Some (VDict [("status", VStr "running")]) |}, 1%N);
  invoke := fun _ _ c =>
    match c with
    | Boto _ op _ =>
        if String.eqb op "list_objects_v2" then
          (Ok (VDict [("Contents", VList [VDict [("Key", VStr "a.txt")];
                                          VDict [("Key", VStr "b.txt")]])]), 1%N)
        else if String.eqb op "delete_object" then
          (Fault ClientError
             "An error occurred (InternalError) when calling the DeleteObject operation",
           1%N)
        else (Ok (VDict []), 1%N)
    | Uuid4Hex => (Ok (VStr "9f1c2ab47d3e4c0fa5b6c7d8e9f00112"), 0%N)
    | _ => (Ok VNone, 0%N)
    end
|}.

(** The process ignores the request to terminate: the wait runs into its
    timeout.  The service itself is up. *)
Definition remote_ignores_terminate : Remote := {|
  http_get := fun _ _ _ _ =>
    (Ok {| status_code := 200;
           json_body := Some (VDict [("status", VStr "running")]) |}, 10%N);
  invoke := fun _ _ c =>
    match c with
    | EnvironGet _ default => (Ok (VStr default), 0%N)
    | PathExists _ => (Ok (VBool true), 0%N)
    | Popen _ => (Ok (VProc 4242), 3%N)
    | ProcWait _ _ => (Fault TimeoutExpired "Command timed out after 5 seconds", 5000%N)
    | ProcCommunicate _ => (Ok (VList [VBytes []; VBytes []]), 0%N)
    | Uuid4Hex => (Ok (VStr "9f1c2ab47d3e4c0fa5b6c7d8e9f00112"), 0%N)
    | Boto _ _ _ => (Ok (VDict []), 1%N)
    | _ => (Ok VNone, 0%N)
    end
|}.

(** The arguments of the successful calls of [operation] so far, oldest
    first. *)
Fixpoint calls_of (operation : string) (h : list event) : list kwargs :=
  match h with
  | [] => []
  | CallEvent _ (Boto _ op args) (Ok _) _ :: h' =>
      if String.eqb op operation then args :: calls_of operation h'
      else calls_of operation h'
  | _ :: h' => calls_of operation h'
  end.

Definition arg (k : string) (args : kwargs) : value :=
  match lookup k args with
  | Some v => v
  | None => VNone
  end.

Fixpoint set_key (k : string) (v : value) (d : list (string * value))
  : list (string * value) :=
  match d with
  | [] => [(k, v)]
  | (k', v') :: d' => if String.eqb k' k then (k, v) :: d' else (k', v') :: set_key k v d'
  end.

(** An emulation that answers from the history of the calls it has
    accepted: buckets and objects that were put are listed and read
    back, tables are active at once, an item comes back as it was put,
    with the age of the update once there was one. *)
Definition healthy_call (h : list event) (c : call) : outcome value :=
  match c with
  | Boto _ op args =>
      if String.eqb op "list_buckets" then
        Ok (VDict [("Buckets",
                    VList (map (fun a => VDict [("Name", arg "Bucket" a)])
                               (calls_of "create_bucket" h)))])
      else if String.eqb op "get_object" then
        match rev (calls_of "put_object" h) with
        | a :: _ => Ok (VDict [("Body", arg "Body" a)])
        | [] => Fault ClientError "An error occurred (NoSuchKey)"
        end
      else if String.eqb op "list_objects_v2" then
        Ok (VDict [("Contents",
                    VList (map (fun a => VDict [("Key", arg "Key" a)])
                               (calls_of "put_object" h)))])
      else if String.eqb op "describe_table" then
        Ok (VDict [("Table", VDict [("TableStatus", VStr "ACTIVE")])])
      else if String.eqb op "get_item" then
        match rev (calls_of "put_item" h), calls_of "update_item" h with
        | a :: _, [] => Ok (VDict [("Item", arg "Item" a)])
        | a :: _, _ :: _ =>
            match arg "Item" a with
            | VDict item => Ok (VDict [("Item", VDict (set_key "age" (VDict [("N", VStr "26")]) item))])
            | other => Ok (VDict [("Item", other)])
            end
        | [], _ => Ok (VDict [])
        end
      else if String.eqb op "query" then
        Ok (VDict [("Items", VList (map (arg "Item") (calls_of "put_item" h)))])
      else if String.eqb op "list_functions" then
        Ok (VDict [("Functions", VList [])])
      else Ok (VDict [])
  | Uuid4Hex => Ok (VStr "9f1c2ab47d3e4c0fa5b6c7d8e9f00112")
  | EnvironGet _ default => Ok (VStr default)
  | PathExists _ => Ok (VBool true)
  | Popen _ => Ok (VProc 4242)
  | ProcCommunicate _ => Ok (VList [VBytes []; VBytes []])
  | _ => Ok VNone
  end.

Definition remote_healthy : Remote := {|
  http_get := fun _ _ _ _ =>
    (Ok {| status_code := 200;
           json_body := Some (VDict [("status", VStr "running")]) |}, 2%N);
  invoke := fun _ h c => (healthy_call h c, 3%N)
|}.

(** A test body for [delivery_stream]: one record is put. *)
Definition put_one_record (stream_name bucket_name : string) : M value :=
  perform remote_healthy
    (Boto (firehose_client "http://localhost:4566") "put_record"
       [("DeliveryStreamName", VStr stream_name)]).

Definition world_with_bucket : World :=
  snd (setup (s3_bucket remote_healthy (s3_client "http://localhost:4566")) initial_world).

Definition world_with_stream : World :=
  snd (setup (delivery_stream remote_healthy (firehose_client "http://localhost:4566")
                "test-bucket-9f1c2ab4") world_with_bucket).

Definition world_after_body : World :=
  snd (put_one_record "test-stream-9f1c2ab4" "test-bucket-9f1c2ab4" world_with_stream).

(** ** Reading the dict of the Flask application *)

(** The item that [create_item] builds for the id [k]. *)
Definition item_shape (k : string) (it : FlaskApp.item) : Prop :=
  exists name description,
    it = [("id", VStr k); ("name", name); ("description", description)].

(** The dict is one: no key occurs twice; and every item has the three
    fields, its ['id'] being the key it is stored under. *)
Definition well_formed (items : FlaskApp.Items) : Prop :=
  NoDup (map fst items) /\ Forall (fun kv => item_shape (fst kv) (snd kv)) items.

(** [m] keeps the property [P] of the dict, however it ends. *)
Definition keeps {A} (P : FlaskApp.Items -> Prop) (m : FlaskApp.View A) : Prop :=
  forall items, P items -> P (snd (m items)).


(** What an update does to one field of an item: a value of the body
    that is truthy replaces it, a missing or falsy one leaves it. *)
Definition updated_field (field : string) (d : list (string * value))
    (it : FlaskApp.item) : FlaskApp.item :=
  match lookup field d with
  | Some v => if truthy v then FlaskApp.assign field v it else it
  | None => it
  end.

(** ** Reading more of the fixtures and the tests *)

(** The listing [response] names [keys]: under [field] it holds one dict
    per key, with the key under [key_name]; a missing [field] is the
    empty listing. *)
Definition lists_keys (response : value) (field key_name : string) (keys : list value)
  : Prop :=
  exists d objs,
    response = VDict d /\
    match lookup field d with Some v => v | None => VList [] end = VList objs /\
    Forall2 (fun obj k => exists od, obj = VDict od /\ lookup key_name od = Some k)
            objs keys.

(** The service accepts every call of [operation] made through [c]. *)
Definition always_succeeds (remote : Remote) (c : client) (operation : string) : Prop :=
  forall t h args, exists v lat, invoke remote t h (Boto c operation args) = (Ok v, lat).

(** A service that holds two objects in every bucket and one policy on
    every role, and accepts every call. *)
Definition remote_listing : Remote := {|
  http_get := fun _ _ _ _ =>
    (Ok {| status_code := 200;
           json_body := Some (VDict [("status", VStr "running")]) |}, 1%N);
  invoke := fun _ _ c =>
    match c with
    | Boto _ op _ =>
        if String.eqb op "list_objects_v2" then
          (Ok (VDict [("Contents", VList [VDict [("Key", VStr "a.txt")];
                                          VDict [("Key", VStr "b.txt")]])]), 1%N)
        else if String.eqb op "list_attached_role_policies" then
          (Ok (VDict [("AttachedPolicies",
                       VList [VDict [("PolicyArn",
                                      VStr "arn:aws:iam::000000000000:policy/test-policy")]])]),
           1%N)
        else (Ok (VDict []), 1%N)
    | Uuid4Hex => (Ok (VStr "9f1c2ab47d3e4c0fa5b6c7d8e9f00112"), 0%N)
    | _ => (Ok VNone, 0%N)
    end
|}.

(** The calls, other than HTTP requests, among the events [evs]. *)
Definition calls (evs : list event) : list call :=
  flat_map (fun ev => match ev_call ev with Some c => [c] | None => [] end) evs.

(** What [perform] raises for the answer [o]. *)
Definition raised_by {A} (o : outcome value) (r : result A) : Prop :=
  match o with
  | Ok _ => False
  | Fault c msg => r = Raised (Exn (LibError c) msg)
  end.

(** The exception that ends a start-up whose process left [so] on its
    standard output and [se] on its standard error: the failure with
    both decoded, unless one of them does not decode. *)
Definition start_failure (so se : list Byte.byte) : exn :=
  if utf8_valid so && utf8_valid se
  then Exn Failed ("RustStack failed to start." ++ newline
                   ++ "stdout: " ++ string_of_list_byte so ++ newline
                   ++ "stderr: " ++ string_of_list_byte se)%string
  else Exn UnicodeDecodeError "'utf-8' codec can't decode bytes".

(** What the start-up of [ruststack_process] did after a prober that
    reported not-ready at [w1]: it killed the process and, unless that
    failed, collected its output; it ends with an exception. *)
Definition kill_then_communicate (proc : value) (w1 : World)
    (r : result (value * string)) (evs : list event) : Prop :=
  (exists o1 lat1,
     evs = [CallEvent (clock w1) (ProcKill proc) o1 lat1] /\ raised_by o1 r) \/
  (exists v lat1 o2 lat2,
     evs = [CallEvent (clock w1) (ProcKill proc) (Ok v) lat1;
            CallEvent (clock w1 + Z.of_N lat1) (ProcCommunicate proc) o2 lat2] /\
     (exists e, r = Raised e) /\
     forall so se, o2 = Ok (VList [VBytes so; VBytes se]) ->
       r = Raised (start_failure so se)).

(** The process does not answer the prober and prints one line on each
    of its output streams before it is killed. *)
Definition remote_fails_to_start : Remote := {|
  http_get := fun _ _ _ _ => (Fault RequestException "Connection refused", 900%N);
  invoke := fun _ _ c =>
    match c with
    | EnvironGet _ default => (Ok (VStr default), 0%N)
    | PathExists _ => (Ok (VBool true), 0%N)
    | Popen _ => (Ok (VProc 4242), 3%N)
    | ProcCommunicate _ =>
        (Ok (VList [VBytes (list_byte_of_string "starting");
                    VBytes (list_byte_of_string "address in use")]), 1%N)
    | _ => (Ok VNone, 1%N)
    end
|}.

(** No binary at the configured path. *)
Definition remote_without_binary : Remote := {|
  http_get := fun _ _ _ _ => (Fault RequestException "Connection refused", 1%N);
  invoke := fun _ _ c =>
    match c with
    | EnvironGet _ default => (Ok (VStr default), 0%N)
    | PathExists _ => (Ok (VBool false), 0%N)
    | _ => (Ok VNone, 1%N)
    end
|}.

(** [e] is the outcome of [pytest.skip]. *)
Definition is_skip (e : exn) : bool :=
  match e with
  | Exn Skipped _ => true
  | _ => false
  end.

(** [m] talks to nobody: it leaves the trace as it is. *)
Definition silent {A} (m : M A) : Prop :=
  forall w, trace (snd (m w)) = trace w.

(** When [m] returns, the calls [cs] were the last it made. *)
Definition ends_with_calls {A} (m : M A) (cs : list call) : Prop :=
  forall w a w', m w = (Returned a, w') ->
    exists evs before, trace w' = trace w ++ evs /\ calls evs = before ++ cs.

(** A service whose API gateway hands out the id [a1b2c3d4] and echoes
    the name it was given; every other call is accepted. *)
Definition remote_gateway : Remote := {|
  http_get := fun _ _ _ _ =>
    (Ok {| status_code := 200;
           json_body := Some (VDict [("status", VStr "running")]) |}, 1%N);
  invoke := fun _ h c =>
    match c with
    | Boto _ op args =>
        if String.eqb op "create_api" then
          (Ok (VDict [("ApiId", VStr "a1b2c3d4"); ("Name", arg "Name" args);
                      ("ProtocolType", arg "ProtocolType" args)]), 2%N)
        else if String.eqb op "get_api" then
          (Ok (VDict [("ApiId", arg "ApiId" args); ("Name", VStr "test-9f1c2ab4");
                      ("ProtocolType", VStr "HTTP")]), 2%N)
        else (Ok (VDict []), 2%N)
    | Uuid4Hex => (Ok (VStr "9f1c2ab47d3e4c0fa5b6c7d8e9f00112"), 0%N)
    | _ => (Ok VNone, 0%N)
    end
|}.

(** The description [o] of a table names [table_name]. *)
Definition describes (o : outcome value) (table_name : string) : bool :=
  match o with
  | Ok (VDict d) =>
      match lookup "Table" d with
      | Some (VDict t) =>
          match lookup "TableName" t with
          | Some v => eq_str v table_name
          | None => false
          end
      | _ => false
      end
  | _ => false
  end.

(** The worlds in which the [try] blocks of two tests of
    test_integration.py start against the working service. *)
Definition world_with_test_stream : World :=
  snd (boto_ remote_healthy (firehose_client "http://localhost:4566")
         "create_delivery_stream"
         [("DeliveryStreamName", VStr "test-9f1c2ab4");
          ("DeliveryStreamType", VStr "DirectPut");
          ("ExtendedS3DestinationConfiguration",
           VDict [("BucketARN", VStr "arn:aws:s3:::test-bucket-9f1c2ab4");
                  ("RoleARN", VStr "arn:aws:iam::000000000000:role/firehose")])]
         (snd (fresh_name remote_healthy "test-" initial_world))).

Definition world_with_log_group : World :=
  snd (boto_ remote_healthy (logs_client "http://localhost:4566") "create_log_group"
         [("logGroupName", VStr "/test/9f1c2ab4")]
         (snd (fresh_name remote_healthy "/test/" initial_world))).

Definition world_with_api : World :=
  snd (perform remote_gateway
         (Boto (apigatewayv2_client "http://localhost:4566") "create_api"
            [("Name", VStr "test-9f1c2ab4"); ("ProtocolType", VStr "HTTP")])
         (snd (fresh_name remote_gateway "test-" initial_world))).

Definition world_with_test_table : World :=
  snd (boto_ remote_healthy (dynamodb_client "http://localhost:4566") "create_table"
         [("TableName", VStr "test-9f1c2ab4");
          ("KeySchema",
           VList [VDict [("AttributeName", VStr "id"); ("KeyType", VStr "HASH")]]);
          ("AttributeDefinitions",
           VList [VDict [("AttributeName", VStr "id"); ("AttributeType", VStr "S")]]);
          ("BillingMode", VStr "PAY_PER_REQUEST")]
         (snd (fresh_name remote_healthy "test-" initial_world))).

(** The world after the call [c] was made in [w] and answered by [o]
    after [lat] milliseconds. *)
Definition answered (w : World) (c : call) (o : outcome value) (lat : N) : World :=
  {| clock := clock w + Z.of_N lat;
     trace := trace w ++ [CallEvent (clock w) c o lat];
     stdout := stdout w |}.

(** [len(v)] is defined. *)
Definition has_len (v : value) : bool :=
  match v with
  | VStr _ | VBytes _ | VList _ | VDict _ => true
  | _ => false
  end.

(** * Properties *)

(** ** The shape of one run of the readiness loop *)

Lemma wait_loop_unfold (remote : Remote) fuel endpoint start timeout w :
  wait_loop remote (S fuel) endpoint start timeout w =
  if clock w - start <? timeout then
    let w1 := after_get remote (health_url endpoint) 1 w in
    match fst (http_get remote (clock w) (trace w) (health_url endpoint) 1) with
    | Ok resp =>
        if status_code resp =? 200 then (Returned true, w1)
        else wait_loop remote fuel endpoint start timeout (after_sleep 100 w1)
    | Fault c msg =>
        if lib_error_eqb c RequestException
        then wait_loop remote fuel endpoint start timeout (after_sleep 100 w1)
        else (Raised (Exn (LibError c) msg), w1)
    end
  else (Returned false, w).
Proof.
  cbn [wait_loop]. unfold bind at 1. unfold time_time at 1.
  destruct (clock w - start <? timeout); [|reflexivity].
  unfold bind at 1, try_except, bind at 1, requests_get, after_get, health_url.
  destruct (http_get remote (clock w) (trace w) (endpoint ++ "/health") 1) as [[resp|c msg] lat];
    cbn [fst].
  - destruct (status_code resp =? 200); reflexivity.
  - destruct c; reflexivity.
Qed.

#[local] Hint Constructors polls : core.

Lemma wait_loop_run (remote : Remote) endpoint start timeout d :
  forall fuel w r w',
    (1 <= fuel)%nat ->
    timeout - (clock w - start) <= 100 * (Z.of_nat fuel - 1) ->
    wait_loop remote fuel endpoint start timeout w = (r, w') ->
    loop_facts remote endpoint start timeout d w r w'.
Proof.
  induction fuel as [|fuel IH]; intros w r w' Hfuel Hleft Hrun; [lia|].
  rewrite wait_loop_unfold in Hrun.
  destruct (clock w - start <? timeout) eqn:Hin.
  2:{ apply Z.ltb_ge in Hin. inversion Hrun; subst.
      exists []. rewrite app_nil_r.
      refine (conj eq_refl (conj eq_refl (conj polls_timeout
               (conj _ (conj _ (conj _ (conj _ _))))))).
      - constructor.
      - constructor.
      - lia.
      - intros _. exact Hin.
      - intros _ Hstart. exact Hstart. }
  apply Z.ltb_lt in Hin.
  unfold after_get in Hrun.
  destruct (http_get remote (clock w) (trace w) (health_url endpoint) 1)
    as [o lat] eqn:Hget.
  cbn [fst] in Hrun.
  set (ev := HttpEvent (clock w) (health_url endpoint) 1 o lat) in *.
  set (w1 := {| clock := clock w + Z.of_N lat;
                trace := trace w ++ [ev]; stdout := stdout w |}) in *.
  assert (Hprobe : probes endpoint start timeout ev) by (cbn; auto).
  assert (Hans : answered_by remote ev) by (exists (trace w); exact Hget).
  assert (Hlat : 0 <= Z.of_N lat) by lia.
  assert (Hretry :
    is_retry ev = true ->
    wait_loop remote fuel endpoint start timeout (after_sleep 100 w1) = (r, w') ->
    loop_facts remote endpoint start timeout d w r w').
  { intros Hr Hrec.
    pose proof (IH (after_sleep 100 w1) r w') as IH'.
    unfold loop_facts, w1, after_sleep in IH'. cbn [clock trace stdout] in IH'.
    destruct IH' as (evs & Htr & Hout & Hp & Hall & Hrem & Hclk & Hfalse & Hbound);
      [lia | lia | exact Hrec |].
    exists (ev :: evs). rewrite Htr, <- app_assoc. cbn [app].
    refine (conj eq_refl (conj Hout (conj _ (conj _ (conj _ (conj _ (conj _ _))))))).
    - auto.
    - auto.
    - auto.
    - lia.
    - intros Hf. specialize (Hfalse Hf). lia.
    - intros Hd Hstart. inversion Hd; subst. apply Hbound; auto.
      cbn [ev_latency ev] in *. lia. }
  assert (Hstop :
    forall r0, polls [ev] r0 -> r0 <> Returned false ->
    (r0, w1) = (r, w') ->
    loop_facts remote endpoint start timeout d w r w').
  { intros r0 Hp Hne Heq. inversion Heq; subst r w'.
    unfold loop_facts, w1. cbn [clock trace stdout].
    exists [ev].
    refine (conj eq_refl (conj eq_refl (conj Hp (conj _ (conj _ (conj _ (conj _ _))))))).
    - auto.
    - auto.
    - lia.
    - intros ->. now contradiction Hne.
    - intros Hd _. inversion Hd; subst. cbn [ev_latency ev] in *. lia. }
  destruct o as [resp|c msg].
  - destruct (status_code resp =? 200) eqn:Hcode.
    + apply (Hstop (Returned true));
        [apply polls_ready; cbn; exact Hcode | discriminate | exact Hrun].
    + apply Hretry; [cbn; now rewrite Hcode | exact Hrun].
  - destruct (lib_error_eqb c RequestException) eqn:Hc.
    + apply Hretry; [exact Hc | exact Hrun].
    + apply (Hstop (Raised (Exn (LibError c) msg)));
        [apply polls_raise; cbn; now rewrite Hc | discriminate | exact Hrun].
Qed.

Lemma wait_fuel_enough timeout :
  (1 <= wait_fuel timeout)%nat /\
  timeout <= 100 * (Z.of_nat (wait_fuel timeout) - 1).
Proof.
  unfold wait_fuel. split; [lia|].
  pose proof (Z.div_mod timeout 100 ltac:(lia)).
  pose proof (Z.mod_pos_bound timeout 100 ltac:(lia)).
  lia.
Qed.

Lemma wait_for_ruststack_run (remote : Remote) endpoint timeout d w r w' :
  wait_for_ruststack remote endpoint timeout w = (r, w') ->
  loop_facts remote endpoint (clock w) timeout d w r w'.
Proof.
  unfold wait_for_ruststack, bind, time_time. intros Hrun.
  destruct (wait_fuel_enough timeout) as [H1 H2].
  eapply wait_loop_run; eauto. lia.
Qed.

Lemma ends_with_cons ev evs last :
  is_retry ev = true -> ends_with evs last -> ends_with (ev :: evs) last.
Proof.
  intros Hr (before & x & -> & Hall & Hlast).
  exists (ev :: before), x. repeat split; auto.
Qed.

Lemma ends_with_one ev (last : event -> Prop) : last ev -> ends_with [ev] last.
Proof. intros H. exists [], ev. repeat split; auto. Qed.

Lemma propagated_not_request ev e :
  propagated ev = Some e -> is_RequestException e = false.
Proof.
  destruct ev as [t url to [resp|c msg] lat|]; cbn; try discriminate.
  destruct c; cbn; intros H; inversion H; reflexivity.
Qed.

Lemma polls_shape evs r : polls evs r -> run_shape evs r.
Proof.
  induction 1 as [|ev Hready|ev e Hprop|ev evs r Hretry Hp IH]; cbn.
  - constructor.
  - now apply ends_with_one.
  - split; [eapply propagated_not_request; eauto | now apply ends_with_one].
  - destruct r as [[|]| |]; cbn in *.
    + now apply ends_with_cons.
    + now constructor.
    + destruct IH as [Hne Hend]. split; [exact Hne | now apply ends_with_cons].
    + exact IH.
Qed.

Lemma polls_all_retry evs r :
  Forall (fun x => is_retry x = true) evs -> polls evs r -> r = Returned false.
Proof.
  intros Hall Hp. induction Hp as [|ev Hready|ev e Hprop|ev evs r Hretry Hp IH].
  - reflexivity.
  - inversion Hall as [|? ? Hev _]; subst.
    destruct ev as [t url to [resp|c msg] lat|]; cbn in *; try discriminate.
    rewrite Hready in Hev. discriminate.
  - inversion Hall as [|? ? Hev _]; subst.
    destruct ev as [t url to [resp|c msg] lat|]; cbn in *; try discriminate.
    rewrite Hev in Hprop. discriminate.
  - inversion Hall; subst. auto.
Qed.

(** ** C1: what the results of the readiness prober mean *)

(** C1, as stated, fails: against a port that answers 200 with a body
    that is not JSON the prober returns [True] although no health request
    carried a ready payload, and an error outside the [RequestException]
    family is raised to the caller. *)
Lemma wait_for_ruststack_claim_fails :
  (fst (wait_for_ruststack remote_not_json "http://localhost:4566" 30000 initial_world)
     = Returned true /\
   existsb carries_ready_payload
     (trace (snd (wait_for_ruststack remote_not_json "http://localhost:4566" 30000
                    initial_world))) = false) /\
  fst (wait_for_ruststack remote_os_error "http://localhost:4566" 30000 initial_world)
    = Raised (Exn (LibError OSError) "Too many open files").
Proof. vm_compute. repeat split. Qed.

(** C1, amended: the prober always ends with a result.  [True] means
    that its last health request, issued within the timeout budget, came
    back with status 200 (whatever the body); [False] means that the
    elapsed time has reached the timeout and every request of the run
    either returned another status or failed with a [RequestException];
    a raised exception is never one of the [RequestException] family and
    comes from the last request. *)
Theorem wait_for_ruststack_result (remote : Remote) endpoint timeout w r w' :
  wait_for_ruststack remote endpoint timeout w = (r, w') ->
  exists evs,
    trace w' = trace w ++ evs /\
    Forall (probes endpoint (clock w) timeout) evs /\
    run_shape evs r /\
    (r = Returned false -> timeout <= clock w' - clock w).
Proof.
  intros Hrun.
  destruct (wait_for_ruststack_run remote endpoint timeout 0 w r w' Hrun)
    as (evs & Htr & _ & Hp & Hprobes & _ & _ & Hfalse & _).
  exists evs. repeat split; auto. now apply polls_shape.
Qed.

Lemma wait_for_ruststack_result_witness :
  exists evs,
    trace (snd (wait_for_ruststack remote_starting "http://localhost:4566" 30000
                  initial_world)) = trace initial_world ++ evs /\
    Forall (probes "http://localhost:4566" (clock initial_world) 30000) evs /\
    run_shape evs (Returned true) /\
    (Returned true = Returned false ->
     30000 <= clock (snd (wait_for_ruststack remote_starting "http://localhost:4566"
                            30000 initial_world)) - clock initial_world).
Proof.
  apply (@wait_for_ruststack_result remote_starting "http://localhost:4566" 30000
           initial_world (Returned true)).
  vm_compute. reflexivity.
Defined.

(** ** C8: when the prober gives up *)

Lemma never_responds_timing_out : never_responds remote_timing_out 1000.
Proof. intros t h url to. eexists _, _. split; [reflexivity | lia]. Qed.

Lemma never_responds_event remote d endpoint start timeout ev :
  never_responds remote d ->
  probes endpoint start timeout ev -> answered_by remote ev ->
  is_retry ev = true /\ ev_latency ev <= d.
Proof.
  intros Hnever Hprobe Hans.
  destruct ev as [t url to o lat|]; [|contradiction].
  destruct Hans as [h Hget].
  destruct (Hnever t h url to) as (msg & lat' & Heq & Hle).
  rewrite Heq in Hget. inversion Hget; subst. cbn. auto.
Qed.

(** C8, as stated, fails: with a timeout of 1.5 s and the interval of
    0.1 s, against a service whose every health request times out after
    1 s, the prober returns [False] after 2.2 s, later than 1.6 s. *)
Lemma wait_for_ruststack_gives_up_late :
  never_responds remote_timing_out 1000 /\
  100 < 1500 /\
  fst (wait_for_ruststack remote_timing_out "http://localhost:4566" 1500 initial_world)
    = Returned false /\
  clock (snd (wait_for_ruststack remote_timing_out "http://localhost:4566" 1500
                initial_world)) - clock initial_world = 2200 /\
  ~ (2200 <= 1500 + 100).
Proof.
  split; [exact never_responds_timing_out|].
  split; [lia|]. split; [vm_compute; reflexivity|].
  split; [vm_compute; reflexivity | lia].
Qed.

(** C8, amended: for every timeout [T] above the interval of 100 ms, if
    every health request fails within [d] ms, the prober returns [False]
    at an elapsed time no earlier than [T] and earlier than
    [T + 100 + d]: the last request may start just before [T] and is
    followed by one more sleep.  With requests that fail at once ([d = 0])
    this is the bound [T + 100].  Nothing in the code bounds [d]: the
    1 s of [timeout=1] is handed to [requests.get], and how long a
    failing request takes is not decided here. *)
Theorem wait_for_ruststack_gives_up (remote : Remote) endpoint T d w r w' :
  100 < T ->
  never_responds remote d ->
  wait_for_ruststack remote endpoint T w = (r, w') ->
  r = Returned false /\
  T <= clock w' - clock w /\
  clock w' - clock w < T + 100 + d.
Proof.
  intros HT Hnever Hrun.
  destruct (wait_for_ruststack_run remote endpoint T d w r w' Hrun)
    as (evs & _ & _ & Hp & Hprobes & Hans & _ & Hfalse & Hbound).
  assert (Hd : 0 <= d).
  { destruct (Hnever 0 [] endpoint 1) as (msg & lat & _ & Hle). lia. }
  assert (Hall : Forall (fun ev => is_retry ev = true /\ ev_latency ev <= d) evs).
  { rewrite Forall_forall in *. intros ev Hin.
    eapply never_responds_event; eauto. }
  assert (Hr : r = Returned false).
  { eapply polls_all_retry; [|exact Hp].
    eapply Forall_impl; [|exact Hall]. cbn. tauto. }
  split; [exact Hr|]. split; [auto|].
  apply Hbound; [|lia].
  eapply Forall_impl; [|exact Hall]. cbn. tauto.
Qed.

Lemma wait_for_ruststack_gives_up_witness :
  Returned false = Returned false /\
  1500 <= clock (snd (wait_for_ruststack remote_timing_out "http://localhost:4566" 1500
                        initial_world)) - clock initial_world /\
  clock (snd (wait_for_ruststack remote_timing_out "http://localhost:4566" 1500
                initial_world)) - clock initial_world < 1500 + 100 + 1000.
Proof.
  apply (@wait_for_ruststack_gives_up remote_timing_out "http://localhost:4566" 1500 1000
           initial_world (Returned false)).
  - lia.
  - intros t h url to. eexists _, _. split; [reflexivity | lia].
  - vm_compute. reflexivity.
Defined.

(** ** C10: only the status code and the class of the error count *)

Lemma after_get_clock remote url to w : clock w <= clock (after_get remote url to w).
Proof.
  unfold after_get. destruct (http_get remote (clock w) (trace w) url to) as [o lat].
  cbn. lia.
Qed.

Lemma attempt_clock remote endpoint k :
  forall w, clock w + 100 * Z.of_nat k <= clock (attempt remote endpoint k w).
Proof.
  induction k as [|k IH]; intros w; cbn [attempt]; [lia|].
  specialize (IH (after_sleep 100 (after_get remote (health_url endpoint) 1 w))).
  pose proof (after_get_clock remote (health_url endpoint) 1 w).
  cbn [after_sleep clock] in IH. lia.
Qed.

Lemma wait_loop_retry remote fuel endpoint start timeout w :
  clock w - start < timeout ->
  is_retry (event_at remote endpoint w) = true ->
  wait_loop remote (S fuel) endpoint start timeout w =
  wait_loop remote fuel endpoint start timeout (attempt remote endpoint 1 w).
Proof.
  intros Hin Hretry. rewrite wait_loop_unfold.
  apply Z.ltb_lt in Hin. rewrite Hin. cbn [attempt].
  unfold event_at in Hretry.
  destruct (http_get remote (clock w) (trace w) (health_url endpoint) 1)
    as [[resp|c msg] lat]; cbn in *.
  - destruct (status_code resp =? 200); [discriminate | reflexivity].
  - now rewrite Hretry.
Qed.

Lemma wait_loop_skip remote endpoint start timeout fuel k :
  forall w,
    (forall i, (i < k)%nat ->
       clock (attempt remote endpoint i w) - start < timeout /\
       is_retry (event_at remote endpoint (attempt remote endpoint i w)) = true) ->
    wait_loop remote (k + fuel) endpoint start timeout w =
    wait_loop remote fuel endpoint start timeout (attempt remote endpoint k w).
Proof.
  induction k as [|k IH]; intros w Hbefore; [reflexivity|].
  destruct (Hbefore 0%nat ltac:(lia)) as [Hin Hretry]. cbn [attempt] in Hin, Hretry.
  cbn [Nat.add]. rewrite wait_loop_retry by assumption.
  rewrite IH; [reflexivity|].
  intros i Hi. apply (Hbefore (S i)). lia.
Qed.

(** The decisive step of the loop, by what the request brings. *)
Lemma wait_loop_decide remote fuel endpoint start timeout w :
  wait_loop remote (S fuel) endpoint start timeout w =
  if clock w - start <? timeout then
    if is_ready (event_at remote endpoint w)
    then (Returned true, after_get remote (health_url endpoint) 1 w)
    else match propagated (event_at remote endpoint w) with
         | Some e => (Raised e, after_get remote (health_url endpoint) 1 w)
         | None => wait_loop remote fuel endpoint start timeout
                     (attempt remote endpoint 1 w)
         end
  else (Returned false, w).
Proof.
  rewrite wait_loop_unfold. destruct (clock w - start <? timeout); [|reflexivity].
  unfold event_at. cbn [attempt].
  destruct (http_get remote (clock w) (trace w) (health_url endpoint) 1)
    as [[resp|c msg] lat]; cbn.
  - destruct (status_code resp =? 200); reflexivity.
  - destruct (lib_error_eqb c RequestException); reflexivity.
Qed.

Lemma wait_for_ruststack_at (remote : Remote) endpoint timeout w k :
  (forall i, (i < k)%nat ->
     clock (attempt remote endpoint i w) - clock w < timeout /\
     is_retry (event_at remote endpoint (attempt remote endpoint i w)) = true) ->
  exists fuel,
    wait_for_ruststack remote endpoint timeout w =
    wait_loop remote (S fuel) endpoint (clock w) timeout (attempt remote endpoint k w).
Proof.
  intros Hbefore.
  assert (Hk : (k + 1 <= wait_fuel timeout)%nat).
  { destruct (wait_fuel_enough timeout) as [H1 H2].
    destruct k as [|k]; [lia|].
    destruct (Hbefore k ltac:(lia)) as [Hin _].
    pose proof (attempt_clock remote endpoint k w). lia. }
  exists (wait_fuel timeout - k - 1)%nat.
  unfold wait_for_ruststack, bind, time_time.
  replace (wait_fuel timeout) with (k + S (wait_fuel timeout - k - 1))%nat at 1 by lia.
  now apply wait_loop_skip.
Qed.

(** C10: readiness is decided by the status code alone.  Let the first
    [k] health requests each have led to the sleep (a status other than
    200, or an error of the [RequestException] family) and let request
    [k] be issued within the budget.  If it is answered with status 200,
    the prober returns [True] right after it, for every body of the
    response; if it fails with an error outside the [RequestException]
    family, that error is raised to the caller. *)
Theorem wait_for_ruststack_status_code_alone (remote : Remote) endpoint timeout w k :
  (forall i, (i < k)%nat ->
     clock (attempt remote endpoint i w) - clock w < timeout /\
     is_retry (event_at remote endpoint (attempt remote endpoint i w)) = true) ->
  clock (attempt remote endpoint k w) - clock w < timeout ->
  (forall resp lat,
     http_get remote (clock (attempt remote endpoint k w))
       (trace (attempt remote endpoint k w)) (health_url endpoint) 1 = (Ok resp, lat) ->
     status_code resp = 200 ->
     wait_for_ruststack remote endpoint timeout w =
     (Returned true,
      after_get remote (health_url endpoint) 1 (attempt remote endpoint k w))) /\
  (forall c msg lat,
     http_get remote (clock (attempt remote endpoint k w))
       (trace (attempt remote endpoint k w)) (health_url endpoint) 1 = (Fault c msg, lat) ->
     c <> RequestException ->
     wait_for_ruststack remote endpoint timeout w =
     (Raised (Exn (LibError c) msg),
      after_get remote (health_url endpoint) 1 (attempt remote endpoint k w))).
Proof.
  intros Hbefore Hin.
  destruct (wait_for_ruststack_at remote endpoint timeout w k Hbefore) as [fuel ->].
  rewrite wait_loop_decide. apply Z.ltb_lt in Hin. rewrite Hin.
  unfold event_at. split.
  - intros resp lat -> Hcode. cbn. apply Z.eqb_eq in Hcode. now rewrite Hcode.
  - intros c msg lat -> Hc. cbn.
    destruct c; cbn; try reflexivity. now contradiction Hc.
Qed.

Lemma wait_for_ruststack_status_code_alone_witness :
  wait_for_ruststack remote_starting "http://localhost:4566" 30000 initial_world =
  (Returned true,
   after_get remote_starting (health_url "http://localhost:4566") 1
     (attempt remote_starting "http://localhost:4566" 2 initial_world)).
Proof.
  refine (proj1 (@wait_for_ruststack_status_code_alone remote_starting
                   "http://localhost:4566" 30000 initial_world 2 _ _)
            {| status_code := 200;
               json_body := Some (VDict [("status", VStr "running")]) |} 20%N _ _).
  - intros i Hi. destruct i as [|[|i]]; [vm_compute; auto | vm_compute; auto | lia].
  - vm_compute. reflexivity.
  - vm_compute. reflexivity.
  - reflexivity.
Defined.

(** ** The aggregator *)

Lemma ran_names tests w outs w' : ran tests w outs w' -> map fst outs = map name tests.
Proof. induction 1; cbn; congruence. Qed.

Lemma run_tests_cons test rest failed w :
  run_tests (test :: rest) failed w =
  match body test w with
  | (Returned _, w1) => run_tests rest failed (report test (Returned tt) w1)
  | (Raised e, w1) =>
      if is_Exception e
      then run_tests rest (failed ++ [(name test, str_of_exn e)]) (report test (Raised e) w1)
      else (Raised e, w1)
  | (OutOfFuel, w1) => (OutOfFuel, w1)
  end.
Proof.
  cbn [run_tests]. unfold bind at 1, try_except, bind at 1.
  destruct (body test w) as [[u|e|] w1]; try reflexivity.
  destruct (is_Exception e); reflexivity.
Qed.

Lemma run_tests_ran tests :
  Forall (fun t => passes_or_fails (body t)) tests ->
  forall failed w, exists outs w',
    ran tests w outs w' /\
    run_tests tests failed w = (Returned (failed ++ failures outs), w').
Proof.
  induction 1 as [|test rest Htest _ IH]; intros failed w.
  - exists [], w. split; [constructor|]. cbn. now rewrite app_nil_r.
  - specialize (Htest w). rewrite run_tests_cons.
    destruct (body test w) as [r w1] eqn:Hbody. cbn [fst] in Htest.
    destruct r as [[]|e|]; [| |contradiction].
    + destruct (IH failed (report test (Returned tt) w1)) as (outs & w' & Hran & Hrun).
      exists ((name test, Returned tt) :: outs), w'. split.
      * econstructor; eauto.
      * exact Hrun.
    + destruct (IH (failed ++ [(name test, str_of_exn e)]) (report test (Raised e) w1))
        as (outs & w' & Hran & Hrun).
      exists ((name test, Raised e) :: outs), w'. split.
      * econstructor; eauto.
      * rewrite Htest, Hrun. cbn. now rewrite <- app_assoc.
Qed.

Lemma bind_print {A} s (k : unit -> M A) w : bind (print s) k w = k tt (printed s w).
Proof. reflexivity. Qed.

Lemma for_each_print (failed : list (string * string)) w :
  for_each failed (fun entry => let (name, error) := entry in
                                print ("  - " ++ name ++ ": " ++ error)%string) w =
  (Returned tt,
   {| clock := clock w; trace := trace w;
      stdout := stdout w ++
                map (fun entry => ("  - " ++ fst entry ++ ": " ++ snd entry)%string) failed |}).
Proof.
  revert w. induction failed as [|[n e] failed IH]; intros w.
  - cbn. rewrite app_nil_r. now destruct w.
  - cbn [for_each]. rewrite bind_print, IH. unfold printed. cbn [clock trace stdout map fst snd].
    now rewrite <- app_assoc.
Qed.

Lemma main_on_unfold tests w :
  main_on tests w =
  match run_tests tests [] (after_banner w) with
  | (Returned failed, w1) =>
      (Raised (SystemExit (match failed with [] => 0 | _ :: _ => 1 end)),
       {| clock := clock w1; trace := trace w1;
          stdout := stdout w1 ++ summary (List.length tests) failed |})
  | (Raised e, w1) => (Raised e, w1)
  | (OutOfFuel, w1) => (OutOfFuel, w1)
  end.
Proof.
  unfold main_on. rewrite !bind_print. fold (after_banner w).
  unfold bind at 1.
  destruct (run_tests tests [] (after_banner w)) as [[failed| |] w1]; try reflexivity.
  rewrite bind_print. destruct failed as [|f fs].
  - rewrite bind_print. unfold sys_exit, raise, printed, summary.
    cbn [clock trace stdout]. now rewrite <- app_assoc.
  - rewrite bind_print. unfold bind at 1. rewrite for_each_print.
    unfold sys_exit, raise, printed, summary. cbn [clock trace stdout].
    now rewrite <- !app_assoc.
Qed.

Lemma main_on_ran tests w :
  Forall (fun t => passes_or_fails (body t)) tests ->
  exists outs w1,
    ran tests (after_banner w) outs w1 /\
    main_on tests w =
    (Raised (SystemExit (match failures outs with [] => 0 | _ :: _ => 1 end)),
     {| clock := clock w1; trace := trace w1;
        stdout := stdout w1 ++ summary (List.length tests) (failures outs) |}).
Proof.
  intros Htests.
  destruct (run_tests_ran tests Htests [] (after_banner w)) as (outs & w1 & Hran & Hrun).
  exists outs, w1. split; [exact Hran|].
  rewrite main_on_unfold, Hrun. reflexivity.
Qed.

(** *** The test functions only fail with exceptions that [main] catches *)

Create HintDb catchable.

Lemma catchable_ret {A} (a : A) : catchable (ret a).
Proof. intros w. exact I. Qed.

Lemma catchable_raise {A} e : is_Exception e = true -> catchable (@raise A e).
Proof. intros H w. exact H. Qed.

Lemma catchable_bind {A B} (m : M A) (f : A -> M B) :
  catchable m -> (forall a, catchable (f a)) -> catchable (bind m f).
Proof.
  intros Hm Hf w. unfold bind. specialize (Hm w).
  destruct (m w) as [[a|e|] w1]; cbn in *; auto. apply Hf.
Qed.

Lemma catchable_try_except {A} (m : M A) handles h :
  catchable m -> (forall e, is_Exception e = true -> catchable (h e)) ->
  catchable (try_except m handles h).
Proof.
  intros Hm Hh w. unfold try_except. specialize (Hm w).
  destruct (m w) as [[a|e|] w1]; cbn in *; auto.
  destruct (handles e); cbn; auto. now apply Hh.
Qed.

Lemma catchable_perform remote c : catchable (perform remote c).
Proof.
  intros w. unfold perform.
  destruct (invoke remote (clock w) (trace w) c) as [[v|cl msg] lat]; cbn; auto.
Qed.

Lemma catchable_requests_get remote url to : catchable (requests_get remote url to).
Proof.
  intros w. unfold requests_get.
  destruct (http_get remote (clock w) (trace w) url to) as [[v|cl msg] lat]; cbn; auto.
Qed.

Lemma catchable_print s : catchable (print s).
Proof. intros w. exact I. Qed.

Lemma catchable_time_sleep ms : catchable (time_sleep ms).
Proof. intros w. exact I. Qed.

Lemma catchable_py_assert c msg : catchable (py_assert c msg).
Proof. intros w. destruct c; cbn; auto. Qed.

Lemma catchable_subscript v k : catchable (subscript v k).
Proof. intros w. destruct v; cbn; auto. destruct (lookup k d); cbn; auto. Qed.

Lemma catchable_index v i : catchable (index v i).
Proof. intros w. destruct v; cbn; auto. destruct (nth_error l i); cbn; auto. Qed.

Lemma catchable_dict_get v k d : catchable (dict_get v k d).
Proof. intros w. destruct v; cbn; auto. destruct (lookup k d0); cbn; auto. Qed.

Lemma catchable_py_len v : catchable (py_len v).
Proof. intros w. destruct v; cbn; auto. Qed.

Lemma catchable_iterate v : catchable (iterate v).
Proof. intros w. destruct v; cbn; auto. Qed.

Lemma catchable_stream_read v : catchable (stream_read v).
Proof. intros w. destruct v; cbn; auto. Qed.

Lemma catchable_str_prefix v n : catchable (str_prefix v n).
Proof. intros w. destruct v; cbn; auto. Qed.

Lemma catchable_response_json resp : catchable (response_json resp).
Proof. intros w. unfold response_json. destruct (json_body resp); cbn; auto. Qed.

Lemma catchable_map_M {A B} (f : A -> M B) l :
  (forall a, catchable (f a)) -> catchable (map_M f l).
Proof.
  intros Hf. induction l as [|a l IH]; cbn [map_M].
  - apply catchable_ret.
  - apply catchable_bind; [apply Hf|]. intros b.
    apply catchable_bind; [exact IH|]. intros bs. apply catchable_ret.
Qed.

#[local] Hint Resolve catchable_ret catchable_perform catchable_requests_get
  catchable_print catchable_time_sleep catchable_py_assert catchable_subscript
  catchable_index catchable_dict_get catchable_py_len catchable_iterate
  catchable_stream_read catchable_str_prefix catchable_response_json : catchable.

(** Walk down a body: every step is one of the operations above. *)
Ltac catchable_steps :=
  repeat first
    [ apply catchable_bind; [|intro]
    | apply catchable_try_except; [|intros ? ?]
    | apply catchable_map_M; intro
    | apply catchable_raise; assumption
    | solve [auto with catchable] ].

Lemma catchable_fresh_name remote prefix : catchable (fresh_name remote prefix).
Proof. unfold fresh_name. catchable_steps. Qed.

Lemma catchable_boto_ remote c op args : catchable (boto_ remote c op args).
Proof. unfold boto_. catchable_steps. Qed.

#[local] Hint Resolve catchable_fresh_name catchable_boto_ : catchable.

Lemma catchable_test_health_check remote : catchable (test_health_check remote).
Proof. unfold test_health_check. catchable_steps. Qed.

Lemma catchable_test_s3_operations remote : catchable (test_s3_operations remote).
Proof.
  unfold test_s3_operations, test_s3_operations_try, test_s3_operations_except.
  catchable_steps.
Qed.

Lemma catchable_test_dynamodb_operations remote :
  catchable (test_dynamodb_operations remote).
Proof. unfold test_dynamodb_operations. catchable_steps. Qed.

Lemma catchable_test_lambda_api remote : catchable (test_lambda_api remote).
Proof. unfold test_lambda_api. catchable_steps. Qed.

Lemma tests_pass_or_fail remote :
  Forall (fun t => passes_or_fails (body t)) (tests remote).
Proof.
  unfold tests. repeat constructor; cbn [body].
  - apply catchable_test_health_check.
  - apply catchable_test_s3_operations.
  - apply catchable_test_dynamodb_operations.
  - apply catchable_test_lambda_api.
Qed.

Lemma failures_nil outs :
  failures outs = [] <-> Forall (fun out => forall e, snd out <> Raised e) outs.
Proof.
  unfold failures. induction outs as [|[n r] outs IH]; cbn.
  - split; auto.
  - split.
    + intros H. apply app_eq_nil in H as [Hhead Htail].
      constructor; [|now apply IH].
      cbn. intros e ->. discriminate.
    + intros H. inversion H as [|? ? Hhead Htail]; subst. cbn in Hhead.
      rewrite (proj2 IH Htail), app_nil_r.
      unfold failure. cbn. destruct r; auto. now contradiction (Hhead e).
Qed.

Lemma failures_in outs n e :
  In (n, Raised e) outs -> In (n, str_of_exn e) (failures outs).
Proof.
  intros Hin. unfold failures. apply in_flat_map.
  exists (n, Raised e). split; [exact Hin|]. cbn. auto.
Qed.

(** ** C4: the exit code *)



(** ** C7: a failing test does not stop the run *)

(** C7: for every list of tests, the body of every test is run, in
    order, whatever the tests before it did; the run ends in [sys.exit],
    and the summary printed last has a line with the name and the message
    of every test that failed. *)
Theorem main_contains_failures (tests : list TestCase) (w : World) :
  Forall (fun t => passes_or_fails (body t)) tests ->
  exists outs w1 code,
    ran tests (after_banner w) outs w1 /\
    map fst outs = map name tests /\
    main_on tests w =
    (Raised (SystemExit code),
     {| clock := clock w1; trace := trace w1;
        stdout := stdout w1 ++ summary (List.length tests) (failures outs) |}) /\
    forall n e,
      In (n, Raised e) outs ->
      In ("  - " ++ n ++ ": " ++ str_of_exn e)%string
         (summary (List.length tests) (failures outs)).
Proof.
  intros Htests.
  destruct (main_on_ran tests w Htests) as (outs & w1 & Hran & Hmain).
  exists outs, w1, (match failures outs with [] => 0 | _ :: _ => 1 end).
  split; [exact Hran|]. split; [eapply ran_names; eauto|]. split; [exact Hmain|].
  intros n e Hin. apply failures_in in Hin. unfold summary.
  destruct (failures outs) as [|f fs] eqn:Hf; [contradiction|].
  right. right.
  apply (in_map (fun entry => ("  - " ++ fst entry ++ ": " ++ snd entry)%string)) in Hin.
  exact Hin.
Qed.

Lemma main_contains_failures_witness :
  exists outs w1 code,
    ran (tests remote_starting) (after_banner initial_world) outs w1 /\
    map fst outs = map name (tests remote_starting) /\
    main_on (tests remote_starting) initial_world =
    (Raised (SystemExit code),
     {| clock := clock w1; trace := trace w1;
        stdout := stdout w1 ++
                  summary (List.length (tests remote_starting)) (failures outs) |}) /\
    forall n e,
      In (n, Raised e) outs ->
      In ("  - " ++ n ++ ": " ++ str_of_exn e)%string
         (summary (List.length (tests remote_starting)) (failures outs)).
Proof.
  apply (main_contains_failures (tests remote_starting) initial_world).
  apply tests_pass_or_fail.
Defined.

(** ** C6: no readiness gate in front of the aggregator *)

Lemma bind_raised {A B} (m : M A) (k : A -> M B) w e w1 :
  m w = (Raised e, w1) -> bind m k w = (Raised e, w1).
Proof. intros H. unfold bind. now rewrite H. Qed.

Lemma bind_returned {A B} (m : M A) (k : A -> M B) w a w1 :
  m w = (Returned a, w1) -> bind m k w = k a w1.
Proof. intros H. unfold bind. now rewrite H. Qed.

Lemma perform_unavailable remote c op args w :
  unavailable remote ->
  exists cl msg w1,
    perform remote (Boto c op args) w = (Raised (Exn (LibError cl) msg), w1).
Proof.
  intros [_ Hcall]. unfold perform.
  destruct (Hcall (clock w) (trace w) c op args) as (cl & msg & lat & ->).
  eexists _, _, _. reflexivity.
Qed.

Lemma boto_unavailable remote c op args w :
  unavailable remote ->
  exists cl msg w1,
    boto_ remote c op args w = (Raised (Exn (LibError cl) msg), w1).
Proof.
  intros H. destruct (perform_unavailable remote c op args w H) as (cl & msg & w1 & Hp).
  exists cl, msg, w1. unfold boto_. now apply bind_raised.
Qed.

(** A cleanup step in its own [try: ... except: pass] swallows the
    failure. *)
Lemma cleanup_unavailable remote c op args w :
  unavailable remote ->
  exists w1,
    try_except (boto_ remote c op args) any_exn (fun _ => ret tt) w = (Returned tt, w1).
Proof.
  intros H. destruct (boto_unavailable remote c op args w H) as (cl & msg & w1 & Hb).
  exists w1. unfold try_except. rewrite Hb. reflexivity.
Qed.

Lemma fresh_name_cases remote prefix w :
  (exists s w1, fresh_name remote prefix w = (Returned s, w1)) \/
  (exists e w1, fresh_name remote prefix w = (Raised e, w1)).
Proof.
  pose proof (catchable_fresh_name remote prefix w) as H.
  destruct (fresh_name remote prefix w) as [[s|e|] w1]; cbn in H;
    [left | right | contradiction]; eauto.
Qed.

Lemma test_health_check_unavailable remote w :
  unavailable remote -> exists e, fst (test_health_check remote w) = Raised e.
Proof.
  intros [Hget _]. unfold test_health_check. rewrite bind_print.
  unfold bind at 1, requests_get.
  destruct (Hget (clock (printed "Testing health check..." w))
              (trace (printed "Testing health check..." w))
              (ENDPOINT_URL ++ "/health")%string 10) as (c & msg & lat & ->).
  eexists. reflexivity.
Qed.

Lemma test_s3_operations_unavailable remote w :
  unavailable remote -> exists e, fst (test_s3_operations remote w) = Raised e.
Proof.
  intros H. unfold test_s3_operations. rewrite bind_print.
  destruct (fresh_name_cases remote "test-bucket-" (printed "Testing S3 operations..." w))
    as [(s & w1 & Hn)|(e & w1 & Hn)].
  2:{ exists e. erewrite bind_raised by eauto. reflexivity. }
  erewrite bind_returned by eauto. cbv zeta.
  destruct (boto_unavailable remote (get_client "s3") "create_bucket"
              [("Bucket", VStr s)] w1 H) as (cl & msg & w2 & Hc).
  exists (Exn (LibError cl) msg).
  unfold bind at 1. unfold try_except at 1. unfold test_s3_operations_try.
  erewrite bind_raised by eauto. cbn [is_Exception].
  unfold test_s3_operations_except, object_key.
  destruct (cleanup_unavailable remote (get_client "s3") "delete_object"
              [("Bucket", VStr s); ("Key", VStr "test-object.txt")] w2 H) as (w3 & H3).
  erewrite bind_returned by eauto.
  destruct (cleanup_unavailable remote (get_client "s3") "delete_bucket"
              [("Bucket", VStr s)] w3 H) as (w4 & H4).
  erewrite bind_returned by eauto. reflexivity.
Qed.

Lemma test_dynamodb_operations_unavailable remote w :
  unavailable remote -> exists e, fst (test_dynamodb_operations remote w) = Raised e.
Proof.
  intros H. unfold test_dynamodb_operations. rewrite bind_print.
  destruct (fresh_name_cases remote "test-table-"
              (printed "Testing DynamoDB operations..." w))
    as [(s & w1 & Hn)|(e & w1 & Hn)].
  2:{ exists e. erewrite bind_raised by eauto. reflexivity. }
  erewrite bind_returned by eauto. cbv zeta.
  destruct (boto_unavailable remote (get_client "dynamodb") "create_table"
              [("TableName", VStr s); ("KeySchema", table_key_schema);
               ("AttributeDefinitions", table_attribute_definitions);
               ("BillingMode", VStr "PAY_PER_REQUEST")] w1 H) as (cl & msg & w2 & Hc).
  exists (Exn (LibError cl) msg).
  unfold bind at 1. unfold try_except at 1.
  erewrite bind_raised by eauto. cbn [is_Exception].
  destruct (cleanup_unavailable remote (get_client "dynamodb") "delete_table"
              [("TableName", VStr s)] w2 H) as (w3 & H3).
  erewrite bind_returned by eauto. reflexivity.
Qed.

Lemma test_lambda_api_unavailable remote w :
  unavailable remote -> exists e, fst (test_lambda_api remote w) = Raised e.
Proof.
  intros H. unfold test_lambda_api. rewrite bind_print. cbv zeta.
  destruct (perform_unavailable remote (get_client "lambda") "list_functions" []
              (printed "Testing Lambda API..." w) H) as (cl & msg & w1 & Hp).
  exists (Exn (LibError cl) msg). erewrite bind_raised by eauto. reflexivity.
Qed.

Lemma tests_all_fail_unavailable remote w outs w1 :
  unavailable remote ->
  ran (tests remote) w outs w1 ->
  Forall (fun out => exists e, snd out = Raised e) outs.
Proof.
  intros H Hran. unfold tests in Hran.
  inversion Hran as [|? ? ? r1 wa outs1 ? Hb1 Hran1]; subst; clear Hran.
  inversion Hran1 as [|? ? ? r2 wb outs2 ? Hb2 Hran2]; subst; clear Hran1.
  inversion Hran2 as [|? ? ? r3 wc outs3 ? Hb3 Hran3]; subst; clear Hran2.
  inversion Hran3 as [|? ? ? r4 wd outs4 ? Hb4 Hran4]; subst; clear Hran3.
  inversion Hran4; subst; clear Hran4.
  cbn [body name] in *.
  repeat constructor; cbn [snd].
  - destruct (test_health_check_unavailable remote w H) as [e He].
    rewrite Hb1 in He. eauto.
  - destruct (test_s3_operations_unavailable remote
                (report {| name := "test_health_check";
                           body := test_health_check remote |} r1 wa) H) as [e He].
    rewrite Hb2 in He. eauto.
  - destruct (test_dynamodb_operations_unavailable remote
                (report {| name := "test_s3_operations";
                           body := test_s3_operations remote |} r2 wb) H) as [e He].
    rewrite Hb3 in He. eauto.
  - destruct (test_lambda_api_unavailable remote
                (report {| name := "test_dynamodb_operations";
                           body := test_dynamodb_operations remote |} r3 wc) H) as [e He].
    rewrite Hb4 in He. eauto.
Qed.

(** C6, as stated, fails for [main]: with nothing listening the prober
    reports not-ready, and [main], which never consults it, goes through
    all four test cases (the interactions of each are in the trace) and
    prints four failures instead of one skip. *)
Lemma main_attempts_tests_when_not_ready :
  fst (wait_for_ruststack remote_down ENDPOINT_URL default_timeout initial_world)
    = Returned false /\
  map label (trace (snd (main remote_down initial_world))) =
    ["GET http://localhost:4566/health";
     "uuid4"; "s3.create_bucket"; "s3.delete_object"; "s3.delete_bucket";
     "uuid4"; "dynamodb.create_table"; "dynamodb.delete_table";
     "lambda.list_functions"] /\
  In "FAILED: 4/4 tests" (stdout (snd (main remote_down initial_world))).
Proof.
  split; [vm_compute; reflexivity|]. split; [vm_compute; reflexivity|].
  vm_compute. tauto.
Qed.

Lemma failures_all_raised outs :
  Forall (fun out => exists e, snd out = Raised e) outs ->
  map fst (failures outs) = map fst outs.
Proof.
  unfold failures. induction 1 as [|[n r] outs [e He] _ IH]; [reflexivity|].
  cbn in He. subst r. cbn. now rewrite IH.
Qed.

(** C6, amended: when the service is unavailable and the prober reports
    not-ready, [main] (which has no readiness gate) still runs the body
    of each of its four tests, in order; every one of them fails and is
    recorded as failed; [main] then prints the summary 'FAILED: 4/4
    tests' with one line per test and exits with code 1.  Under pytest
    the [ruststack_endpoint] fixture raises the skip instead of yielding
    an endpoint, having done nothing but probe. *)
Theorem not_ready_outcome (remote : Remote) (port : Z) (host : string)
    (w w0 w0' : World) :
  unavailable remote ->
  wait_for_ruststack remote (RUSTSTACK_ENDPOINT port host) default_timeout w0
    = (Returned false, w0') ->
  (exists outs w1,
     ran (tests remote) (after_banner w) outs w1 /\
     map fst outs = map name (tests remote) /\
     Forall (fun out => exists e, snd out = Raised e) outs /\
     map fst (failures outs) = map name (tests remote) /\
     main remote w =
       (Raised (SystemExit 1),
        {| clock := clock w1; trace := trace w1;
           stdout := stdout w1 ++
             str_repeat "=" 60
             :: "FAILED: 4/4 tests"%string
             :: map (fun entry => ("  - " ++ fst entry ++ ": " ++ snd entry)%string)
                    (failures outs) |}) /\
     exit_code (fst (main remote w)) = Some 1) /\
  (exists msg,
     setup (ruststack_endpoint remote port host) w0 = (Raised (Exn Skipped msg), w0')).
Proof.
  intros Hdown Hwait. split.
  - destruct (main_on_ran (tests remote) w (tests_pass_or_fail remote))
      as (outs & w1 & Hran & Hmain).
    pose proof (tests_all_fail_unavailable remote _ _ _ Hdown Hran) as Hall.
    pose proof (ran_names _ _ _ _ Hran) as Hnames.
    pose proof (failures_all_raised outs Hall) as Hfail. rewrite Hnames in Hfail.
    assert (Hlen : List.length (failures outs) = 4%nat).
    { rewrite <- (length_map fst), Hfail. reflexivity. }
    assert (Hrun : main remote w =
              (Raised (SystemExit 1),
               {| clock := clock w1; trace := trace w1;
                  stdout := stdout w1 ++
                    str_repeat "=" 60
                    :: "FAILED: 4/4 tests"%string
                    :: map (fun entry => ("  - " ++ fst entry ++ ": " ++ snd entry)%string)
                           (failures outs) |})).
    { unfold main. rewrite Hmain. unfold summary.
      destruct (failures outs) as [|f fs]; [discriminate|]. rewrite Hlen. reflexivity. }
    exists outs, w1. split; [exact Hran|]. split; [exact Hnames|].
    split; [exact Hall|]. split; [exact Hfail|]. split; [exact Hrun|].
    rewrite Hrun. reflexivity.
  - eexists. unfold ruststack_endpoint. cbn [setup].
    unfold bind at 1. rewrite Hwait. reflexivity.
Qed.

Lemma not_ready_outcome_witness :
  (exists outs w1,
     ran (tests remote_down) (after_banner initial_world) outs w1 /\
     map fst outs = map name (tests remote_down) /\
     Forall (fun out => exists e, snd out = Raised e) outs /\
     map fst (failures outs) = map name (tests remote_down) /\
     main remote_down initial_world =
       (Raised (SystemExit 1),
        {| clock := clock w1; trace := trace w1;
           stdout := stdout w1 ++
             str_repeat "=" 60
             :: "FAILED: 4/4 tests"%string
             :: map (fun entry => ("  - " ++ fst entry ++ ": " ++ snd entry)%string)
                    (failures outs) |}) /\
     exit_code (fst (main remote_down initial_world)) = Some 1) /\
  (exists msg,
     setup (ruststack_endpoint remote_down 4566 "localhost") initial_world
     = (Raised (Exn Skipped msg),
        snd (wait_for_ruststack remote_down (RUSTSTACK_ENDPOINT 4566 "localhost")
               default_timeout initial_world))).
Proof.
  apply (not_ready_outcome remote_down 4566 "localhost" initial_world initial_world).
  - split; intros; eexists _, _, _; reflexivity.
  - vm_compute. reflexivity.
Defined.

(** ** C5: teardown can be repeated *)

Lemma catchable_for_each {A} (l : list A) (f : A -> M unit) :
  (forall a, catchable (f a)) -> catchable (for_each l f).
Proof.
  intros Hf. induction l as [|a l IH]; cbn [for_each].
  - apply catchable_ret.
  - apply catchable_bind; [apply Hf | intros _; exact IH].
Qed.

(** [try: m except Exception: pass] never raises. *)
Lemma except_pass_never_raises (m : M unit) :
  catchable m -> never_raises (try_except m is_Exception (fun _ => ret tt)).
Proof.
  intros Hm w. unfold try_except. specialize (Hm w).
  destruct (m w) as [[[]|e|] w1]; cbn in Hm.
  - now exists w1.
  - rewrite Hm. now exists w1.
  - contradiction.
Qed.

Lemma never_raises_twice (m : M unit) :
  never_raises m -> never_raises (bind m (fun _ => m)).
Proof.
  intros Hm w. destruct (Hm w) as [w1 H1]. destruct (Hm w1) as [w2 H2].
  exists w2. unfold bind. now rewrite H1.
Qed.

Lemma never_raises_repeatable (td : M unit) : never_raises td -> repeatable td.
Proof.
  intros Htd. pose proof (never_raises_twice td Htd) as Htwice.
  split; [exact Htwice|].
  intros A test_body w r w1 Hbody Hr.
  destruct (Htwice w1) as [w2 H2]. exists w2.
  unfold try_finally. rewrite Hbody, H2. destruct r; congruence.
Qed.

Lemma s3_bucket_teardown_never_raises remote c bucket_name :
  never_raises (teardown (s3_bucket remote c) bucket_name).
Proof.
  cbn [teardown s3_bucket]. apply except_pass_never_raises.
  catchable_steps. apply catchable_for_each. intros obj. catchable_steps.
Qed.

Lemma dynamodb_table_teardown_never_raises remote c table_name :
  never_raises (teardown (dynamodb_table remote c) table_name).
Proof. cbn [teardown dynamodb_table]. apply except_pass_never_raises. catchable_steps. Qed.

Lemma secret_teardown_never_raises remote c secret_name :
  never_raises (teardown (secret remote c) secret_name).
Proof. cbn [teardown secret]. apply except_pass_never_raises. catchable_steps. Qed.

Lemma iam_role_teardown_never_raises remote c role_name :
  never_raises (teardown (iam_role remote c) role_name).
Proof.
  cbn [teardown iam_role]. apply except_pass_never_raises.
  catchable_steps. apply catchable_for_each. intros policy. catchable_steps.
Qed.

Lemma http_api_teardown_never_raises remote c api_id :
  never_raises (teardown (http_api remote c) api_id).
Proof. cbn [teardown http_api]. apply except_pass_never_raises. catchable_steps. Qed.

Lemma delivery_stream_teardown_never_raises remote c bucket_name stream_name :
  never_raises (teardown (delivery_stream remote c bucket_name) stream_name).
Proof.
  cbn [teardown delivery_stream]. apply except_pass_never_raises. catchable_steps.
Qed.

Lemma ruststack_endpoint_teardown_never_raises remote port host endpoint :
  never_raises (teardown (ruststack_endpoint remote port host) endpoint).
Proof. intros w. now exists w. Qed.

(** The teardown of [ruststack_process] returns exactly when both of its
    calls are answered without an error. *)
Lemma ruststack_process_teardown_returns remote port host proc endpoint w :
  fst (teardown (ruststack_process remote port host) (proc, endpoint) w) = Returned tt <->
  exists v1 lat1 v2 lat2,
    invoke remote (clock w) (trace w) (ProcTerminate proc) = (Ok v1, lat1) /\
    invoke remote (clock w + Z.of_N lat1)
      (trace w ++ [CallEvent (clock w) (ProcTerminate proc) (Ok v1) lat1])
      (ProcWait proc 5) = (Ok v2, lat2).
Proof.
  cbn [teardown ruststack_process fst].
  unfold ruststack_process_finally, bind, perform.
  destruct (invoke remote (clock w) (trace w) (ProcTerminate proc)) as [[v1|c1 m1] lat1].
  - cbn [clock trace stdout].
    destruct (invoke remote (clock w + Z.of_N lat1)
                (trace w ++ [CallEvent (clock w) (ProcTerminate proc) (Ok v1) lat1])
                (ProcWait proc 5)) as [[v2|c2 m2] lat2] eqn:Hwait; cbn [fst ret].
    + split; [intros _; now exists v1, lat1, v2, lat2 | reflexivity].
    + split; [discriminate|]. intros (v1' & lat1' & v2' & lat2' & H1 & H2).
      inversion H1; subst v1' lat1'. rewrite Hwait in H2. discriminate.
  - cbn [fst]. split; [discriminate|].
    intros (v1' & lat1' & v2' & lat2' & H1 & _). discriminate.
Qed.

Lemma ruststack_process_teardown_never_raises remote port host proc endpoint :
  (forall t h, exists v lat, invoke remote t h (ProcTerminate proc) = (Ok v, lat)) ->
  (forall t h, exists v lat, invoke remote t h (ProcWait proc 5) = (Ok v, lat)) ->
  never_raises (teardown (ruststack_process remote port host) (proc, endpoint)).
Proof.
  intros Hterm Hwait w.
  destruct (Hterm (clock w) (trace w)) as (v1 & lat1 & H1).
  destruct (Hwait (clock w + Z.of_N lat1)
              (trace w ++ [CallEvent (clock w) (ProcTerminate proc) (Ok v1) lat1]))
    as (v2 & lat2 & H2).
  pose proof (proj2 (ruststack_process_teardown_returns remote port host proc endpoint w)
                (ex_intro _ v1 (ex_intro _ lat1 (ex_intro _ v2 (ex_intro _ lat2
                   (conj H1 H2)))))) as Hret.
  destruct (teardown (ruststack_process remote port host) (proc, endpoint) w)
    as [r w'] eqn:Hrun.
  cbn [fst] in Hret. subst r. now exists w'.
Qed.

(** C5, as stated, fails for one fixture of conftest.py: the teardown of
    [ruststack_process] raises [TimeoutExpired] when the process does
    not exit within the 5 s of the wait, the first time as the second,
    and in the [finally] of a test body that passed it turns the verdict
    into this error. *)
Lemma ruststack_process_teardown_not_repeatable :
  fst (teardown (ruststack_process remote_ignores_terminate 4566 "localhost")
         (VProc 4242, "http://localhost:4566") initial_world)
    = Raised (Exn (LibError TimeoutExpired) "Command timed out after 5 seconds") /\
  fst (try_finally (ret tt)
         (teardown (ruststack_process remote_ignores_terminate 4566 "localhost")
            (VProc 4242, "http://localhost:4566") ;;
          teardown (ruststack_process remote_ignores_terminate 4566 "localhost")
            (VProc 4242, "http://localhost:4566"))%py initial_world)
    = Raised (Exn (LibError TimeoutExpired) "Command timed out after 5 seconds") /\
  ~ repeatable (teardown (ruststack_process remote_ignores_terminate 4566 "localhost")
                  (VProc 4242, "http://localhost:4566")).
Proof.
  split; [vm_compute; reflexivity|]. split; [vm_compute; reflexivity|].
  intros [Hnr _]. destruct (Hnr initial_world) as [w' H].
  vm_compute in H. discriminate.
Qed.

(** C5, amended: for each of the six resource fixtures, with any client,
    any identifier and any behaviour of the service (also one that
    answers every deletion with "not found"), and for
    [ruststack_endpoint], which has nothing after its [yield], running
    the teardown twice in a row returns without raising, and in the
    [finally] of a test body it leaves the outcome of the body
    unchanged.  The teardown has type [M unit]: it returns nothing.  The
    teardown of [ruststack_process] is the exception: it returns exactly
    when [terminate] and [wait] are answered without an error, and it
    can be repeated in this sense as long as they are. *)
Theorem fixture_teardown_repeatable (remote : Remote) (c : client)
    (id bucket_name : string) (api_id : value)
    (port : Z) (host endpoint : string) (proc : value) :
  repeatable (teardown (s3_bucket remote c) id) /\
  repeatable (teardown (dynamodb_table remote c) id) /\
  repeatable (teardown (secret remote c) id) /\
  repeatable (teardown (iam_role remote c) id) /\
  repeatable (teardown (http_api remote c) api_id) /\
  repeatable (teardown (delivery_stream remote c bucket_name) id) /\
  repeatable (teardown (ruststack_endpoint remote port host) endpoint) /\
  (forall w,
     fst (teardown (ruststack_process remote port host) (proc, endpoint) w) = Returned tt <->
     exists v1 lat1 v2 lat2,
       invoke remote (clock w) (trace w) (ProcTerminate proc) = (Ok v1, lat1) /\
       invoke remote (clock w + Z.of_N lat1)
         (trace w ++ [CallEvent (clock w) (ProcTerminate proc) (Ok v1) lat1])
         (ProcWait proc 5) = (Ok v2, lat2)) /\
  ((forall t h, exists v lat, invoke remote t h (ProcTerminate proc) = (Ok v, lat)) ->
   (forall t h, exists v lat, invoke remote t h (ProcWait proc 5) = (Ok v, lat)) ->
   repeatable (teardown (ruststack_process remote port host) (proc, endpoint))).
Proof.
  refine (conj _ (conj _ (conj _ (conj _ (conj _ (conj _ (conj _ (conj _ _))))))));
    try apply never_raises_repeatable.
  - apply s3_bucket_teardown_never_raises.
  - apply dynamodb_table_teardown_never_raises.
  - apply secret_teardown_never_raises.
  - apply iam_role_teardown_never_raises.
  - apply http_api_teardown_never_raises.
  - apply delivery_stream_teardown_never_raises.
  - apply ruststack_endpoint_teardown_never_raises.
  - intros w. apply ruststack_process_teardown_returns.
  - intros Hterm Hwait. apply never_raises_repeatable.
    now apply ruststack_process_teardown_never_raises.
Qed.

Lemma fixture_teardown_repeatable_witness :
  repeatable (teardown (ruststack_process remote_healthy 4566 "localhost")
                (VProc 4242, "http://localhost:4566")).
Proof.
  destruct (fixture_teardown_repeatable remote_healthy (s3_client "http://localhost:4566")
              "test-bucket-9f1c2ab4" "test-bucket-9f1c2ab4" (VStr "a1b2c3d4")
              4566 "localhost" "http://localhost:4566" (VProc 4242))
    as (_ & _ & _ & _ & _ & _ & _ & _ & H).
  apply H; intros t h; exists VNone, 3%N; reflexivity.
Defined.

(** ** C2: sub-steps of a teardown after an error *)

(** A client call in a [try] of its own whose [except] clause takes the
    library's errors: the call is issued and recorded, and the block
    returns whatever the answer is. *)
Lemma guarded_call remote c op args handles w :
  (forall cl msg, handles (Exn (LibError cl) msg) = true) ->
  exists o lat,
    try_except (boto_ remote c op args) handles (fun _ => ret tt) w =
    (Returned tt,
     {| clock := clock w + Z.of_N lat;
        trace := trace w ++ [CallEvent (clock w) (Boto c op args) o lat];
        stdout := stdout w |}).
Proof.
  intros Hh. unfold try_except, boto_, bind, perform.
  destruct (invoke remote (clock w) (trace w) (Boto c op args)) as [[v|cl msg] lat].
  - exists (Ok v), lat. reflexivity.
  - exists (Fault cl msg), lat. rewrite Hh. reflexivity.
Qed.

(** The cleanup of [test_s3_operations] attempts both of its sub-steps,
    the deletion of the object and then that of the bucket, whatever the
    answer to the first is, and then raises the original exception. *)
Lemma test_s3_operations_except_attempts_both remote c bucket_name e w :
  exists o1 lat1 o2 lat2 w',
    test_s3_operations_except remote c bucket_name e w = (Raised e, w') /\
    trace w' = trace w ++
      [CallEvent (clock w)
         (Boto c "delete_object" [("Bucket", VStr bucket_name); ("Key", VStr object_key)])
         o1 lat1;
       CallEvent (clock w + Z.of_N lat1)
         (Boto c "delete_bucket" [("Bucket", VStr bucket_name)]) o2 lat2].
Proof.
  unfold test_s3_operations_except.
  destruct (guarded_call remote c "delete_object"
              [("Bucket", VStr bucket_name); ("Key", VStr object_key)] any_exn w
              ltac:(reflexivity)) as (o1 & lat1 & H1).
  erewrite bind_returned by exact H1.
  match goal with |- context [bind _ _ ?w1] => set (wa := w1) end.
  destruct (guarded_call remote c "delete_bucket" [("Bucket", VStr bucket_name)]
              any_exn wa ltac:(reflexivity)) as (o2 & lat2 & H2).
  erewrite bind_returned by exact H2.
  eexists o1, lat1, o2, lat2, _. split; [reflexivity|].
  unfold wa. cbn [trace clock]. now rewrite <- app_assoc.
Qed.

(** In the teardown of the [s3_bucket] fixture one [try] covers all the
    sub-steps: when the listing fails nothing else is attempted. *)
Lemma s3_bucket_teardown_listing_fails remote c bucket_name w cl msg lat :
  invoke remote (clock w) (trace w)
    (Boto c "list_objects_v2" [("Bucket", VStr bucket_name)]) = (Fault cl msg, lat) ->
  teardown (s3_bucket remote c) bucket_name w =
  (Returned tt,
   {| clock := clock w + Z.of_N lat;
      trace := trace w ++
        [CallEvent (clock w) (Boto c "list_objects_v2" [("Bucket", VStr bucket_name)])
           (Fault cl msg) lat];
      stdout := stdout w |}).
Proof.
  intros H. cbn [teardown s3_bucket]. unfold try_except, bind at 1, perform.
  rewrite H. reflexivity.
Qed.

(** C2 on the code: the teardown of the [s3_bucket] fixture stops at the
    first sub-step that fails.  With two objects in the bucket and a
    service that refuses to delete objects, it lists, tries to delete the
    first object, and returns: the second object and the bucket are never
    attempted.  The cleanup of [test_s3_operations] does go on, with the
    same service, to the deletion of the bucket. *)
Theorem s3_bucket_teardown_stops_at_first_error :
  (fst (teardown (s3_bucket remote_delete_refused (s3_client "http://localhost:4566"))
          "test-bucket-9f1c2ab4" initial_world) = Returned tt /\
   map label
     (trace (snd (teardown
                    (s3_bucket remote_delete_refused (s3_client "http://localhost:4566"))
                    "test-bucket-9f1c2ab4" initial_world)))
   = ["s3.list_objects_v2"; "s3.delete_object"]) /\
  map label
    (trace (snd (test_s3_operations_except remote_delete_refused (get_client "s3")
                   "test-bucket-9f1c2ab4" (Exn AssertionError "Object content mismatch")
                   initial_world)))
  = ["s3.delete_object"; "s3.delete_bucket"].
Proof. vm_compute. repeat split. Qed.

(** ** C9: stopping the managed subprocess *)

Lemma ruststack_process_finally_run remote proc w r w' :
  ruststack_process_finally remote proc w = (r, w') ->
  terminate_then_wait proc w r w'.
Proof.
  unfold ruststack_process_finally, bind, perform. intros H.
  destruct (invoke remote (clock w) (trace w) (ProcTerminate proc)) as [o1 lat1].
  exists o1, lat1. destruct o1 as [v|c msg].
  - cbn [clock trace stdout] in H.
    destruct (invoke remote (clock w + Z.of_N lat1)
                (trace w ++ [CallEvent (clock w) (ProcTerminate proc) (Ok v) lat1])
                (ProcWait proc 5)) as [o2 lat2].
    exists o2, lat2.
    destruct o2 as [v2|c msg]; inversion H; subst; cbn [trace];
      rewrite <- app_assoc; auto.
  - inversion H; subst. auto.
Qed.

(** C9, as stated, fails: with a process that does not exit within the
    grace period, the teardown of [ruststack_process] raises
    [TimeoutExpired]; after "terminate" and "wait" nothing more is sent,
    no kill. *)
Lemma ruststack_process_teardown_raises :
  fst (setup (ruststack_process remote_ignores_terminate 4566 "localhost") initial_world)
    = Returned (VProc 4242, "http://localhost:4566") /\
  fst (teardown (ruststack_process remote_ignores_terminate 4566 "localhost")
         (VProc 4242, "http://localhost:4566")
         (snd (setup (ruststack_process remote_ignores_terminate 4566 "localhost")
                 initial_world)))
    = Raised (Exn (LibError TimeoutExpired) "Command timed out after 5 seconds") /\
  map label
    (trace (snd (teardown (ruststack_process remote_ignores_terminate 4566 "localhost")
                   (VProc 4242, "http://localhost:4566")
                   (snd (setup (ruststack_process remote_ignores_terminate 4566
                                  "localhost") initial_world)))))
  = ["environ.get"; "path.exists"; "Popen"; "GET http://localhost:4566/health";
     "terminate"; "wait"].
Proof. vm_compute. repeat split. Qed.

(** ** C3: creation and teardown order of dependent fixtures *)

Lemma grows_ret {A} (a : A) : grows (ret a).
Proof. intros w r w' H. inversion H; subst. exists []. now rewrite app_nil_r. Qed.

Lemma grows_bind {A B} (m : M A) (f : A -> M B) :
  grows m -> (forall a, grows (f a)) -> grows (bind m f).
Proof.
  intros Hm Hf w r w' H. unfold bind in H.
  destruct (m w) as [r1 w1] eqn:Hmw. destruct (Hm w r1 w1 Hmw) as [evs1 H1].
  destruct r1 as [a|e|].
  - destruct (Hf a w1 r w' H) as [evs2 H2].
    exists (evs1 ++ evs2). now rewrite H2, H1, app_assoc.
  - inversion H; subst. eauto.
  - inversion H; subst. eauto.
Qed.

Lemma grows_try_except {A} (m : M A) handles h :
  grows m -> (forall e, grows (h e)) -> grows (try_except m handles h).
Proof.
  intros Hm Hh w r w' H. unfold try_except in H.
  destruct (m w) as [r1 w1] eqn:Hmw. destruct (Hm w r1 w1 Hmw) as [evs1 H1].
  destruct r1 as [a|e|]; try (inversion H; subst; eauto; fail).
  destruct (handles e); [|inversion H; subst; eauto].
  destruct (Hh e w1 r w' H) as [evs2 H2].
  exists (evs1 ++ evs2). now rewrite H2, H1, app_assoc.
Qed.

Lemma grows_perform remote c : grows (perform remote c).
Proof.
  intros w r w' H. unfold perform in H.
  destruct (invoke remote (clock w) (trace w) c) as [[v|cl msg] lat];
    inversion H; subst; cbn; eauto.
Qed.

Lemma grows_pure {A} (m : M A) :
  (forall w, snd (m w) = w) -> grows m.
Proof.
  intros Hm w r w' H. specialize (Hm w). rewrite H in Hm. cbn in Hm. subst.
  exists []. now rewrite app_nil_r.
Qed.

Lemma grows_subscript v k : grows (subscript v k).
Proof. apply grows_pure. intros w. destruct v; cbn; auto. destruct (lookup k d); auto. Qed.

Lemma grows_dict_get v k d : grows (dict_get v k d).
Proof. apply grows_pure. intros w. destruct v; cbn; auto. destruct (lookup k d0); auto. Qed.

Lemma grows_iterate v : grows (iterate v).
Proof. apply grows_pure. intros w. destruct v; cbn; auto. Qed.

Lemma grows_for_each {A} (l : list A) (f : A -> M unit) :
  (forall a, grows (f a)) -> grows (for_each l f).
Proof.
  intros Hf. induction l as [|a l IH]; cbn [for_each].
  - apply grows_ret.
  - apply grows_bind; [apply Hf | intros _; exact IH].
Qed.

Lemma grows_boto_ remote c op args : grows (boto_ remote c op args).
Proof.
  unfold boto_. apply grows_bind; [apply grows_perform | intros; apply grows_ret].
Qed.

(** The creation of a fixture that draws a name and makes one client
    call with it: when it returns, these two interactions are what it
    added to the trace. *)
Lemma named_creation remote prefix c op (args : string -> kwargs) w name w1 :
  (n <- fresh_name remote prefix ;; boto_ remote c op (args n) ;; ret n)%py w
  = (Returned name, w1) ->
  exists evs,
    trace w1 = trace w ++ evs /\
    map ev_call evs = [Some Uuid4Hex; Some (Boto c op (args name))].
Proof.
  unfold fresh_name, boto_, bind, perform. intros H.
  destruct (invoke remote (clock w) (trace w) Uuid4Hex) as [[hex|cl msg] lat];
    [|discriminate].
  destruct hex; cbn in H; try discriminate.
  match type of H with
  | context [invoke remote ?t ?h ?c] =>
      destruct (invoke remote t h c) as [[v|cl msg] lat2]
  end; inversion H; subst; clear H.
  cbn [trace]. rewrite <- app_assoc. eexists. split; reflexivity.
Qed.

Lemma try_except_bind {A B} (m : M A) (k : A -> M B) handles h w :
  try_except (bind m k) handles h w =
  match m w with
  | (Returned a, w1) => try_except (k a) handles h w1
  | (Raised e, w1) => if handles e then h e w1 else (Raised e, w1)
  | (OutOfFuel, w1) => (OutOfFuel, w1)
  end.
Proof. unfold try_except, bind. destruct (m w) as [[a|e|] w1]; reflexivity. Qed.

(** The teardown of [s3_bucket] returns, and the first thing it adds to
    the trace is the listing of the bucket. *)
Lemma s3_bucket_teardown_run remote c bucket_name w :
  exists w' evs rest,
    teardown (s3_bucket remote c) bucket_name w = (Returned tt, w') /\
    trace w' = trace w ++ evs /\
    map ev_call evs =
      Some (Boto c "list_objects_v2" [("Bucket", VStr bucket_name)]) :: rest.
Proof.
  destruct (s3_bucket_teardown_never_raises remote c bucket_name w) as [w' Hrun].
  exists w'. pose proof Hrun as H.
  cbn [teardown s3_bucket] in H. rewrite try_except_bind in H. unfold perform in H.
  destruct (invoke remote (clock w) (trace w)
              (Boto c "list_objects_v2" [("Bucket", VStr bucket_name)]))
    as [[v|cl msg] lat].
  - match type of H with
    | try_except ?k _ _ ?wp = _ =>
        assert (Hg : grows (try_except k is_Exception (fun _ => ret tt)))
    end.
    { apply grows_try_except; [|intros; apply grows_ret].
      apply grows_bind; [apply grows_dict_get|]. intros contents.
      apply grows_bind; [apply grows_iterate|]. intros objs.
      apply grows_bind; [|intros; apply grows_boto_].
      apply grows_for_each. intros obj.
      apply grows_bind; [apply grows_subscript | intros; apply grows_boto_]. }
    destruct (Hg _ _ _ H) as [evs' Hevs]. cbn [trace] in Hevs.
    rewrite <- app_assoc in Hevs.
    eexists _, _. split; [exact Hrun|]. split; [exact Hevs | reflexivity].
  - cbn in H. inversion H; subst. cbn [trace].
    eexists _, _. split; [exact Hrun|]. split; reflexivity.
Qed.

(** The teardown of [delivery_stream] returns, and the deletion of the
    stream is all it adds to the trace. *)
Lemma delivery_stream_teardown_run remote c bucket_name stream_name w :
  exists w' evs,
    teardown (delivery_stream remote c bucket_name) stream_name w = (Returned tt, w') /\
    trace w' = trace w ++ evs /\
    map ev_call evs =
      [Some (Boto c "delete_delivery_stream" [("DeliveryStreamName", VStr stream_name)])].
Proof.
  cbn [teardown delivery_stream].
  destruct (guarded_call remote c "delete_delivery_stream"
              [("DeliveryStreamName", VStr stream_name)] is_Exception w
              ltac:(reflexivity)) as (o & lat & H).
  eexists _, _. split; [exact H|]. split; reflexivity.
Qed.

(** A teardown that returns is not affected by the runner's guard. *)
Lemma guarded_teardown (td : M unit) h w w' :
  td w = (Returned tt, w') -> try_except td any_exn h w = (Returned tt, w').
Proof. intros H. unfold try_except. now rewrite H. Qed.

Lemma with_fixture_run {R A} (f : fixture R) (test_body : R -> M A) w x w1 r w2 w3 :
  setup f w = (Returned x, w1) ->
  test_body x w1 = (r, w2) ->
  r <> OutOfFuel ->
  teardown f x w2 = (Returned tt, w3) ->
  with_fixture f test_body w = (r, w3).
Proof.
  intros Hs Hb Hr Ht. unfold with_fixture.
  erewrite bind_returned by exact Hs.
  unfold try_finally. rewrite Hb.
  rewrite (guarded_teardown _ _ _ _ Ht). destruct r; congruence.
Qed.

Lemma emits_pure {A} (m : M A) : (forall w, snd (m w) = w) -> emits m [].
Proof.
  intros Hm w a w' H. specialize (Hm w). rewrite H in Hm. cbn in Hm. subst.
  now rewrite app_nil_r.
Qed.

Lemma emits_ret {A} (a : A) : emits (ret a) [].
Proof. now apply emits_pure. Qed.

Lemma emits_print s : emits (print s) [].
Proof. intros w a w' H. inversion H; subst. cbn. now rewrite app_nil_r. Qed.

Lemma emits_py_assert c msg : emits (py_assert c msg) [].
Proof. apply emits_pure. intros w. now destruct c. Qed.

Lemma emits_subscript v k : emits (subscript v k) [].
Proof. apply emits_pure. intros w. destruct v; cbn; auto. destruct (lookup k d); auto. Qed.

Lemma emits_index v i : emits (index v i) [].
Proof. apply emits_pure. intros w. destruct v; cbn; auto. destruct (nth_error l i); auto. Qed.

Lemma emits_dict_get v k d : emits (dict_get v k d) [].
Proof. apply emits_pure. intros w. destruct v; cbn; auto. destruct (lookup k d0); auto. Qed.

Lemma emits_py_len v : emits (py_len v) [].
Proof. apply emits_pure. intros w. destruct v; cbn; auto. Qed.

Lemma emits_iterate v : emits (iterate v) [].
Proof. apply emits_pure. intros w. destruct v; cbn; auto. Qed.

Lemma emits_stream_read v : emits (stream_read v) [].
Proof. apply emits_pure. intros w. destruct v; cbn; auto. Qed.

Lemma emits_str_prefix v n : emits (str_prefix v n) [].
Proof. apply emits_pure. intros w. destruct v; cbn; auto. Qed.

Lemma emits_bind {A B} (m : M A) (f : A -> M B) l1 l2 :
  emits m l1 -> (forall a, emits (f a) l2) -> emits (bind m f) (l1 ++ l2).
Proof.
  intros Hm Hf w b w' H. unfold bind in H.
  destruct (m w) as [[a|e|] w1] eqn:Hmw; try discriminate.
  rewrite (Hf a w1 b w' H), (Hm w a w1 Hmw). now rewrite app_assoc.
Qed.

Lemma emits_map_M {A B} (f : A -> M B) l :
  (forall a, emits (f a) []) -> emits (map_M f l) [].
Proof.
  intros Hf. induction l as [|a l IH]; cbn [map_M].
  - apply emits_ret.
  - change (@nil string) with ([] ++ ([] ++ @nil string)).
    apply emits_bind; [apply Hf|]. intros b.
    apply emits_bind; [exact IH|]. intros bs. apply emits_ret.
Qed.

Lemma emits_perform remote c :
  emits (perform remote c) [label (CallEvent 0 c (Ok VNone) 0%N)].
Proof.
  intros w a w' H. unfold perform in H.
  destruct (invoke remote (clock w) (trace w) c) as [[v|cl msg] lat];
    inversion H; subst. cbn [trace]. rewrite map_app. reflexivity.
Qed.

Lemma emits_boto remote c op args :
  emits (perform remote (Boto c op args)) [(service_name c ++ "." ++ op)%string].
Proof. apply emits_perform. Qed.

Lemma emits_try_except {A} (m : M A) handles h ls :
  emits m ls ->
  (forall e w a w', h e w <> (Returned a, w')) ->
  emits (try_except m handles h) ls.
Proof.
  intros Hm Hh w a w' H. unfold try_except in H.
  destruct (m w) as [[x|e|] w1] eqn:Hmw; try discriminate.
  - inversion H; subst. eapply Hm; eauto.
  - destruct (handles e); [|discriminate]. now contradiction (Hh e w1 a w').
Qed.

Lemma emits_weaken {A} (m : M A) l l' : emits m l -> l = l' -> emits m l'.
Proof. now intros H <-. Qed.

Ltac emits_steps :=
  repeat first
    [ eapply emits_bind; [|intro]
    | apply emits_boto | apply emits_perform | apply emits_print | apply emits_py_assert
    | apply emits_subscript | apply emits_index | apply emits_dict_get
    | apply emits_py_len | apply emits_iterate | apply emits_stream_read
    | apply emits_str_prefix | apply emits_ret
    | apply emits_map_M; intro ].

Lemma test_s3_operations_emits remote :
  emits (test_s3_operations remote)
    ["uuid4"; "s3.create_bucket"; "s3.list_buckets"; "s3.put_object"; "s3.get_object";
     "s3.list_objects_v2"; "s3.delete_object"; "s3.delete_bucket"].
Proof.
  eapply emits_weaken.
  - unfold test_s3_operations. cbv zeta.
    eapply emits_bind; [apply emits_print | intros _].
    eapply emits_bind; [unfold fresh_name; emits_steps | intros bucket_name].
    eapply emits_bind; [|intros _; apply emits_print].
    apply emits_try_except.
    + unfold test_s3_operations_try, boto_. emits_steps.
    + intros e w a w' H.
      destruct (test_s3_operations_except_attempts_both remote (get_client "s3")
                  bucket_name e w) as (o1 & l1 & o2 & l2 & w2 & Heq & _).
      rewrite Heq in H. discriminate.
  - reflexivity.
Qed.

(** Against the working service all four tests pass and the process
    exits with 0. *)
Example main_healthy :
  exit_code (fst (main remote_healthy initial_world)) = Some 0 /\
  In "PASSED: 4/4 tests" (stdout (snd (main remote_healthy initial_world))).
Proof. vm_compute. tauto. Qed.

(** Against a service that is still starting, the health check fails
    and the other three tests pass: exit code 1, one line of failure. *)
Example main_one_failure :
  fst (main {| http_get := http_get remote_starting; invoke := invoke remote_healthy |}
         initial_world) = Raised (SystemExit 1) /\
  skipn 35 (stdout (snd (main {| http_get := http_get remote_starting;
                                invoke := invoke remote_healthy |} initial_world)))
  = ["FAILED: 1/4 tests"; "  - test_health_check: Health check failed: 503"].
Proof. vm_compute. split; reflexivity. Qed.

(** The prober sees the starting service become ready at the third
    request and returns 260 ms after it began. *)
Example wait_for_ruststack_starting :
  fst (wait_for_ruststack remote_starting "http://localhost:4566" 30000 initial_world)
    = Returned true /\
  clock (snd (wait_for_ruststack remote_starting "http://localhost:4566" 30000
                initial_world)) = 260.
Proof. vm_compute. split; reflexivity. Qed.

(** C3: the [delivery_stream] fixture takes the name of the [s3_bucket]
    fixture.  Whenever both have been created, the bucket was created
    before the stream, and after the test body, however it ended, the
    stream is deleted first and the teardown of the bucket (which begins
    with the listing of its objects) comes after it.  In the same way
    [test_s3_operations], when it passes, has put its object after
    creating the bucket and deleted it before deleting the bucket. *)
Theorem dependent_fixture_order (remote : Remote) :
  (forall (endpoint : string) (A : Type) (test_body : string -> string -> M A)
          w bucket_name w1 stream_name w2 r w3,
     setup (s3_bucket remote (s3_client endpoint)) w = (Returned bucket_name, w1) ->
     setup (delivery_stream remote (firehose_client endpoint) bucket_name) w1
       = (Returned stream_name, w2) ->
     test_body stream_name bucket_name w2 = (r, w3) ->
     r <> OutOfFuel ->
     exists created_bucket created_stream removed_stream removed_bucket rest w4 w5,
       trace w1 = trace w ++ created_bucket /\
       map ev_call created_bucket =
         [Some Uuid4Hex;
          Some (Boto (s3_client endpoint) "create_bucket" [("Bucket", VStr bucket_name)])] /\
       trace w2 = trace w1 ++ created_stream /\
       map ev_call created_stream =
         [Some Uuid4Hex;
          Some (Boto (firehose_client endpoint) "create_delivery_stream"
                  (delivery_stream_args stream_name bucket_name))] /\
       trace w4 = trace w3 ++ removed_stream /\
       map ev_call removed_stream =
         [Some (Boto (firehose_client endpoint) "delete_delivery_stream"
                  [("DeliveryStreamName", VStr stream_name)])] /\
       trace w5 = trace w4 ++ removed_bucket /\
       map ev_call removed_bucket =
         Some (Boto (s3_client endpoint) "list_objects_v2" [("Bucket", VStr bucket_name)])
         :: rest /\
       with_delivery_stream remote endpoint test_body w = (r, w5)) /\
  (forall w w',
     test_s3_operations remote w = (Returned tt, w') ->
     map label (trace w') =
     map label (trace w) ++
       ["uuid4"; "s3.create_bucket"; "s3.list_buckets"; "s3.put_object"; "s3.get_object";
        "s3.list_objects_v2"; "s3.delete_object"; "s3.delete_bucket"]).
Proof.
  split.
  - intros endpoint A test_body w bucket_name w1 stream_name w2 r w3 HsA HsB Hbody Hr.
    destruct (named_creation remote "test-bucket-" (s3_client endpoint) "create_bucket"
                (fun n => [("Bucket", VStr n)]) w bucket_name w1 HsA)
      as (created_bucket & HtA & HcA).
    destruct (named_creation remote "test-stream-" (firehose_client endpoint)
                "create_delivery_stream"
                (fun n => delivery_stream_args n bucket_name) w1 stream_name w2 HsB)
      as (created_stream & HtB & HcB).
    destruct (delivery_stream_teardown_run remote (firehose_client endpoint)
                bucket_name stream_name w3) as (w4 & removed_stream & Hd4 & Ht4 & Hc4).
    destruct (s3_bucket_teardown_run remote (s3_client endpoint) bucket_name w4)
      as (w5 & removed_bucket & rest & Hd5 & Ht5 & Hc5).
    exists created_bucket, created_stream, removed_stream, removed_bucket, rest, w4, w5.
    repeat (split; [assumption|]).
    unfold with_delivery_stream.
    eapply with_fixture_run; [exact HsA | | exact Hr | exact Hd5].
    eapply with_fixture_run; [exact HsB | exact Hbody | exact Hr | exact Hd4].
  - intros w w' H. exact (test_s3_operations_emits remote w tt w' H).
Qed.

Lemma dependent_fixture_order_witness :
  (exists created_bucket created_stream removed_stream removed_bucket rest w4 w5,
     trace world_with_bucket = trace initial_world ++ created_bucket /\
     map ev_call created_bucket =
       [Some Uuid4Hex;
        Some (Boto (s3_client "http://localhost:4566") "create_bucket"
                [("Bucket", VStr "test-bucket-9f1c2ab4")])] /\
     trace world_with_stream = trace world_with_bucket ++ created_stream /\
     map ev_call created_stream =
       [Some Uuid4Hex;
        Some (Boto (firehose_client "http://localhost:4566") "create_delivery_stream"
                (delivery_stream_args "test-stream-9f1c2ab4" "test-bucket-9f1c2ab4"))] /\
     trace w4 = trace world_after_body ++ removed_stream /\
     map ev_call removed_stream =
       [Some (Boto (firehose_client "http://localhost:4566") "delete_delivery_stream"
                [("DeliveryStreamName", VStr "test-stream-9f1c2ab4")])] /\
     trace w5 = trace w4 ++ removed_bucket /\
     map ev_call removed_bucket =
       Some (Boto (s3_client "http://localhost:4566") "list_objects_v2"
               [("Bucket", VStr "test-bucket-9f1c2ab4")])
       :: rest /\
     with_delivery_stream remote_healthy "http://localhost:4566" put_one_record
       initial_world = (Returned (VDict []), w5)) /\
  map label (trace (snd (test_s3_operations remote_healthy initial_world))) =
  map label (trace initial_world) ++
    ["uuid4"; "s3.create_bucket"; "s3.list_buckets"; "s3.put_object"; "s3.get_object";
     "s3.list_objects_v2"; "s3.delete_object"; "s3.delete_bucket"].
Proof.
  split.
  - apply (proj1 (dependent_fixture_order remote_healthy)
             "http://localhost:4566" value put_one_record initial_world).
    + vm_compute. reflexivity.
    + vm_compute. reflexivity.
    + vm_compute. reflexivity.
    + discriminate.
  - apply (proj2 (dependent_fixture_order remote_healthy) initial_world).
    vm_compute. reflexivity.
Defined.

(** The run of the same test, as it is recorded. *)
Example with_delivery_stream_healthy :
  map label
    (trace (snd (with_delivery_stream remote_healthy "http://localhost:4566"
                   put_one_record initial_world)))
  = ["uuid4"; "s3.create_bucket"; "uuid4"; "firehose.create_delivery_stream";
     "firehose.put_record";
     "firehose.delete_delivery_stream"; "s3.list_objects_v2"; "s3.delete_bucket"].
Proof. vm_compute. reflexivity. Qed.

(** ** examples/flask-lambda/app.py: the dict of items *)

Lemma find_assign_same {V} k (v : V) d : FlaskApp.find k (FlaskApp.assign k v d) = Some v.
Proof.
  induction d as [|[k' v'] d IH]; cbn.
  - now rewrite String.eqb_refl.
  - destruct (String.eqb k' k) eqn:E; cbn.
    + now rewrite String.eqb_refl.
    + now rewrite E.
Qed.

Lemma find_assign_other {V} k k0 (v : V) d :
  k0 <> k -> FlaskApp.find k0 (FlaskApp.assign k v d) = FlaskApp.find k0 d.
Proof.
  intros Hne. induction d as [|[k' v'] d IH]; cbn.
  - destruct (String.eqb k k0) eqn:E; [|reflexivity].
    apply String.eqb_eq in E. congruence.
  - destruct (String.eqb k' k) eqn:E; cbn.
    + apply String.eqb_eq in E. subst k'.
      destruct (String.eqb k k0) eqn:E0; [|reflexivity].
      apply String.eqb_eq in E0. congruence.
    + now rewrite IH.
Qed.

Lemma find_remove_same {V} k (d : list (string * V)) :
  FlaskApp.find k (FlaskApp.remove k d) = None.
Proof.
  induction d as [|[k' v'] d IH]; cbn; [reflexivity|].
  destruct (String.eqb k' k) eqn:E; cbn; [exact IH | now rewrite E].
Qed.

Lemma find_remove_other {V} k k0 (d : list (string * V)) :
  k0 <> k -> FlaskApp.find k0 (FlaskApp.remove k d) = FlaskApp.find k0 d.
Proof.
  intros Hne. induction d as [|[k' v'] d IH]; cbn; [reflexivity|].
  destruct (String.eqb k' k) eqn:E; cbn.
  - apply String.eqb_eq in E. subst k'.
    destruct (String.eqb k k0) eqn:E0; [|exact IH].
    apply String.eqb_eq in E0. congruence.
  - now rewrite IH.
Qed.

Lemma find_none_keys {V} k (d : list (string * V)) :
  FlaskApp.find k d = None <-> ~ In k (map fst d).
Proof.
  induction d as [|[k' v'] d IH]; cbn; [tauto|].
  destruct (String.eqb k' k) eqn:E.
  - apply String.eqb_eq in E. split; [discriminate | tauto].
  - apply String.eqb_neq in E. rewrite IH. tauto.
Qed.

Lemma assign_fresh {V} k (v : V) d :
  FlaskApp.find k d = None -> FlaskApp.assign k v d = d ++ [(k, v)].
Proof.
  induction d as [|[k' v'] d IH]; cbn; [reflexivity|].
  destruct (String.eqb k' k); [discriminate|]. intros H. now rewrite IH.
Qed.

Lemma assign_keys_present {V} k (v v0 : V) d :
  FlaskApp.find k d = Some v0 -> map fst (FlaskApp.assign k v d) = map fst d.
Proof.
  induction d as [|[k' v'] d IH]; cbn; [discriminate|].
  destruct (String.eqb k' k) eqn:E; cbn.
  - apply String.eqb_eq in E. now subst.
  - intros H. now rewrite IH.
Qed.

Lemma remove_keys_subset {V} k k0 (d : list (string * V)) :
  In k0 (map fst (FlaskApp.remove k d)) -> In k0 (map fst d).
Proof.
  induction d as [|[k' v'] d IH]; cbn; [tauto|].
  destruct (String.eqb k' k); cbn; tauto.
Qed.

Lemma remove_nodup {V} k (d : list (string * V)) :
  NoDup (map fst d) -> NoDup (map fst (FlaskApp.remove k d)).
Proof.
  induction d as [|[k' v'] d IH]; cbn; [auto|].
  intros H. inversion H as [|? ? Hnotin Hd]; subst.
  destruct (String.eqb k' k); cbn; [auto|].
  constructor; [|auto]. intros Hin. apply Hnotin. eapply remove_keys_subset; eauto.
Qed.

Lemma remove_forall {V} (P : string * V -> Prop) k d :
  Forall P d -> Forall P (FlaskApp.remove k d).
Proof.
  induction 1 as [|[k' v'] d Hx Hd IH]; cbn; [constructor|].
  destruct (String.eqb k' k); auto.
Qed.

Lemma assign_nodup {V} k (v : V) d :
  NoDup (map fst d) -> NoDup (map fst (FlaskApp.assign k v d)).
Proof.
  intros H. destruct (FlaskApp.find k d) as [v0|] eqn:E.
  - now rewrite (assign_keys_present k v v0 d E).
  - rewrite (assign_fresh k v d E), map_app. cbn.
    apply NoDup_app; [exact H | repeat constructor; cbn; tauto |].
    intros x Hx [<-|[]]. now apply find_none_keys in E.
Qed.

Lemma assign_forall {V} (P : string * V -> Prop) k v d :
  P (k, v) -> Forall P d -> Forall P (FlaskApp.assign k v d).
Proof.
  intros Hk. induction 1 as [|[k' v'] d Hx Hd IH]; cbn; [auto|].
  destruct (String.eqb k' k); auto.
Qed.

Lemma assign_well_formed k it items :
  item_shape k it -> well_formed items -> well_formed (FlaskApp.assign k it items).
Proof.
  intros Hit [Hnd Hall]. split; [now apply assign_nodup | now apply assign_forall].
Qed.

Lemma find_shape k it items :
  well_formed items -> FlaskApp.find k items = Some it -> item_shape k it.
Proof.
  intros [_ Hall]. induction Hall as [|[k' v'] d Hx Hd IH]; cbn; [discriminate|].
  destruct (String.eqb k' k) eqn:E; [|exact IH].
  apply String.eqb_eq in E. subst k'. intros H. inversion H; subst. exact Hx.
Qed.

Lemma keeps_ret {A} P (a : A) : keeps P (FlaskApp.view_ret a).
Proof. intros items H. exact H. Qed.

Lemma keeps_raise {A} P e : keeps P (@FlaskApp.view_raise A e).
Proof. intros items H. exact H. Qed.

Lemma keeps_bind {A B} P (m : FlaskApp.View A) (f : A -> FlaskApp.View B) :
  keeps P m -> (forall a, keeps P (f a)) -> keeps P (FlaskApp.view_bind m f).
Proof.
  intros Hm Hf items H. unfold FlaskApp.view_bind. specialize (Hm items H).
  destruct (m items) as [[a|e|] items1]; cbn in *; auto. now apply Hf.
Qed.

Lemma keeps_contains P k v : keeps P (FlaskApp.contains k v).
Proof. destruct v; cbn; first [apply keeps_ret | apply keeps_raise]. Qed.

Lemma keeps_getitem P v k : keeps P (FlaskApp.getitem v k).
Proof.
  destruct v; cbn; try apply keeps_raise.
  destruct (lookup k d); [apply keeps_ret | apply keeps_raise].
Qed.

Lemma keeps_get P v k d : keeps P (FlaskApp.get v k d).
Proof.
  destruct v; cbn; try apply keeps_raise.
  destruct (lookup k d0); apply keeps_ret.
Qed.

Lemma keeps_the_item P k : keeps P (FlaskApp.the_item k).
Proof. intros items H. unfold FlaskApp.the_item. now destruct (FlaskApp.find k items). Qed.

Lemma set_field_well_formed item_id field v :
  field = "name" \/ field = "description" ->
  keeps well_formed (FlaskApp.set_field item_id field v).
Proof.
  intros Hfield items H. unfold FlaskApp.set_field.
  destruct (FlaskApp.find item_id items) as [it|] eqn:E; [|exact H].
  cbn. apply assign_well_formed; [|exact H].
  destruct (find_shape item_id it items H E) as (n & d & ->).
  destruct Hfield as [-> | ->]; cbn; eexists _, _; reflexivity.
Qed.

Lemma create_item_well_formed data uuid4 :
  keeps well_formed (FlaskApp.create_item data uuid4).
Proof.
  unfold FlaskApp.create_item.
  destruct (negb (truthy data)); [apply keeps_ret|].
  apply keeps_bind; [apply keeps_contains|]. intros named.
  destruct (negb named); [apply keeps_ret|].
  apply keeps_bind; [apply keeps_getitem|]. intros name.
  apply keeps_bind; [apply keeps_get|]. intros description.
  apply keeps_bind; [|intros; apply keeps_ret].
  intros items H. cbn. apply assign_well_formed; [|exact H].
  eexists _, _. reflexivity.
Qed.

Lemma update_item_well_formed item_id data :
  keeps well_formed (FlaskApp.update_item item_id data).
Proof.
  intros items H. unfold FlaskApp.update_item.
  destruct (FlaskApp.find item_id items); [|exact H].
  revert items H. change (keeps well_formed
    (FlaskApp.view_bind (FlaskApp.get data "name" VNone) (fun name =>
     FlaskApp.view_bind
       (if truthy name
        then FlaskApp.view_bind (FlaskApp.getitem data "name")
               (fun v => FlaskApp.set_field item_id "name" v)
        else FlaskApp.view_ret tt) (fun _ =>
     FlaskApp.view_bind (FlaskApp.get data "description" VNone) (fun description =>
     FlaskApp.view_bind
       (if truthy description
        then FlaskApp.view_bind (FlaskApp.getitem data "description")
               (fun v => FlaskApp.set_field item_id "description" v)
        else FlaskApp.view_ret tt) (fun _ =>
     FlaskApp.view_bind (FlaskApp.the_item item_id) (fun it =>
     FlaskApp.view_ret (VDict it, 200)))))))).
  apply keeps_bind; [apply keeps_get|]. intros name.
  apply keeps_bind.
  { destruct (truthy name); [|apply keeps_ret].
    apply keeps_bind; [apply keeps_getitem|]. intros v.
    apply set_field_well_formed. now left. }
  intros _. apply keeps_bind; [apply keeps_get|]. intros description.
  apply keeps_bind.
  { destruct (truthy description); [|apply keeps_ret].
    apply keeps_bind; [apply keeps_getitem|]. intros v.
    apply set_field_well_formed. now right. }
  intros _. apply keeps_bind; [apply keeps_the_item|]. intros it. apply keeps_ret.
Qed.

Lemma delete_item_well_formed item_id : keeps well_formed (FlaskApp.delete_item item_id).
Proof.
  intros items [Hnd Hall]. unfold FlaskApp.delete_item.
  destruct (FlaskApp.find item_id items); [|now split].
  cbn. split; [now apply remove_nodup | now apply remove_forall].
Qed.

Lemma serve_well_formed region req : keeps well_formed (FlaskApp.serve region req).
Proof.
  destruct req; cbn [FlaskApp.serve].
  - apply keeps_ret.
  - intros items H. exact H.
  - intros items H. unfold FlaskApp.get_item. now destruct (FlaskApp.find item_id items).
  - apply create_item_well_formed.
  - apply update_item_well_formed.
  - apply delete_item_well_formed.
Qed.

(** X1: whatever requests the application has served since it started
    with the empty dict, and however each of them ended, no id is stored
    twice and every stored item has exactly the fields 'id', 'name' and
    'description', its 'id' being the key it is stored under. *)
Theorem items_always_well_formed (region : option string) (reqs : list FlaskApp.request) :
  well_formed (FlaskApp.serve_all region reqs []).
Proof.
  assert (H : forall items, well_formed items ->
                            well_formed (FlaskApp.serve_all region reqs items)).
  { induction reqs as [|req reqs IH]; intros items Hwf; cbn; [exact Hwf|].
    apply IH. now apply serve_well_formed. }
  apply H. split; constructor.
Qed.

Lemma lookup_some_truthy k d v : lookup k d = Some v -> truthy (VDict d) = true.
Proof. destruct d; [discriminate | reflexivity]. Qed.

(** What a creation with a named object does: the item it builds is
    stored under the id that was drawn. *)
Lemma create_item_run (d : list (string * value)) (name : value)
    (uuid4 : string) (items : FlaskApp.Items) :
  lookup "name" d = Some name ->
  FlaskApp.create_item (VDict d) uuid4 items
  = (Returned (VDict [("id", VStr uuid4); ("name", name);
                      ("description", match lookup "description" d with
                                      | Some x => x
                                      | None => VStr ""
                                      end)], 201),
     FlaskApp.assign uuid4
       [("id", VStr uuid4); ("name", name);
        ("description", match lookup "description" d with
                        | Some x => x
                        | None => VStr ""
                        end)] items).
Proof.
  intros Hname.
  unfold FlaskApp.create_item. rewrite (lookup_some_truthy _ _ _ Hname).
  cbn [negb FlaskApp.contains FlaskApp.getitem FlaskApp.get].
  unfold FlaskApp.view_bind, FlaskApp.view_ret. rewrite Hname. cbn [negb].
  destruct (lookup "description" d); reflexivity.
Qed.

(** X2: a creation whose body is a JSON object with a 'name' answers 201
    with the new item (the description defaults to the empty string),
    and the item can then be read back under the id that was drawn: GET
    answers 200 with the same item. *)
Theorem create_item_then_get (d : list (string * value)) (name : value)
    (uuid4 : string) (items : FlaskApp.Items) :
  lookup "name" d = Some name ->
  exists it items',
    it = [("id", VStr uuid4); ("name", name);
          ("description", match lookup "description" d with
                          | Some x => x
                          | None => VStr ""
                          end)] /\
    FlaskApp.create_item (VDict d) uuid4 items = (Returned (VDict it, 201), items') /\
    FlaskApp.get_item uuid4 items' = (Returned (VDict it, 200), items').
Proof.
  intros Hname.
  exists [("id", VStr uuid4); ("name", name);
          ("description", match lookup "description" d with
                          | Some x => x
                          | None => VStr ""
                          end)].
  exists (FlaskApp.assign uuid4
            [("id", VStr uuid4); ("name", name);
             ("description", match lookup "description" d with
                             | Some x => x
                             | None => VStr ""
                             end)] items).
  split; [reflexivity|]. split; [exact (create_item_run d name uuid4 items Hname)|].
  unfold FlaskApp.get_item. now rewrite find_assign_same.
Qed.

Lemma create_item_then_get_witness :
  exists it items',
    it = [("id", VStr "6f1b"); ("name", VStr "pen");
          ("description", match lookup "description" [("name", VStr "pen")] with
                          | Some x => x
                          | None => VStr ""
                          end)] /\
    FlaskApp.create_item (VDict [("name", VStr "pen")]) "6f1b" []
      = (Returned (VDict it, 201), items') /\
    FlaskApp.get_item "6f1b" items' = (Returned (VDict it, 200), items').
Proof.
  apply (create_item_then_get [("name", VStr "pen")] (VStr "pen") "6f1b" []).
  reflexivity.
Defined.

(** X3: a creation changes the dict only when it answers 201, and it
    answers 201 exactly when the body is a JSON object with a 'name'
    key.  A body that is falsy (null, an empty object, an empty list, 0,
    the empty string) is answered with 400. *)
Theorem create_item_only_named_objects (data : value) (uuid4 : string)
    (items : FlaskApp.Items) :
  ((exists d name, data = VDict d /\ lookup "name" d = Some name) <->
   (exists body, fst (FlaskApp.create_item data uuid4 items) = Returned (body, 201))) /\
  ((forall body, fst (FlaskApp.create_item data uuid4 items) <> Returned (body, 201)) ->
   snd (FlaskApp.create_item data uuid4 items) = items) /\
  (truthy data = false ->
   FlaskApp.create_item data uuid4 items
   = (Returned (FlaskApp.error_body "Name required", 400), items)).
Proof.
  split; [split|split].
  - intros (d & name & -> & Hname).
    eexists. now rewrite (create_item_run d name uuid4 items Hname).
  - intros [body H]. unfold FlaskApp.create_item in H.
    destruct (truthy data) eqn:Ht; cbn [negb] in H; [|discriminate].
    destruct data; cbn in H; try discriminate.
    + destruct (String.index 0 "name" s); cbn in H; discriminate.
    + destruct (str_in "name" l); cbn in H; discriminate.
    + destruct (lookup "name" d) as [name|] eqn:Hn; [|cbn in H; discriminate].
      exists d, name. auto.
  - intros Hnot. unfold FlaskApp.create_item in *.
    destruct (truthy data) eqn:Ht; cbn [negb] in *; [|reflexivity].
    destruct data; cbn in *; try reflexivity.
    + destruct (String.index 0 "name" s); reflexivity.
    + destruct (str_in "name" l); reflexivity.
    + destruct (lookup "name" d) as [name|] eqn:Hn; [|reflexivity].
      cbn in Hnot. destruct (lookup "description" d); cbn in Hnot;
        exfalso; eapply Hnot; reflexivity.
  - intros Ht. unfold FlaskApp.create_item. now rewrite Ht.
Qed.

Lemma create_item_only_named_objects_witness :
  FlaskApp.create_item (VList []) "6f1b" []
  = (Returned (FlaskApp.error_body "Name required", 400), []).
Proof.
  apply (proj2 (proj2 (create_item_only_named_objects (VList []) "6f1b" []))).
  reflexivity.
Defined.

Lemma assign_same {V} k (v : V) d :
  FlaskApp.find k d = Some v -> FlaskApp.assign k v d = d.
Proof.
  induction d as [|[k' v'] d IH]; cbn; [discriminate|].
  destruct (String.eqb k' k) eqn:E.
  - apply String.eqb_eq in E. intros H. inversion H. now subst.
  - intros H. now rewrite IH.
Qed.

Lemma assign_assign {V} k (a b : V) d :
  FlaskApp.assign k b (FlaskApp.assign k a d) = FlaskApp.assign k b d.
Proof.
  induction d as [|[k' v'] d IH]; cbn.
  - now rewrite String.eqb_refl.
  - destruct (String.eqb k' k) eqn:E; cbn.
    + now rewrite String.eqb_refl.
    + now rewrite E, IH.
Qed.

(** One conditional assignment of [update_item], followed by [k]. *)
Lemma update_step {B} item_id field d it items (k : unit -> FlaskApp.View B) :
  FlaskApp.find item_id items = Some it ->
  FlaskApp.view_bind (FlaskApp.get (VDict d) field VNone) (fun x =>
    FlaskApp.view_bind
      (if truthy x
       then FlaskApp.view_bind (FlaskApp.getitem (VDict d) field)
              (fun v => FlaskApp.set_field item_id field v)
       else FlaskApp.view_ret tt) k) items
  = k tt (FlaskApp.assign item_id (updated_field field d it) items).
Proof.
  intros Hfind. unfold updated_field, FlaskApp.view_bind. cbn.
  destruct (lookup field d) as [v|] eqn:Hl; cbn.
  - destruct (truthy v); cbn.
    + unfold FlaskApp.set_field. now rewrite Hfind.
    + now rewrite assign_same.
  - now rewrite assign_same.
Qed.

Lemma update_item_object item_id d it items :
  FlaskApp.find item_id items = Some it ->
  FlaskApp.update_item item_id (VDict d) items =
  (Returned (VDict (updated_field "description" d (updated_field "name" d it)), 200),
   FlaskApp.assign item_id (updated_field "description" d (updated_field "name" d it))
     items).
Proof.
  intros Hfind. unfold FlaskApp.update_item. rewrite Hfind.
  rewrite (update_step item_id "name" d it items _ Hfind).
  rewrite (update_step item_id "description" d (updated_field "name" d it)
             (FlaskApp.assign item_id (updated_field "name" d it) items) _
             (find_assign_same _ _ _)).
  rewrite assign_assign.
  unfold FlaskApp.view_bind, FlaskApp.the_item. now rewrite find_assign_same.
Qed.

Lemma updated_field_other field f d it :
  f <> field -> FlaskApp.find f (updated_field field d it) = FlaskApp.find f it.
Proof.
  intros Hne. unfold updated_field.
  destruct (lookup field d) as [v|]; [|reflexivity].
  destruct (truthy v); [|reflexivity]. now apply find_assign_other.
Qed.

Lemma updated_field_same field d it :
  FlaskApp.find field (updated_field field d it) =
  match lookup field d with
  | Some v => if truthy v then Some v else FlaskApp.find field it
  | None => FlaskApp.find field it
  end.
Proof.
  unfold updated_field. destruct (lookup field d) as [v|]; [|reflexivity].
  destruct (truthy v); [|reflexivity]. apply find_assign_same.
Qed.

(** X4: an update of a stored item with a JSON object answers 200 with
    the item as it is stored afterwards.  A field 'name' or
    'description' of the body replaces the stored one only if its value
    is truthy (an empty string, null, 0 or an empty list is ignored);
    the 'id' of the item, the other items and the order of the dict are
    untouched. *)
Theorem update_item_fields (item_id : string) (d : list (string * value))
    (it : FlaskApp.item) (items : FlaskApp.Items) :
  FlaskApp.find item_id items = Some it ->
  exists it' items',
    FlaskApp.update_item item_id (VDict d) items = (Returned (VDict it', 200), items') /\
    FlaskApp.find item_id items' = Some it' /\
    (forall field, field = "name" \/ field = "description" ->
       FlaskApp.find field it' =
       match lookup field d with
       | Some v => if truthy v then Some v else FlaskApp.find field it
       | None => FlaskApp.find field it
       end) /\
    FlaskApp.find "id" it' = FlaskApp.find "id" it /\
    (forall k, k <> item_id -> FlaskApp.find k items' = FlaskApp.find k items) /\
    map fst items' = map fst items.
Proof.
  intros Hfind.
  exists (updated_field "description" d (updated_field "name" d it)).
  exists (FlaskApp.assign item_id
            (updated_field "description" d (updated_field "name" d it)) items).
  split; [exact (update_item_object item_id d it items Hfind)|].
  split; [apply find_assign_same|]. split; [|split; [|split]].
  - intros field [-> | ->].
    + rewrite updated_field_other by discriminate. apply updated_field_same.
    + rewrite updated_field_same.
      destruct (lookup "description" d) as [v|]; [destruct (truthy v)|];
        try reflexivity; now apply updated_field_other.
  - rewrite !updated_field_other by discriminate. reflexivity.
  - intros k Hk. now apply find_assign_other.
  - eapply assign_keys_present. exact Hfind.
Qed.

Lemma update_item_fields_witness :
  exists it' items',
    FlaskApp.update_item "6f1b" (VDict [("name", VStr ""); ("description", VStr "blue")])
      [("6f1b", [("id", VStr "6f1b"); ("name", VStr "pen"); ("description", VStr "")])]
    = (Returned (VDict it', 200), items') /\
    FlaskApp.find "6f1b" items' = Some it' /\
    (forall field, field = "name" \/ field = "description" ->
       FlaskApp.find field it' =
       match lookup field [("name", VStr ""); ("description", VStr "blue")] with
       | Some v =>
           if truthy v then Some v
           else FlaskApp.find field
                  [("id", VStr "6f1b"); ("name", VStr "pen"); ("description", VStr "")]
       | None =>
           FlaskApp.find field
             [("id", VStr "6f1b"); ("name", VStr "pen"); ("description", VStr "")]
       end) /\
    FlaskApp.find "id" it' =
      FlaskApp.find "id"
        [("id", VStr "6f1b"); ("name", VStr "pen"); ("description", VStr "")] /\
    (forall k, k <> "6f1b" ->
       FlaskApp.find k items' =
       FlaskApp.find k
         [("6f1b", [("id", VStr "6f1b"); ("name", VStr "pen"); ("description", VStr "")])]) /\
    map fst items' =
      map fst [("6f1b", [("id", VStr "6f1b"); ("name", VStr "pen");
                         ("description", VStr "")])].
Proof.
  apply (update_item_fields "6f1b" [("name", VStr ""); ("description", VStr "blue")]
           [("id", VStr "6f1b"); ("name", VStr "pen"); ("description", VStr "")]).
  reflexivity.
Defined.

(** X5: an update reads the body only once the item is known to exist.
    For an id that is not stored it answers 404 whatever the body is;
    for a stored id and a body that is not a JSON object (null, a list,
    a string, a number) it raises [AttributeError], where a creation
    with a falsy body answers 400; the dict is unchanged either way. *)
Theorem update_item_without_object (item_id : string) (data : value)
    (items : FlaskApp.Items) :
  (forall d, data <> VDict d) ->
  (FlaskApp.find item_id items = None ->
   FlaskApp.update_item item_id data items
   = (Returned (FlaskApp.error_body "Item not found", 404), items)) /\
  (FlaskApp.find item_id items <> None ->
   FlaskApp.update_item item_id data items
   = (Raised (Exn AttributeError "object has no attribute 'get'"), items)).
Proof.
  intros Hdata. unfold FlaskApp.update_item. split.
  - intros ->. reflexivity.
  - intros Hsome. destruct (FlaskApp.find item_id items); [|congruence].
    destruct data; try reflexivity. now contradiction (Hdata d).
Qed.

Lemma update_item_without_object_witness :
  FlaskApp.update_item "6f1b" VNone
    [("6f1b", [("id", VStr "6f1b"); ("name", VStr "pen"); ("description", VStr "")])]
  = (Raised (Exn AttributeError "object has no attribute 'get'"),
     [("6f1b", [("id", VStr "6f1b"); ("name", VStr "pen"); ("description", VStr "")])]).
Proof.
  apply (proj2 (update_item_without_object "6f1b" VNone
                  [("6f1b", [("id", VStr "6f1b"); ("name", VStr "pen");
                             ("description", VStr "")])]
                  ltac:(discriminate))).
  discriminate.
Defined.

(** X6: the deletion of a stored item answers 204 with an empty body;
    afterwards the id is gone (a GET and a second DELETE of it answer
    404) and every other item is still stored as before. *)
Theorem delete_item_removes (item_id : string) (it : FlaskApp.item)
    (items : FlaskApp.Items) :
  FlaskApp.find item_id items = Some it ->
  exists items',
    FlaskApp.delete_item item_id items = (Returned (VStr "", 204), items') /\
    (forall k, k <> item_id -> FlaskApp.find k items' = FlaskApp.find k items) /\
    FlaskApp.get_item item_id items'
      = (Returned (FlaskApp.error_body "Item not found", 404), items') /\
    FlaskApp.delete_item item_id items'
      = (Returned (FlaskApp.error_body "Item not found", 404), items').
Proof.
  intros Hfind. exists (FlaskApp.remove item_id items).
  unfold FlaskApp.delete_item, FlaskApp.get_item. rewrite Hfind, find_remove_same.
  repeat split. intros k Hk. now apply find_remove_other.
Qed.

Lemma delete_item_removes_witness :
  exists items',
    FlaskApp.delete_item "6f1b"
      [("6f1b", [("id", VStr "6f1b"); ("name", VStr "pen"); ("description", VStr "")])]
    = (Returned (VStr "", 204), items') /\
    (forall k, k <> "6f1b" ->
       FlaskApp.find k items' =
       FlaskApp.find k
         [("6f1b", [("id", VStr "6f1b"); ("name", VStr "pen"); ("description", VStr "")])]) /\
    FlaskApp.get_item "6f1b" items'
      = (Returned (FlaskApp.error_body "Item not found", 404), items') /\
    FlaskApp.delete_item "6f1b" items'
      = (Returned (FlaskApp.error_body "Item not found", 404), items').
Proof.
  apply (delete_item_removes "6f1b"
           [("id", VStr "6f1b"); ("name", VStr "pen"); ("description", VStr "")]).
  reflexivity.
Defined.

(** X7: [list_items] lists the items in the order in which their ids
    were first stored: after a creation with an id that is not stored
    yet, it lists what it listed before, followed by the new item. *)
Theorem list_items_after_create (d : list (string * value)) (name : value)
    (uuid4 : string) (items : FlaskApp.Items) :
  lookup "name" d = Some name ->
  FlaskApp.find uuid4 items = None ->
  exists listed it,
    fst (FlaskApp.list_items items) = Returned (VDict [("items", VList listed)], 200) /\
    fst (FlaskApp.create_item (VDict d) uuid4 items) = Returned (VDict it, 201) /\
    fst (FlaskApp.list_items (snd (FlaskApp.create_item (VDict d) uuid4 items)))
    = Returned (VDict [("items", VList (listed ++ [VDict it]))], 200).
Proof.
  intros Hname Hfresh.
  pose proof (create_item_run d name uuid4 items Hname) as Hc.
  match type of Hc with _ = (Returned (VDict ?x, 201), _) => set (it := x) in * end.
  exists (map (fun kv => VDict (snd kv)) items), it.
  split; [reflexivity|]. rewrite Hc. split; [reflexivity|].
  cbn [snd]. rewrite (assign_fresh _ _ _ Hfresh). unfold FlaskApp.list_items. cbn [fst].
  now rewrite map_app.
Qed.

Lemma list_items_after_create_witness :
  exists listed it,
    fst (FlaskApp.list_items []) = Returned (VDict [("items", VList listed)], 200) /\
    fst (FlaskApp.create_item (VDict [("name", VStr "pen")]) "6f1b" [])
      = Returned (VDict it, 201) /\
    fst (FlaskApp.list_items
           (snd (FlaskApp.create_item (VDict [("name", VStr "pen")]) "6f1b" [])))
    = Returned (VDict [("items", VList (listed ++ [VDict it]))], 200).
Proof.
  apply (list_items_after_create [("name", VStr "pen")] (VStr "pen") "6f1b" []);
    reflexivity.
Defined.

(** ** examples/conftest.py: more on the prober and the fixtures *)

Lemma wait_loop_requests (remote : Remote) endpoint start timeout :
  forall fuel w r w',
    wait_loop remote fuel endpoint start timeout w = (r, w') ->
    exists evs,
      trace w' = trace w ++ evs /\
      Z.of_nat (List.length evs) <= Z.max 0 ((timeout - (clock w - start) + 99) / 100).
Proof.
  induction fuel as [|fuel IH]; intros w r w' Hrun.
  - inversion Hrun; subst. exists []. rewrite app_nil_r. split; [reflexivity|cbn; lia].
  - rewrite wait_loop_unfold in Hrun.
    destruct (clock w - start <? timeout) eqn:Hin.
    2:{ inversion Hrun; subst. exists []. rewrite app_nil_r.
        split; [reflexivity | cbn; lia]. }
    apply Z.ltb_lt in Hin. unfold after_get in Hrun.
    destruct (http_get remote (clock w) (trace w) (health_url endpoint) 1)
      as [o lat] eqn:Hget.
    cbn [fst] in Hrun.
    set (ev := HttpEvent (clock w) (health_url endpoint) 1 o lat) in *.
    pose proof (Z.div_mod (timeout - (clock w - start) + 99) 100 ltac:(lia)) as Hd.
    pose proof (Z.mod_pos_bound (timeout - (clock w - start) + 99) 100 ltac:(lia)) as Hm.
    assert (Hone : forall r0,
              (r0, {| clock := clock w + Z.of_N lat;
                      trace := trace w ++ [ev]; stdout := stdout w |}) = (r, w') ->
              exists evs, trace w' = trace w ++ evs /\
                Z.of_nat (List.length evs)
                <= Z.max 0 ((timeout - (clock w - start) + 99) / 100)).
    { intros r0 Heq. inversion Heq; subst. exists [ev]. split; [reflexivity|].
      cbn [List.length]. lia. }
    assert (Hmore :
      wait_loop remote fuel endpoint start timeout
        (after_sleep 100 {| clock := clock w + Z.of_N lat;
                            trace := trace w ++ [ev]; stdout := stdout w |}) = (r, w') ->
      exists evs, trace w' = trace w ++ evs /\
        Z.of_nat (List.length evs) <= Z.max 0 ((timeout - (clock w - start) + 99) / 100)).
    { intros Hrec. apply IH in Hrec. destruct Hrec as (evs & Htr & Hlen).
      cbn [after_sleep clock trace] in Htr, Hlen.
      exists (ev :: evs). rewrite Htr, <- app_assoc. split; [reflexivity|].
      cbn [List.length]. rewrite Nat2Z.inj_succ.
      pose proof (Z.div_mod (timeout - (clock w + Z.of_N lat + 100 - start) + 99) 100
                    ltac:(lia)) as Hd'.
      pose proof (Z.mod_pos_bound (timeout - (clock w + Z.of_N lat + 100 - start) + 99) 100
                    ltac:(lia)) as Hm'.
      lia. }
    destruct o as [resp|c msg].
    + destruct (status_code resp =? 200); [|now apply Hmore].
      exact (Hone _ Hrun).
    + destruct (lib_error_eqb c RequestException); [now apply Hmore|].
      exact (Hone _ Hrun).
Qed.

(** X8: the prober issues at most one health request per started 100 ms
    of its timeout, 300 with the default of 30 s, and none at all when
    the timeout is zero or negative; it prints nothing. *)
Theorem wait_for_ruststack_request_bound (remote : Remote) endpoint timeout w r w' :
  wait_for_ruststack remote endpoint timeout w = (r, w') ->
  exists evs,
    trace w' = trace w ++ evs /\
    Z.of_nat (List.length evs) <= Z.max 0 ((timeout + 99) / 100) /\
    (timeout <= 0 -> evs = [] /\ r = Returned false /\ clock w' = clock w) /\
    stdout w' = stdout w.
Proof.
  intros Hrun.
  destruct (wait_for_ruststack_run remote endpoint timeout 0 w r w' Hrun)
    as (evs0 & Htr0 & Hout & Hp & _ & _ & Hclk & Hfalse & _).
  unfold wait_for_ruststack, bind, time_time in Hrun.
  destruct (wait_loop_requests remote endpoint (clock w) timeout _ _ _ _ Hrun)
    as (evs & Htr & Hlen).
  replace (timeout - (clock w - clock w) + 99) with (timeout + 99) in Hlen by lia.
  exists evs. split; [exact Htr|]. split; [exact Hlen|]. split; [|exact Hout].
  intros Hle.
  assert (Hq : (timeout + 99) / 100 <= 0).
  { pose proof (Z.div_mod (timeout + 99) 100 ltac:(lia)).
    pose proof (Z.mod_pos_bound (timeout + 99) 100 ltac:(lia)). lia. }
  assert (Hnil : evs = []) by (destruct evs; [reflexivity | cbn in Hlen; lia]).
  subst evs. rewrite app_nil_r in Htr.
  assert (evs0 = []).
  { rewrite Htr in Htr0. rewrite <- (app_nil_r (trace w)) in Htr0 at 1.
    apply app_inv_head in Htr0. auto. }
  subst evs0. inversion Hp; subst. split; [reflexivity|]. split; [reflexivity|].
  unfold wait_fuel in Hrun.
  replace (Z.to_nat (timeout / 100) + 2)%nat with (S (Z.to_nat (timeout / 100) + 1))
    in Hrun by lia.
  rewrite wait_loop_unfold in Hrun.
  replace (clock w - clock w <? timeout) with false in Hrun
    by (symmetry; apply Z.ltb_ge; lia).
  now inversion Hrun.
Qed.

Lemma wait_for_ruststack_request_bound_witness :
  exists evs,
    trace (snd (wait_for_ruststack remote_timing_out "http://localhost:4566" 1500
                  initial_world)) = trace initial_world ++ evs /\
    Z.of_nat (List.length evs) <= Z.max 0 ((1500 + 99) / 100) /\
    (1500 <= 0 -> evs = [] /\ Returned false = Returned false /\
                  clock (snd (wait_for_ruststack remote_timing_out "http://localhost:4566"
                                1500 initial_world)) = clock initial_world) /\
    stdout (snd (wait_for_ruststack remote_timing_out "http://localhost:4566" 1500
                   initial_world)) = stdout initial_world.
Proof.
  apply (wait_for_ruststack_request_bound remote_timing_out "http://localhost:4566" 1500
           initial_world (Returned false)).
  vm_compute. reflexivity.
Defined.

Lemma boto_succeeds remote c op args w :
  always_succeeds remote c op ->
  exists w',
    boto_ remote c op args w = (Returned tt, w') /\
    exists ev, trace w' = trace w ++ [ev] /\ ev_call ev = Some (Boto c op args).
Proof.
  intros Hok. unfold boto_, bind, perform.
  destruct (Hok (clock w) (trace w) args) as (v & lat & ->).
  eexists. split; [reflexivity|]. eexists. split; reflexivity.
Qed.

Lemma for_each_calls remote c op (mk : value -> kwargs) key_name objs keys :
  Forall2 (fun obj k => exists od, obj = VDict od /\ lookup key_name od = Some k)
          objs keys ->
  always_succeeds remote c op ->
  forall w, exists w' evs,
    for_each objs (fun obj => key <- subscript obj key_name ;;
                              boto_ remote c op (mk key))%py w = (Returned tt, w') /\
    trace w' = trace w ++ evs /\
    map ev_call evs = map (fun k => Some (Boto c op (mk k))) keys.
Proof.
  intros Hobjs Hok. induction Hobjs as [|obj k objs keys (od & -> & Hk) _ IH]; intros w.
  - exists w, []. cbn. now rewrite app_nil_r.
  - cbn [for_each]. unfold bind at 1. unfold bind at 1. cbn [subscript]. rewrite Hk.
    cbn [ret].
    destruct (boto_succeeds remote c op (mk k) w Hok) as (w1 & -> & ev & Htr1 & Hev).
    destruct (IH w1) as (w' & evs & Hrun & Htr & Hcalls).
    exists w', (ev :: evs). split; [exact Hrun|].
    split; [rewrite Htr, Htr1, <- app_assoc; reflexivity|].
    cbn [map]. now rewrite Hev, Hcalls.
Qed.

(** The shape that the teardowns of [s3_bucket] and [iam_role] share:
    list, release every listed entry, delete. *)
Lemma drain_run remote c list_op list_args field key_name each_op
    (mk : value -> kwargs) final_op final_args w response lat keys :
  invoke remote (clock w) (trace w) (Boto c list_op list_args) = (Ok response, lat) ->
  lists_keys response field key_name keys ->
  always_succeeds remote c each_op ->
  always_succeeds remote c final_op ->
  exists w' evs,
    try_except
      (response <- perform remote (Boto c list_op list_args) ;;
       contents <- dict_get response field (VList []) ;;
       objs <- iterate contents ;;
       for_each objs (fun obj => key <- subscript obj key_name ;;
                                 boto_ remote c each_op (mk key)) ;;
       boto_ remote c final_op final_args)%py
      is_Exception (fun _ => ret tt) w = (Returned tt, w') /\
    trace w' = trace w ++ evs /\
    map ev_call evs =
      Some (Boto c list_op list_args)
      :: map (fun k => Some (Boto c each_op (mk k))) keys
      ++ [Some (Boto c final_op final_args)].
Proof.
  intros Hlist (d & objs & -> & Hfield & Hobjs) Heach Hfinal.
  rewrite try_except_bind. unfold perform. rewrite Hlist.
  set (w1 := {| clock := clock w + Z.of_N lat;
                trace := trace w ++ [CallEvent (clock w) (Boto c list_op list_args)
                                       (Ok (VDict d)) lat];
                stdout := stdout w |}).
  rewrite try_except_bind.
  assert (Hget : dict_get (VDict d) field (VList []) w1 = (Returned (VList objs), w1)).
  { unfold dict_get. destruct (lookup field d); rewrite <- Hfield; reflexivity. }
  rewrite Hget, try_except_bind. cbn [iterate ret]. rewrite try_except_bind.
  destruct (for_each_calls remote c each_op mk key_name objs keys Hobjs Heach w1)
    as (w2 & evs & -> & Htr2 & Hcalls).
  destruct (boto_succeeds remote c final_op final_args w2 Hfinal)
    as (w3 & Hrun3 & ev & Htr3 & Hev).
  unfold try_except. rewrite Hrun3.
  exists w3, (CallEvent (clock w) (Boto c list_op list_args) (Ok (VDict d)) lat
              :: evs ++ [ev]).
  split; [reflexivity|]. split.
  - rewrite Htr3, Htr2. unfold w1. cbn [trace]. now rewrite <- !app_assoc.
  - cbn [map ev_call]. now rewrite map_app, Hcalls, <- Hev.
Qed.

(** X9: when the service answers the listing and accepts the deletions,
    the teardown of [s3_bucket] deletes every listed object, in the
    order of the listing, and then the bucket, and returns.  A listing
    without the 'Contents' field counts as empty. *)
Theorem s3_bucket_teardown_drains (remote : Remote) (s3 : client) (bucket_name : string)
    w response lat keys :
  invoke remote (clock w) (trace w) (Boto s3 "list_objects_v2" [("Bucket", VStr bucket_name)])
    = (Ok response, lat) ->
  lists_keys response "Contents" "Key" keys ->
  always_succeeds remote s3 "delete_object" ->
  always_succeeds remote s3 "delete_bucket" ->
  exists w' evs,
    teardown (s3_bucket remote s3) bucket_name w = (Returned tt, w') /\
    trace w' = trace w ++ evs /\
    map ev_call evs =
      Some (Boto s3 "list_objects_v2" [("Bucket", VStr bucket_name)])
      :: map (fun k => Some (Boto s3 "delete_object"
                               [("Bucket", VStr bucket_name); ("Key", k)])) keys
      ++ [Some (Boto s3 "delete_bucket" [("Bucket", VStr bucket_name)])].
Proof.
  intros Hlist Hkeys Heach Hfinal.
  exact (drain_run remote s3 "list_objects_v2" [("Bucket", VStr bucket_name)]
           "Contents" "Key"
           "delete_object" (fun k => [("Bucket", VStr bucket_name); ("Key", k)])
           "delete_bucket" [("Bucket", VStr bucket_name)] w response lat keys
           Hlist Hkeys Heach Hfinal).
Qed.

Lemma s3_bucket_teardown_drains_witness :
  exists w' evs,
    teardown (s3_bucket remote_listing (s3_client "http://localhost:4566"))
             "test-bucket-9f1c2ab4" initial_world = (Returned tt, w') /\
    trace w' = trace initial_world ++ evs /\
    map ev_call evs =
      Some (Boto (s3_client "http://localhost:4566") "list_objects_v2"
              [("Bucket", VStr "test-bucket-9f1c2ab4")])
      :: map (fun k => Some (Boto (s3_client "http://localhost:4566") "delete_object"
                               [("Bucket", VStr "test-bucket-9f1c2ab4"); ("Key", k)]))
             [VStr "a.txt"; VStr "b.txt"]
      ++ [Some (Boto (s3_client "http://localhost:4566") "delete_bucket"
                  [("Bucket", VStr "test-bucket-9f1c2ab4")])].
Proof.
  apply (s3_bucket_teardown_drains remote_listing (s3_client "http://localhost:4566")
           "test-bucket-9f1c2ab4" initial_world
           (VDict [("Contents", VList [VDict [("Key", VStr "a.txt")];
                                       VDict [("Key", VStr "b.txt")]])])
           1%N [VStr "a.txt"; VStr "b.txt"]).
  - reflexivity.
  - exists [("Contents", VList [VDict [("Key", VStr "a.txt")];
                                VDict [("Key", VStr "b.txt")]])],
           [VDict [("Key", VStr "a.txt")]; VDict [("Key", VStr "b.txt")]].
    split; [reflexivity|]. split; [reflexivity|].
    constructor; [now exists [("Key", VStr "a.txt")]|].
    constructor; [now exists [("Key", VStr "b.txt")]|]. constructor.
  - intros t h args. now exists (VDict []), 1%N.
  - intros t h args. now exists (VDict []), 1%N.
Defined.

(** X10: when the service answers the listing and accepts the calls, the
    teardown of [iam_role] detaches every attached policy, in the order
    of the listing, and then deletes the role, and returns.  A listing
    without the 'AttachedPolicies' field counts as empty. *)
Theorem iam_role_teardown_drains (remote : Remote) (iam : client) (role_name : string)
    w response lat arns :
  invoke remote (clock w) (trace w)
    (Boto iam "list_attached_role_policies" [("RoleName", VStr role_name)])
    = (Ok response, lat) ->
  lists_keys response "AttachedPolicies" "PolicyArn" arns ->
  always_succeeds remote iam "detach_role_policy" ->
  always_succeeds remote iam "delete_role" ->
  exists w' evs,
    teardown (iam_role remote iam) role_name w = (Returned tt, w') /\
    trace w' = trace w ++ evs /\
    map ev_call evs =
      Some (Boto iam "list_attached_role_policies" [("RoleName", VStr role_name)])
      :: map (fun arn => Some (Boto iam "detach_role_policy"
                                 [("RoleName", VStr role_name); ("PolicyArn", arn)])) arns
      ++ [Some (Boto iam "delete_role" [("RoleName", VStr role_name)])].
Proof.
  intros Hlist Hkeys Heach Hfinal.
  exact (drain_run remote iam "list_attached_role_policies" [("RoleName", VStr role_name)]
           "AttachedPolicies" "PolicyArn"
           "detach_role_policy" (fun k => [("RoleName", VStr role_name); ("PolicyArn", k)])
           "delete_role" [("RoleName", VStr role_name)] w response lat arns
           Hlist Hkeys Heach Hfinal).
Qed.

Lemma iam_role_teardown_drains_witness :
  exists w' evs,
    teardown (iam_role remote_listing (iam_client "http://localhost:4566"))
             "test-role-9f1c2ab4" initial_world = (Returned tt, w') /\
    trace w' = trace initial_world ++ evs /\
    map ev_call evs =
      Some (Boto (iam_client "http://localhost:4566") "list_attached_role_policies"
              [("RoleName", VStr "test-role-9f1c2ab4")])
      :: map (fun arn => Some (Boto (iam_client "http://localhost:4566") "detach_role_policy"
                                 [("RoleName", VStr "test-role-9f1c2ab4"); ("PolicyArn", arn)]))
             [VStr "arn:aws:iam::000000000000:policy/test-policy"]
      ++ [Some (Boto (iam_client "http://localhost:4566") "delete_role"
                  [("RoleName", VStr "test-role-9f1c2ab4")])].
Proof.
  apply (iam_role_teardown_drains remote_listing (iam_client "http://localhost:4566")
           "test-role-9f1c2ab4" initial_world
           (VDict [("AttachedPolicies",
                    VList [VDict [("PolicyArn",
                                   VStr "arn:aws:iam::000000000000:policy/test-policy")]])])
           1%N [VStr "arn:aws:iam::000000000000:policy/test-policy"]).
  - reflexivity.
  - exists [("AttachedPolicies",
             VList [VDict [("PolicyArn",
                            VStr "arn:aws:iam::000000000000:policy/test-policy")]])],
           [VDict [("PolicyArn", VStr "arn:aws:iam::000000000000:policy/test-policy")]].
    split; [reflexivity|]. split; [reflexivity|].
    constructor; [|constructor].
    now exists [("PolicyArn", VStr "arn:aws:iam::000000000000:policy/test-policy")].
  - intros t h args. now exists (VDict []), 1%N.
  - intros t h args. now exists (VDict []), 1%N.
Defined.

(** ** The set-up of [ruststack_process] *)

Lemma perform_run remote c w r w' :
  perform remote c w = (r, w') ->
  exists o lat,
    invoke remote (clock w) (trace w) c = (o, lat) /\
    w' = {| clock := clock w + Z.of_N lat;
            trace := trace w ++ [CallEvent (clock w) c o lat];
            stdout := stdout w |} /\
    r = match o with
        | Ok v => Returned v
        | Fault cl msg => Raised (Exn (LibError cl) msg)
        end.
Proof.
  unfold perform. destruct (invoke remote (clock w) (trace w) c) as [o lat].
  intros H. exists o, lat. destruct o; inversion H; auto.
Qed.

Lemma calls_app evs1 evs2 : calls (evs1 ++ evs2) = calls evs1 ++ calls evs2.
Proof. unfold calls. now rewrite flat_map_app. Qed.

Lemma calls_probes endpoint start timeout evs :
  Forall (probes endpoint start timeout) evs -> calls evs = [].
Proof.
  induction 1 as [|ev evs Hev _ IH]; [reflexivity|].
  destruct ev; [exact IH | destruct Hev].
Qed.

Lemma calls_in t c o lat evs : In (CallEvent t c o lat) evs -> In c (calls evs).
Proof.
  intros H. unfold calls. apply in_flat_map. eexists. split; [exact H|]. now left.
Qed.

(** What is left of the start-up once [communicate] has returned [out]:
    it ends with an exception, that of [pytest.fail] when [out] is a
    pair of byte strings that decode. *)
Lemma ruststack_process_startup_tail (out : value) (w : World) :
  exists e,
    (stdout_ <- index out 0 ;;
     stderr_ <- index out 1 ;;
     so <- decode stdout_ ;;
     se <- decode stderr_ ;;
     @pytest_fail (value * string)
       ("RustStack failed to start." ++ newline
        ++ "stdout: " ++ so ++ newline
        ++ "stderr: " ++ se))%py w = (Raised e, w) /\
    is_skip e = false /\
    forall so se, out = VList [VBytes so; VBytes se] -> e = start_failure so se.
Proof.
  unfold bind, pytest_fail, raise, index, decode, ret, start_failure.
  destruct out as [| | | | |l| |];
    try (eexists; split; [reflexivity|]; split; [reflexivity|]; discriminate).
  destruct l as [|v0 l];
    [eexists; split; [reflexivity|]; split; [reflexivity|]; discriminate|].
  destruct l as [|v1 l];
    [cbn [nth_error]; destruct v0; try destruct (utf8_valid b);
     eexists; (split; [reflexivity|]; split; [reflexivity|]; discriminate)|].
  cbn [nth_error].
  destruct v0 as [| | | |so| | |];
    try (eexists; split; [reflexivity|]; split; [reflexivity|]; discriminate).
  destruct (utf8_valid so) eqn:Hso.
  2:{ eexists. split; [reflexivity|]. split; [reflexivity|].
      intros so' se' H. inversion H; subst. now rewrite Hso. }
  destruct v1 as [| | | |se| | |];
    try (eexists; split; [reflexivity|]; split; [reflexivity|]; discriminate).
  destruct (utf8_valid se) eqn:Hse.
  - eexists. split; [reflexivity|]. split; [reflexivity|].
    intros so' se' H. inversion H; subst. now rewrite Hso, Hse.
  - eexists. split; [reflexivity|]. split; [reflexivity|].
    intros so' se' H. inversion H; subst. now rewrite Hso, Hse.
Qed.

Lemma ruststack_process_startup_run remote port host proc w r w' :
  ruststack_process_startup remote port host proc w = (r, w') ->
  exists rr w1,
    wait_for_ruststack remote (RUSTSTACK_ENDPOINT port host) default_timeout w = (rr, w1) /\
    exists evs,
    trace w' = trace w1 ++ evs /\
    match rr with
    | Returned true => r = Returned (proc, RUSTSTACK_ENDPOINT port host) /\ evs = []
    | Returned false => kill_then_communicate proc w1 r evs
    | Raised e => r = Raised e /\ evs = []
    | OutOfFuel => False
    end.
Proof.
  unfold ruststack_process_startup. unfold bind at 1.
  destruct (wait_for_ruststack remote (RUSTSTACK_ENDPOINT port host) default_timeout w)
    as [rr w1] eqn:Hwait.
  intros H. exists rr, w1. split; [reflexivity|].
  destruct rr as [[|]|e|].
  - exists []. inversion H; subst. rewrite app_nil_r. auto.
  - cbn [negb] in H. unfold bind at 1 in H.
    destruct (perform remote (ProcKill proc) w1) as [r1 w2] eqn:Hkill.
    destruct (perform_run _ _ _ _ _ Hkill) as (o1 & lat1 & _ & -> & ->).
    destruct o1 as [v|c msg].
    + unfold bind at 1 in H.
      match type of H with context [perform remote (ProcCommunicate proc) ?w2] =>
        destruct (perform remote (ProcCommunicate proc) w2) as [r2 w3] eqn:Hcomm end.
      destruct (perform_run _ _ _ _ _ Hcomm) as (o2 & lat2 & _ & -> & ->).
      cbn [clock trace stdout] in *.
      assert (Hend : (exists e, r = Raised e) /\
                     trace w' = (trace w1 ++ [CallEvent (clock w1) (ProcKill proc) (Ok v) lat1])
                                ++ [CallEvent (clock w1 + Z.of_N lat1) (ProcCommunicate proc)
                                      o2 lat2] /\
                     forall so se, o2 = Ok (VList [VBytes so; VBytes se]) ->
                                   r = Raised (start_failure so se)).
      { destruct o2 as [out|c msg].
        - match type of H with _ ?x = _ =>
            destruct (ruststack_process_startup_tail out x) as (e & Ht & _ & Hmsg) end.
          rewrite Ht in H. inversion H; subst r w'. cbn [trace].
          split; [eauto|]. split; [reflexivity|].
          intros so se Ho. inversion Ho; subst out. now rewrite (Hmsg so se eq_refl).
        - inversion H; subst r w'. cbn [trace]. split; [eauto|]. split; [reflexivity|].
          discriminate. }
      destruct Hend as (He & Htr & Hmsg).
      eexists. split; [rewrite Htr, <- app_assoc; reflexivity|].
      unfold kill_then_communicate. right. exists v, lat1, o2, lat2. auto.
    + inversion H; subst. cbn [trace].
      eexists. split; [reflexivity|]. unfold kill_then_communicate. left.
      exists (Fault c msg), lat1. split; reflexivity.
  - exists []. inversion H; subst. rewrite app_nil_r. auto.
  - destruct (wait_for_ruststack_run remote _ _ 0 _ _ _ Hwait)
      as (evs & _ & _ & Hpolls & _).
    destruct (polls_shape _ _ Hpolls).
Qed.

Lemma ruststack_process_startup_ends remote port host proc w w' :
  ruststack_process_startup remote port host proc w <> (OutOfFuel, w').
Proof.
  intros H.
  destruct (ruststack_process_startup_run _ _ _ _ _ _ _ H)
    as (rr & w1 & _ & evs & _ & Hrr).
  destruct rr as [[|]|e|].
  - destruct Hrr as [Hr _]. discriminate.
  - destruct Hrr as [(o & lat & _ & Hr)|(v & la & o & lb & _ & [e He] & _)];
      [destruct o; [destruct Hr | discriminate] | discriminate].
  - destruct Hrr as [Hr _]. discriminate.
  - destruct Hrr.
Qed.

(** The calls that the start-up adds to the trace are addressed to the
    process it was given. *)
Lemma ruststack_process_startup_calls remote port host proc w r w' :
  ruststack_process_startup remote port host proc w = (r, w') ->
  exists evs,
    trace w' = trace w ++ evs /\
    (forall c, In c (calls evs) -> c = ProcKill proc \/ c = ProcCommunicate proc) /\
    ((exists st, r = Returned st) -> calls evs = []).
Proof.
  intros H.
  destruct (ruststack_process_startup_run _ _ _ _ _ _ _ H)
    as (rr & w1 & Hwait & evs_s & Htr & Hrr).
  destruct (wait_for_ruststack_run remote _ _ 0 _ _ _ Hwait)
    as (evs_p & Htr1 & _ & _ & Hprobes & _).
  apply calls_probes in Hprobes.
  exists (evs_p ++ evs_s). split; [now rewrite Htr, Htr1, app_assoc|].
  rewrite calls_app, Hprobes. cbn [app].
  destruct rr as [[|]|e|].
  - destruct Hrr as [_ ->]. split; [intros c []|reflexivity].
  - destruct Hrr as [(o & lat & -> & Hr)|(v & la & o & lb & -> & [e He] & _)]; split.
    + cbn. intuition auto.
    + intros [st ->]. destruct o; [destruct Hr | discriminate].
    + cbn. intuition auto.
    + intros [st ->]. discriminate.
  - destruct Hrr as [-> ->]. split; [intros c []|]. intros [st Hst]. discriminate.
  - destruct Hrr.
Qed.

(** The set-up of [ruststack_process], path by path: either it ends
    before a process runs (the look-up, the test of the file or [Popen]
    failed, or the binary is missing), or it starts a process, runs the
    start-up in the world after [Popen] and, when the start-up raises,
    the [finally] block from where the start-up stopped. *)
Lemma ruststack_process_setup_run remote port host w r w' :
  setup (ruststack_process remote port host) w = (r, w') ->
  (exists evs e,
     trace w' = trace w ++ evs /\ r = Raised e /\
     forall t argv proc lat, ~ In (CallEvent t (Popen argv) (Ok proc) lat) evs) \/
  (exists binary lat1 found lat2 proc lat3 w3 rs w4,
     trace w3 = trace w ++
       [CallEvent (clock w) (EnvironGet "RUSTSTACK_BINARY" "./target/release/ruststack")
          (Ok binary) lat1;
        CallEvent (clock w + Z.of_N lat1) (PathExists (py_str binary)) (Ok found) lat2;
        CallEvent (clock w + Z.of_N lat1 + Z.of_N lat2)
          (Popen [py_str binary; "--host"; "0.0.0.0"; "--port"; str_of_Z port])
          (Ok proc) lat3] /\
     ruststack_process_startup remote port host proc w3 = (rs, w4) /\
     match rs with
     | Returned st => r = Returned st /\ w' = w4
     | Raised e =>
         exists r', terminate_then_wait proc w4 r' w' /\
                    r = match r' with
                        | Returned _ => Raised e
                        | Raised e' => Raised e'
                        | OutOfFuel => OutOfFuel
                        end
     | OutOfFuel => False
     end).
Proof.
  cbn [setup ruststack_process]. intros H.
  unfold bind at 1 in H.
  destruct (perform remote (EnvironGet "RUSTSTACK_BINARY" "./target/release/ruststack") w)
    as [r1 w1] eqn:H1.
  destruct (perform_run _ _ _ _ _ H1) as (o1 & lat1 & _ & -> & ->).
  destruct o1 as [binary|c msg].
  2:{ inversion H; subst. cbn [trace]. left. eexists. eexists.
      split; [reflexivity|]. split; [reflexivity|].
      intros t argv proc lat [Hin|[]]. discriminate. }
  unfold bind at 1 in H.
  match type of H with context [perform remote (PathExists ?b) ?w1] =>
    destruct (perform remote (PathExists b) w1) as [r2 w2] eqn:H2 end.
  destruct (perform_run _ _ _ _ _ H2) as (o2 & lat2 & _ & -> & ->).
  cbn [clock trace stdout] in *.
  destruct o2 as [found|c msg].
  2:{ inversion H; subst. cbn [trace]. rewrite <- app_assoc. left. eexists. eexists.
      split; [reflexivity|]. split; [reflexivity|].
      intros t argv proc lat [Hin|[Hin|[]]]; discriminate. }
  destruct (truthy found).
  2:{ cbn [negb] in H. inversion H; subst. cbn [trace]. rewrite <- app_assoc.
      left. eexists. eexists. split; [reflexivity|]. split; [reflexivity|].
      intros t argv proc lat [Hin|[Hin|[]]]; discriminate. }
  cbn [negb] in H. unfold bind at 1 in H.
  match type of H with context [perform remote (Popen ?a) ?w2] =>
    destruct (perform remote (Popen a) w2) as [r3 w3] eqn:H3 end.
  destruct (perform_run _ _ _ _ _ H3) as (o3 & lat3 & _ & -> & ->).
  cbn [clock trace stdout] in *.
  destruct o3 as [proc0|c msg].
  2:{ inversion H; subst. cbn [trace]. rewrite <- !app_assoc. left. eexists. eexists.
      split; [reflexivity|]. split; [reflexivity|].
      intros t argv proc lat [Hin|[Hin|[Hin|[]]]]; discriminate. }
  unfold try_except in H.
  match type of H with context [ruststack_process_startup remote port host proc0 ?x] =>
    set (w3 := x) in * end.
  destruct (ruststack_process_startup remote port host proc0 w3) as [rs w4] eqn:Hs.
  right. exists binary, lat1, found, lat2, proc0, lat3, w3, rs, w4.
  split; [unfold w3; cbn [trace]; now rewrite <- !app_assoc|]. split; [exact Hs|].
  destruct rs as [st|e|].
  - inversion H; auto.
  - cbn [any_exn] in H. unfold bind at 1 in H.
    destruct (ruststack_process_finally remote proc0 w4) as [rf w5] eqn:Hf.
    exists rf. apply ruststack_process_finally_run in Hf.
    destruct rf as [[]|e'|]; inversion H; subst; auto.
  - now apply ruststack_process_startup_ends in Hs.
Qed.

(** What [terminate_then_wait] adds to the trace. *)
Lemma terminate_then_wait_calls proc w r w' :
  terminate_then_wait proc w r w' ->
  exists evs,
    trace w' = trace w ++ evs /\
    (calls evs = [ProcTerminate proc] \/ calls evs = [ProcTerminate proc; ProcWait proc 5]).
Proof.
  intros (o1 & lat1 & H). destruct o1 as [v|c msg].
  - destruct H as (o2 & lat2 & Htr & _). eexists. split; [exact Htr|]. now right.
  - destruct H as (Htr & _). eexists. split; [exact Htr|]. now left.
Qed.

(** ** C9: every exit path of [ruststack_process] *)

(** C9, amended: on each exit path of [ruststack_process] after the
    process was started, the [finally] block runs.  At teardown it is
    all that runs.  In the set-up, once [Popen] has returned a process,
    either the fixture yields that process with the endpoint, or the
    start-up (the prober, and after a not-ready the kill and the
    failure) raised an exception, and then the block runs from where
    the start-up stopped and before that exception propagates.  The
    block sends the request to terminate and then waits up to 5 s; an
    error of either call, [TimeoutExpired] when the wait times out, is
    raised in place of the exception, and no further signal is sent. *)
Theorem ruststack_process_exit_paths (remote : Remote) (port : Z) (host : string)
    (proc : value) :
  (forall endpoint w r w',
     teardown (ruststack_process remote port host) (proc, endpoint) w = (r, w') ->
     terminate_then_wait proc w r w') /\
  (forall w r w',
     setup (ruststack_process remote port host) w = (r, w') ->
     exists evs,
       trace w' = trace w ++ evs /\
       forall t argv lat,
         In (CallEvent t (Popen argv) (Ok proc) lat) evs ->
         r = Returned (proc, RUSTSTACK_ENDPOINT port host) \/
         exists before w0 e w1 r',
           trace w0 = trace w ++ before ++ [CallEvent t (Popen argv) (Ok proc) lat] /\
           ruststack_process_startup remote port host proc w0 = (Raised e, w1) /\
           terminate_then_wait proc w1 r' w' /\
           r = match r' with
               | Returned _ => Raised e
               | Raised e' => Raised e'
               | OutOfFuel => OutOfFuel
               end).
Proof.
  split.
  - intros endpoint w r w' H. cbn [teardown ruststack_process fst] in H.
    now apply (ruststack_process_finally_run remote).
  - intros w r w' H.
    destruct (ruststack_process_setup_run _ _ _ _ _ _ H)
      as [(evs & e & Htr & _ & Hnone)
         |(binary & lat1 & found & lat2 & proc0 & lat3 & w3 & rs & w4 & Htr3 & Hs & Hrs)].
    { exists evs. split; [exact Htr|]. intros t argv lat Hin.
      now contradiction (Hnone t argv proc lat). }
    destruct (ruststack_process_startup_calls _ _ _ _ _ _ _ Hs)
      as (evs_s & Htr4 & Hcs & Hret).
    assert (Hrest : exists evs_f,
               trace w' = trace w4 ++ evs_f /\
               forall c, In c (calls evs_f) ->
                         c = ProcTerminate proc0 \/ c = ProcWait proc0 5).
    { destruct rs as [st|e|]; [| |destruct Hrs].
      - destruct Hrs as [_ ->]. exists []. rewrite app_nil_r. split; [reflexivity|].
        intros c [].
      - destruct Hrs as (r' & Hfin & _).
        destruct (terminate_then_wait_calls _ _ _ _ Hfin) as (evs_f & Htr5 & Hc).
        exists evs_f. split; [exact Htr5|].
        destruct Hc as [-> | ->]; cbn; intuition auto. }
    destruct Hrest as (evs_f & Htr5 & Hcf).
    eexists. split; [rewrite Htr5, Htr4, Htr3, <- !app_assoc; reflexivity|].
    intros t argv lat Hin. cbn [app] in Hin.
    assert (Hev : CallEvent t (Popen argv) (Ok proc) lat
                  = CallEvent (clock w + Z.of_N lat1 + Z.of_N lat2)
                      (Popen [py_str binary; "--host"; "0.0.0.0"; "--port"; str_of_Z port])
                      (Ok proc0) lat3).
    { destruct Hin as [Hin|[Hin|[Hin|Hin]]]; try discriminate.
      - now symmetry.
      - exfalso. rewrite in_app_iff in Hin. destruct Hin as [Hin|Hin].
        + apply calls_in in Hin. destruct (Hcs _ Hin); discriminate.
        + apply calls_in in Hin. destruct (Hcf _ Hin); discriminate. }
    inversion Hev; subst t argv proc0 lat. clear Hev.
    destruct rs as [st|e|]; [| |destruct Hrs].
    + left. destruct Hrs as [-> _].
      destruct (ruststack_process_startup_run _ _ _ _ _ _ _ Hs)
        as (rr & w1 & _ & evs' & _ & Hrr).
      destruct rr as [[|]|e|].
      * now destruct Hrr as [-> _].
      * destruct Hrr as [(o & la & _ & Hr)|(v & la & o & lb & _ & [e He] & _)];
          [destruct o; [destruct Hr | discriminate] | discriminate].
      * destruct Hrr as [Hr _]. discriminate.
      * destruct Hrr.
    + right. destruct Hrs as (r' & Hfin & Hr).
      exists [CallEvent (clock w) (EnvironGet "RUSTSTACK_BINARY" "./target/release/ruststack")
                (Ok binary) lat1;
              CallEvent (clock w + Z.of_N lat1) (PathExists (py_str binary)) (Ok found) lat2],
             w3, e, w4, r'.
      split; [exact Htr3|]. auto.
Qed.

Lemma ruststack_process_exit_paths_witness :
  terminate_then_wait (VProc 4242)
    (snd (setup (ruststack_process remote_ignores_terminate 4566 "localhost")
            initial_world))
    (Raised (Exn (LibError TimeoutExpired) "Command timed out after 5 seconds"))
    (snd (teardown (ruststack_process remote_ignores_terminate 4566 "localhost")
            (VProc 4242, "http://localhost:4566")
            (snd (setup (ruststack_process remote_ignores_terminate 4566 "localhost")
                    initial_world)))) /\
  exists evs,
    trace (snd (setup (ruststack_process remote_fails_to_start 4566 "localhost")
                  initial_world)) = trace initial_world ++ evs /\
    forall t argv lat,
      In (CallEvent t (Popen argv) (Ok (VProc 4242)) lat) evs ->
      @Raised (value * string)
        (Exn Failed ("RustStack failed to start." ++ newline
                     ++ "stdout: starting" ++ newline
                     ++ "stderr: address in use")%string)
      = Returned (VProc 4242, RUSTSTACK_ENDPOINT 4566 "localhost") \/
      exists before w0 e w1 r',
        trace w0 = trace initial_world ++ before
                   ++ [CallEvent t (Popen argv) (Ok (VProc 4242)) lat] /\
        ruststack_process_startup remote_fails_to_start 4566 "localhost" (VProc 4242) w0
        = (Raised e, w1) /\
        terminate_then_wait (VProc 4242) w1 r'
          (snd (setup (ruststack_process remote_fails_to_start 4566 "localhost")
                  initial_world)) /\
        @Raised (value * string)
          (Exn Failed ("RustStack failed to start." ++ newline
                       ++ "stdout: starting" ++ newline
                       ++ "stderr: address in use")%string)
        = match r' with
          | Returned _ => Raised e
          | Raised e' => Raised e'
          | OutOfFuel => OutOfFuel
          end.
Proof.
  split.
  - apply (proj1 (ruststack_process_exit_paths remote_ignores_terminate 4566 "localhost"
                    (VProc 4242)) "http://localhost:4566").
    vm_compute. reflexivity.
  - apply (proj2 (ruststack_process_exit_paths remote_fails_to_start 4566 "localhost"
                    (VProc 4242)) initial_world).
    vm_compute. reflexivity.
Defined.

(** ** More on the set-up of [ruststack_process] *)



(** X12: when the prober reports not-ready, the start-up of
    [ruststack_process] never hands over an endpoint: it kills the
    process it was given and, unless that call failed, collects its
    output, and ends with an exception.  When the output is a pair of
    byte strings that are both well-formed UTF-8, the exception is the
    failure 'RustStack failed to start.' followed by the decoded stdout
    and stderr; when one of them is not, decoding raises
    [UnicodeDecodeError] and [pytest.fail] is not reached. *)
Theorem ruststack_process_startup_not_ready (remote : Remote) (port : Z) (host : string)
    (proc : value) w w1 r w' :
  wait_for_ruststack remote (RUSTSTACK_ENDPOINT port host) default_timeout w
    = (Returned false, w1) ->
  ruststack_process_startup remote port host proc w = (r, w') ->
  exists evs,
    trace w' = trace w1 ++ evs /\
    ((exists o1 lat1,
        evs = [CallEvent (clock w1) (ProcKill proc) o1 lat1] /\ raised_by o1 r) \/
     (exists v lat1 o2 lat2,
        evs = [CallEvent (clock w1) (ProcKill proc) (Ok v) lat1;
               CallEvent (clock w1 + Z.of_N lat1) (ProcCommunicate proc) o2 lat2] /\
        (exists e, r = Raised e) /\
        forall so se, o2 = Ok (VList [VBytes so; VBytes se]) ->
          r = Raised
                (if utf8_valid so && utf8_valid se
                 then Exn Failed ("RustStack failed to start." ++ newline
                                  ++ "stdout: " ++ string_of_list_byte so ++ newline
                                  ++ "stderr: " ++ string_of_list_byte se)%string
                 else Exn UnicodeDecodeError "'utf-8' codec can't decode bytes"))).
Proof.
  intros Hwait Hrun.
  destruct (ruststack_process_startup_run _ _ _ _ _ _ _ Hrun)
    as (rr & w1' & Hwait' & evs & Htr & Hrr).
  rewrite Hwait in Hwait'. inversion Hwait'; subst rr w1'.
  exists evs. split; [exact Htr | exact Hrr].
Qed.

Lemma ruststack_process_startup_not_ready_witness :
  exists evs,
    trace (snd (ruststack_process_startup remote_fails_to_start 4566 "localhost"
                  (VProc 4242) initial_world))
    = trace (snd (wait_for_ruststack remote_fails_to_start "http://localhost:4566"
                    default_timeout initial_world)) ++ evs /\
    kill_then_communicate (VProc 4242)
      (snd (wait_for_ruststack remote_fails_to_start "http://localhost:4566"
              default_timeout initial_world))
      (Raised (Exn Failed ("RustStack failed to start." ++ newline
                           ++ "stdout: starting" ++ newline
                           ++ "stderr: address in use")%string))
      evs.
Proof.
  apply (ruststack_process_startup_not_ready remote_fails_to_start 4566 "localhost"
           (VProc 4242) initial_world).
  - vm_compute. reflexivity.
  - vm_compute. reflexivity.
Defined.

Lemma propagated_not_skip ev e : propagated ev = Some e -> is_skip e = false.
Proof.
  destruct ev as [t url to [resp|c msg] lat|]; cbn; try discriminate.
  destruct (lib_error_eqb c RequestException); [discriminate|].
  intros H. inversion H. reflexivity.
Qed.

Lemma ruststack_process_startup_never_skips remote port host proc w e w' :
  ruststack_process_startup remote port host proc w = (Raised e, w') ->
  is_skip e = false.
Proof.
  unfold ruststack_process_startup. unfold bind at 1.
  destruct (wait_for_ruststack remote (RUSTSTACK_ENDPOINT port host) default_timeout w)
    as [rr w1] eqn:Hwait.
  destruct rr as [[|]|e0|]; intros H.
  - inversion H.
  - cbn [negb] in H. unfold bind at 1 in H.
    destruct (perform remote (ProcKill proc) w1) as [r1 w2] eqn:Hkill.
    destruct (perform_run _ _ _ _ _ Hkill) as (o1 & lat1 & _ & -> & ->).
    destruct o1 as [v|c msg]; [|now inversion H].
    unfold bind at 1 in H.
    match type of H with context [perform remote (ProcCommunicate proc) ?w2] =>
      destruct (perform remote (ProcCommunicate proc) w2) as [r2 w3] eqn:Hcomm end.
    destruct (perform_run _ _ _ _ _ Hcomm) as (o2 & lat2 & _ & -> & ->).
    destruct o2 as [out|c msg]; [|now inversion H].
    match type of H with _ ?x = _ =>
      destruct (ruststack_process_startup_tail out x) as (e' & Ht & Hskip & _) end.
    rewrite Ht in H. now inversion H; subst.
  - inversion H; subst e0 w1.
    destruct (wait_for_ruststack_run remote _ _ 0 _ _ _ Hwait)
      as (evs & _ & _ & Hpolls & _).
    destruct (polls_shape _ _ Hpolls) as [_ (before & ev & _ & _ & Hprop)].
    exact (propagated_not_skip _ _ Hprop).
  - inversion H.
Qed.

(** X13: the set-up of [ruststack_process] skips exactly when the binary
    is missing.  With the path looked up and the file test answered, a
    skip is raised if and only if the answer was false; it then names
    the path, and no process was started nor any health request sent.
    A service that does not become ready is a failure or an error here,
    never a skip. *)
Theorem ruststack_process_skips_iff_no_binary (remote : Remote) (port : Z) (host : string)
    w binary lat1 found lat2 r w' :
  invoke remote (clock w) (trace w)
    (EnvironGet "RUSTSTACK_BINARY" "./target/release/ruststack") = (Ok binary, lat1) ->
  invoke remote (clock w + Z.of_N lat1)
    (trace w ++ [CallEvent (clock w)
                   (EnvironGet "RUSTSTACK_BINARY" "./target/release/ruststack")
                   (Ok binary) lat1])
    (PathExists (py_str binary)) = (Ok found, lat2) ->
  setup (ruststack_process remote port host) w = (r, w') ->
  ((exists msg, r = Raised (Exn Skipped msg)) <-> truthy found = false) /\
  (truthy found = false ->
   r = Raised (Exn Skipped ("RustStack binary not found at " ++ py_str binary)) /\
   trace w' = trace w ++
     [CallEvent (clock w) (EnvironGet "RUSTSTACK_BINARY" "./target/release/ruststack")
        (Ok binary) lat1;
      CallEvent (clock w + Z.of_N lat1) (PathExists (py_str binary)) (Ok found) lat2]).
Proof.
  intros H1 H2 H. cbn [setup ruststack_process] in H.
  unfold bind at 1 in H. unfold perform at 1 in H. rewrite H1 in H.
  unfold bind at 1 in H. unfold perform at 1 in H. cbn [clock trace stdout] in H.
  rewrite H2 in H.
  destruct (truthy found) eqn:Hfound; cbn [negb] in H.
  - split; [|discriminate]. split; [|discriminate]. intros [msg ->]. exfalso.
    unfold bind at 1 in H.
    match type of H with context [perform remote (Popen ?a) ?w2] =>
      destruct (perform remote (Popen a) w2) as [r3 w3] eqn:H3 end.
    destruct (perform_run _ _ _ _ _ H3) as (o3 & lat3 & _ & _ & ->).
    destruct o3 as [proc0|c msg0]; [|discriminate].
    unfold try_except in H.
    destruct (ruststack_process_startup remote port host proc0 w3) as [rs w4] eqn:Hs.
    destruct rs as [st|e|]; try discriminate.
    cbn [any_exn] in H. unfold bind at 1 in H.
    destruct (ruststack_process_finally remote proc0 w4) as [rf w5] eqn:Hf.
    apply ruststack_process_finally_run in Hf. destruct Hf as (oa & la & Hf).
    apply ruststack_process_startup_never_skips in Hs.
    destruct oa as [va|ca ma].
    + destruct Hf as (ob & lb & _ & ->). destruct ob; inversion H; subst.
      discriminate.
    + destruct Hf as (_ & ->). discriminate.
  - inversion H; subst r w'. cbn [trace]. rewrite <- app_assoc.
    split; [split; eauto|]. intros _. split; reflexivity.
Qed.

Lemma ruststack_process_skips_iff_no_binary_witness :
  ((exists msg,
      fst (setup (ruststack_process remote_without_binary 4566 "localhost") initial_world)
      = Raised (Exn Skipped msg)) <-> truthy (VBool false) = false) /\
  (truthy (VBool false) = false ->
   fst (setup (ruststack_process remote_without_binary 4566 "localhost") initial_world)
   = Raised (Exn Skipped "RustStack binary not found at ./target/release/ruststack") /\
   trace (snd (setup (ruststack_process remote_without_binary 4566 "localhost")
                 initial_world))
   = trace initial_world ++
     [CallEvent 0 (EnvironGet "RUSTSTACK_BINARY" "./target/release/ruststack")
        (Ok (VStr "./target/release/ruststack")) 0;
      CallEvent (0 + Z.of_N 0) (PathExists "./target/release/ruststack")
        (Ok (VBool false)) 0]).
Proof.
  apply (ruststack_process_skips_iff_no_binary remote_without_binary 4566 "localhost"
           initial_world (VStr "./target/release/ruststack") 0%N (VBool false) 0%N).
  - reflexivity.
  - reflexivity.
  - vm_compute. reflexivity.
Defined.

(** ** The tests of the script *)

(** X14: [test_health_check] sends one health request, with a timeout of
    10 s, and passes exactly when the answer carries the ready payload:
    status 200 and a JSON object whose 'status' is 'running'.  A status
    other than 200 is the assertion error 'Health check failed: '
    followed by the status. *)
Theorem test_health_check_passes_iff (remote : Remote) w o lat :
  http_get remote (clock w) (trace w) (ENDPOINT_URL ++ "/health") 10 = (o, lat) ->
  (fst (test_health_check remote w) = Returned tt <->
   exists resp, o = Ok resp /\ ready_payload resp = true) /\
  (forall resp, o = Ok resp -> status_code resp <> 200 ->
     fst (test_health_check remote w)
     = Raised (Exn AssertionError
                 ("Health check failed: " ++ str_of_Z (status_code resp)))) /\
  trace (snd (test_health_check remote w))
  = trace w ++ [HttpEvent (clock w) (ENDPOINT_URL ++ "/health") 10 o lat].
Proof.
  intros Hget. destruct (test_health_check remote w) as [r w'] eqn:Hrun. cbn [fst snd].
  unfold test_health_check, bind, print, requests_get in Hrun.
  cbn [clock trace stdout] in Hrun. rewrite Hget in Hrun.
  destruct o as [resp|c msg].
  2:{ inversion Hrun; subst r w'. cbn [trace].
      split; [split; [discriminate | intros (resp & Hr & _); discriminate]|].
      split; [discriminate | reflexivity]. }
  unfold response_json, py_assert, dict_get in Hrun.
  destruct (status_code resp =? 200) eqn:Hcode.
  2:{ inversion Hrun; subst r w'. cbn [trace]. split; [split; [discriminate|]|].
      - intros (resp' & Hr & Hp). inversion Hr; subst resp'.
        unfold ready_payload in Hp. rewrite Hcode in Hp. discriminate.
      - split; [|reflexivity]. intros resp' Hr _. now inversion Hr. }
  assert (Hstatus : forall resp', Ok resp = Ok resp' -> status_code resp' <> 200 ->
            r = Raised (Exn AssertionError
                          ("Health check failed: " ++ str_of_Z (status_code resp')))).
  { intros resp' Hr Hne. inversion Hr; subst resp'. apply Z.eqb_eq in Hcode.
    contradiction. }
  split; [|split; [exact Hstatus|]].
  - transitivity (ready_payload resp = true).
    2:{ split; [intros Hp; exists resp; auto|].
        intros (resp' & Hr & Hp). inversion Hr; subst resp'. exact Hp. }
    unfold ready_payload. rewrite Hcode. cbn [andb].
    destruct (json_body resp) as [[| | | | | |d|]|]; cbn in Hrun;
      try (inversion Hrun; split; discriminate).
    destruct (lookup "status" d) as [v|]; cbn in Hrun.
    + destruct (eq_str v "running"); inversion Hrun; split; auto; discriminate.
    + inversion Hrun; split; discriminate.
  - destruct (json_body resp) as [[| | | | | |d|]|]; cbn in Hrun;
      try (inversion Hrun; reflexivity).
    destruct (lookup "status" d) as [v|]; cbn in Hrun;
      [destruct (eq_str v "running")|]; inversion Hrun; reflexivity.
Qed.

Lemma test_health_check_passes_iff_witness :
  fst (test_health_check remote_healthy initial_world) = Returned tt.
Proof.
  apply (test_health_check_passes_iff remote_healthy initial_world
           (Ok {| status_code := 200;
                  json_body := Some (VDict [("status", VStr "running")]) |}) 2%N).
  - reflexivity.
  - eexists. split; reflexivity.
Defined.

(** ** Cleanup in the tests of the script *)

Lemma grows_silent {A} (m : M A) : silent m -> grows m.
Proof.
  intros Hm w r w' H. specialize (Hm w). rewrite H in Hm. cbn in Hm.
  exists []. now rewrite app_nil_r.
Qed.

Lemma silent_pure {A} (m : M A) : (forall w, snd (m w) = w) -> silent m.
Proof. intros H w. now rewrite H. Qed.

Lemma silent_ret {A} (a : A) : silent (ret a).
Proof. intros w. reflexivity. Qed.

Lemma silent_print s : silent (print s).
Proof. intros w. reflexivity. Qed.

Lemma silent_time_sleep ms : silent (time_sleep ms).
Proof. intros w. reflexivity. Qed.

Lemma silent_py_assert c msg : silent (py_assert c msg).
Proof. intros w. destruct c; reflexivity. Qed.

Lemma silent_subscript v k : silent (subscript v k).
Proof. intros w. destruct v; cbn; auto. destruct (lookup k d); auto. Qed.

Lemma silent_index v i : silent (index v i).
Proof. intros w. destruct v; cbn; auto. destruct (nth_error l i); auto. Qed.

Lemma silent_dict_get v k d : silent (dict_get v k d).
Proof. intros w. destruct v; cbn; auto. destruct (lookup k d0); auto. Qed.

Lemma silent_py_len v : silent (py_len v).
Proof. intros w. destruct v; cbn; auto. Qed.

Lemma silent_iterate v : silent (iterate v).
Proof. intros w. destruct v; cbn; auto. Qed.

Lemma silent_stream_read v : silent (stream_read v).
Proof. intros w. destruct v; cbn; auto. Qed.

Lemma silent_bind {A B} (m : M A) (f : A -> M B) :
  silent m -> (forall a, silent (f a)) -> silent (bind m f).
Proof.
  intros Hm Hf w. unfold bind. specialize (Hm w).
  destruct (m w) as [[a|e|] w1]; cbn in *; auto.
  now rewrite Hf.
Qed.

Lemma silent_map_M {A B} (f : A -> M B) l :
  (forall a, silent (f a)) -> silent (map_M f l).
Proof.
  intros Hf. induction l as [|a l IH]; cbn [map_M].
  - apply silent_ret.
  - apply silent_bind; [apply Hf|]. intros b.
    apply silent_bind; [exact IH|]. intros bs. apply silent_ret.
Qed.

Ltac silent_steps :=
  repeat first
    [ apply silent_bind; [|intro]
    | apply silent_map_M; intro
    | apply silent_ret | apply silent_print | apply silent_time_sleep
    | apply silent_py_assert | apply silent_subscript | apply silent_index
    | apply silent_dict_get | apply silent_py_len | apply silent_iterate
    | apply silent_stream_read ].

Ltac grows_steps :=
  repeat first
    [ apply grows_bind; [|intro]
    | apply grows_boto_ | apply grows_perform
    | apply grows_silent; solve [silent_steps] ].

Lemma ends_with_calls_bind {A B} (m : M A) (f : A -> M B) cs :
  grows m -> (forall a, ends_with_calls (f a) cs) -> ends_with_calls (bind m f) cs.
Proof.
  intros Hm Hf w b w' H. unfold bind in H.
  destruct (m w) as [[a|e|] w1] eqn:Hmw; try discriminate.
  destruct (Hm _ _ _ Hmw) as [evs1 H1].
  destruct (Hf a _ _ _ H) as (evs2 & before & H2 & Hc).
  exists (evs1 ++ evs2), (calls evs1 ++ before). split.
  - now rewrite H2, H1, app_assoc.
  - now rewrite calls_app, Hc, app_assoc.
Qed.

Lemma boto_returned remote c op args w w' :
  boto_ remote c op args w = (Returned tt, w') ->
  exists ev, trace w' = trace w ++ [ev] /\ calls [ev] = [Boto c op args].
Proof.
  unfold boto_, bind. intros H.
  destruct (perform remote (Boto c op args) w) as [r1 w1] eqn:Hp.
  destruct (perform_run _ _ _ _ _ Hp) as (o & lat & _ & -> & ->).
  destruct o; inversion H; subst. cbn [trace]. eexists. split; reflexivity.
Qed.

Lemma ends_with_calls_one remote c op args s :
  ends_with_calls (boto_ remote c op args ;; print s)%py [Boto c op args].
Proof.
  intros w [] w' H. unfold bind in H.
  destruct (boto_ remote c op args w) as [[[]|e|] w1] eqn:H1; try discriminate.
  destruct (boto_returned _ _ _ _ _ _ H1) as (ev & Htr & Hc).
  inversion H; subst w'. cbn [trace]. exists [ev], []. auto.
Qed.

Lemma ends_with_calls_two remote c op1 args1 s1 op2 args2 s2 :
  ends_with_calls (boto_ remote c op1 args1 ;; print s1 ;;
                   boto_ remote c op2 args2 ;; print s2)%py
    [Boto c op1 args1; Boto c op2 args2].
Proof.
  intros w [] w' H. unfold bind at 1 in H.
  destruct (boto_ remote c op1 args1 w) as [[[]|e|] w1] eqn:H1; try discriminate.
  destruct (boto_returned _ _ _ _ _ _ H1) as (ev1 & Htr1 & Hc1).
  unfold bind at 1 in H. unfold print at 1 in H. unfold bind at 1 in H.
  match type of H with context [boto_ remote c op2 args2 ?x] =>
    destruct (boto_ remote c op2 args2 x) as [[[]|e|] w2] eqn:H2; try discriminate end.
  destruct (boto_returned _ _ _ _ _ _ H2) as (ev2 & Htr2 & Hc2).
  inversion H; subst w'. cbn [trace] in *.
  exists [ev1; ev2], []. split.
  - rewrite Htr2, Htr1, <- app_assoc. reflexivity.
  - change [ev1; ev2] with ([ev1] ++ [ev2]). rewrite calls_app, Hc1, Hc2. reflexivity.
Qed.

(** A [try] whose [except Exception] clause repeats the last calls of
    the body and raises the exception again, followed by a [print]. *)
Lemma cleanup_run (body : M unit) (h : exn -> M unit) cs s w1 r w' :
  grows body -> catchable body -> ends_with_calls body cs ->
  (forall e w, exists w2 evs,
     h e w = (Raised e, w2) /\ trace w2 = trace w ++ evs /\ calls evs = cs) ->
  (try_except body is_Exception h ;; print s)%py w1 = (r, w') ->
  (exists evs before, trace w' = trace w1 ++ evs /\ calls evs = before ++ cs) /\
  r = match fst (body w1) with
      | Returned _ => Returned tt
      | other => other
      end.
Proof.
  intros Hg Hc He Hh H. unfold bind, try_except in H.
  specialize (Hc w1). destruct (body w1) as [[[]|e|] w2] eqn:Hb; cbn [fst] in *.
  - inversion H; subst r w'. split; [|reflexivity]. cbn [trace]. eapply He; eauto.
  - rewrite Hc in H. destruct (Hh e w2) as (w3 & evs2 & Hrun & Htr & Hcs).
    rewrite Hrun in H. inversion H; subst r w'. split; [|reflexivity].
    destruct (Hg _ _ _ Hb) as [evs1 Htr1].
    exists (evs1 ++ evs2), (calls evs1).
    rewrite Htr, Htr1, calls_app, Hcs, app_assoc. auto.
  - contradiction.
Qed.

(** X15: once [test_s3_operations] has drawn the name of its bucket, the
    last two calls it makes are the deletion of its object and then
    that of its bucket, whether the test passes or fails; and the test
    fails with the very exception that stopped its [try] block. *)
Theorem test_s3_operations_cleans_up (remote : Remote) w bucket_name w1 r w' :
  fresh_name remote "test-bucket-" (printed "Testing S3 operations..." w)
    = (Returned bucket_name, w1) ->
  test_s3_operations remote w = (r, w') ->
  (exists evs before,
     trace w' = trace w1 ++ evs /\
     calls evs = before ++
       [Boto (get_client "s3") "delete_object"
          [("Bucket", VStr bucket_name); ("Key", VStr object_key)];
        Boto (get_client "s3") "delete_bucket" [("Bucket", VStr bucket_name)]]) /\
  r = match fst (test_s3_operations_try remote (get_client "s3") bucket_name w1) with
      | Returned _ => Returned tt
      | other => other
      end.
Proof.
  intros Hname H. unfold test_s3_operations in H. cbv zeta in H.
  rewrite bind_print in H. unfold bind at 1 in H. rewrite Hname in H.
  eapply cleanup_run; [| | | |exact H].
  - unfold test_s3_operations_try. grows_steps.
  - unfold test_s3_operations_try. catchable_steps.
  - unfold test_s3_operations_try.
    repeat first [ apply ends_with_calls_two
                 | apply ends_with_calls_bind; [solve [grows_steps] | intro] ].
  - intros e w0.
    destruct (test_s3_operations_except_attempts_both remote (get_client "s3")
                bucket_name e w0) as (o1 & l1 & o2 & l2 & w2 & Hrun & Htr).
    exists w2. eexists. split; [exact Hrun|]. split; [exact Htr | reflexivity].
Qed.

Lemma test_s3_operations_cleans_up_witness :
  (exists evs before,
     trace (snd (test_s3_operations remote_delete_refused initial_world))
     = trace (snd (fresh_name remote_delete_refused "test-bucket-"
                     (printed "Testing S3 operations..." initial_world))) ++ evs /\
     calls evs = before ++
       [Boto (get_client "s3") "delete_object"
          [("Bucket", VStr "test-bucket-9f1c2ab4"); ("Key", VStr object_key)];
        Boto (get_client "s3") "delete_bucket" [("Bucket", VStr "test-bucket-9f1c2ab4")]]) /\
  fst (test_s3_operations remote_delete_refused initial_world)
  = match fst (test_s3_operations_try remote_delete_refused (get_client "s3")
                 "test-bucket-9f1c2ab4"
                 (snd (fresh_name remote_delete_refused "test-bucket-"
                         (printed "Testing S3 operations..." initial_world)))) with
    | Returned _ => Returned tt
    | other => other
    end.
Proof.
  apply (test_s3_operations_cleans_up remote_delete_refused initial_world).
  - vm_compute. reflexivity.
  - vm_compute. reflexivity.
Defined.

(** X16: once [test_dynamodb_operations] has drawn the name of its
    table, the last call it makes is the deletion of that table, whether
    the test passes or fails; it never ends otherwise than by returning
    or with an exception. *)
Theorem test_dynamodb_operations_cleans_up (remote : Remote) w table_name w1 r w' :
  fresh_name remote "test-table-" (printed "Testing DynamoDB operations..." w)
    = (Returned table_name, w1) ->
  test_dynamodb_operations remote w = (r, w') ->
  (exists evs before,
     trace w' = trace w1 ++ evs /\
     calls evs = before ++
       [Boto (get_client "dynamodb") "delete_table" [("TableName", VStr table_name)]]) /\
  (r = Returned tt \/ exists e, r = Raised e /\ is_Exception e = true).
Proof.
  intros Hname H. unfold test_dynamodb_operations in H. cbv zeta in H.
  rewrite bind_print in H. unfold bind at 1 in H. rewrite Hname in H.
  match type of H with (bind (try_except ?m _ ?h) _ _ = _) =>
    set (body := m) in H; set (handler := h) in H end.
  assert (Hc : catchable body) by (unfold body; catchable_steps).
  edestruct (cleanup_run body handler
               [Boto (get_client "dynamodb") "delete_table" [("TableName", VStr table_name)]])
    as [Hcalls Hr]; [| exact Hc | | | exact H | ].
  - unfold body. grows_steps.
  - unfold body.
    repeat first [ apply ends_with_calls_one
                 | apply ends_with_calls_bind; [solve [grows_steps] | intro] ].
  - intros e w0. unfold handler.
    destruct (guarded_call remote (get_client "dynamodb") "delete_table"
                [("TableName", VStr table_name)] any_exn w0 ltac:(reflexivity))
      as (o & lat & Hrun).
    erewrite bind_returned by exact Hrun.
    eexists. eexists. split; [reflexivity|]. split; reflexivity.
  - split; [exact Hcalls|]. specialize (Hc w1).
    destruct (fst (body w1)) as [[]|e|]; [left; exact Hr | right; eauto | contradiction].
Qed.

Lemma test_dynamodb_operations_cleans_up_witness :
  (exists evs before,
     trace (snd (test_dynamodb_operations remote_healthy initial_world))
     = trace (snd (fresh_name remote_healthy "test-table-"
                     (printed "Testing DynamoDB operations..." initial_world))) ++ evs /\
     calls evs = before ++
       [Boto (get_client "dynamodb") "delete_table"
          [("TableName", VStr "test-table-9f1c2ab4")]]) /\
  (fst (test_dynamodb_operations remote_healthy initial_world) = Returned tt \/
   exists e, fst (test_dynamodb_operations remote_healthy initial_world) = Raised e /\
             is_Exception e = true).
Proof.
  apply (test_dynamodb_operations_cleans_up remote_healthy initial_world).
  - vm_compute. reflexivity.
  - vm_compute. reflexivity.
Defined.

(** ** The tests of examples/test_integration.py *)

Lemma silent_py_in s v : silent (py_in s v).
Proof. intros w. destruct v; reflexivity. Qed.

Lemma catchable_py_in s v : catchable (py_in s v).
Proof. intros w. destruct v; cbn; auto. Qed.

#[local] Hint Resolve catchable_py_in : catchable.

Lemma boto_succeeds_or_fails remote c op args w :
  exists o lat,
    boto_ remote c op args w
    = (match o with
       | Ok _ => Returned tt
       | Fault cl msg => Raised (Exn (LibError cl) msg)
       end,
       {| clock := clock w + Z.of_N lat;
          trace := trace w ++ [CallEvent (clock w) (Boto c op args) o lat];
          stdout := stdout w |}).
Proof.
  unfold boto_, bind, perform.
  destruct (invoke remote (clock w) (trace w) (Boto c op args)) as [[v|cl msg] lat].
  - exists (Ok v), lat. reflexivity.
  - exists (Fault cl msg), lat. reflexivity.
Qed.

(** A [finally] block that is one client call: the call is the last
    thing the statement does, however the [try] block ended, and an
    error of the call replaces the outcome of the [try] block. *)
Lemma try_finally_boto {A} (m : M A) remote c op args w r w' :
  grows m -> catchable m ->
  try_finally m (boto_ remote c op args) w = (r, w') ->
  exists evs t o lat,
    trace w' = trace w ++ evs ++ [CallEvent t (Boto c op args) o lat] /\
    r = match o with
        | Ok _ => fst (m w)
        | Fault cl msg => Raised (Exn (LibError cl) msg)
        end.
Proof.
  intros Hg Hc H. unfold try_finally in H. specialize (Hc w).
  destruct (m w) as [rm w1] eqn:Hm. cbn [fst] in *.
  destruct (Hg _ _ _ Hm) as [evs Htr].
  pose proof (boto_succeeds_or_fails remote c op args w1) as Hfin.
  destruct Hfin as (o & lat & Hfin).
  exists evs, (clock w1), o, lat.
  destruct rm as [a|e|]; [| |contradiction]; rewrite Hfin in H;
    destruct o as [v|cl msg]; inversion H; subst r w'; cbn [trace];
    rewrite Htr, <- app_assoc; auto.
Qed.

(** X17: once [test_api_lifecycle] has created its API and read the id,
    the last call it makes is the deletion of the API with that id,
    whether its assertions hold or not; the test ends as its [try] block
    did unless the deletion fails, whose error it then raises. *)
Theorem test_api_lifecycle_deletes (remote : Remote) (c : client)
    w api_name w1 response w2 api_id w3 r w' :
  fresh_name remote "test-" w = (Returned api_name, w1) ->
  perform remote (Boto c "create_api"
                    [("Name", VStr api_name); ("ProtocolType", VStr "HTTP")]) w1
    = (Returned response, w2) ->
  subscript response "ApiId" w2 = (Returned api_id, w3) ->
  test_api_lifecycle remote c w = (r, w') ->
  exists evs t o lat,
    trace w' = trace w3 ++ evs ++ [CallEvent t (Boto c "delete_api" [("ApiId", api_id)]) o lat] /\
    r = match o with
        | Ok _ => fst (test_api_lifecycle_try remote c api_name response api_id w3)
        | Fault cl msg => Raised (Exn (LibError cl) msg)
        end.
Proof.
  intros Hname Hcreate Hid H. unfold test_api_lifecycle in H.
  unfold bind at 1 in H. rewrite Hname in H.
  unfold bind at 1 in H. rewrite Hcreate in H.
  unfold bind at 1 in H. rewrite Hid in H.
  eapply try_finally_boto; [| |exact H].
  - unfold test_api_lifecycle_try. grows_steps.
  - unfold test_api_lifecycle_try. catchable_steps.
Qed.

Lemma test_api_lifecycle_deletes_witness :
  exists evs t o lat,
    trace (snd (test_api_lifecycle remote_gateway
                  (apigatewayv2_client "http://localhost:4566") initial_world))
    = trace world_with_api
      ++ evs ++ [CallEvent t (Boto (apigatewayv2_client "http://localhost:4566")
                                "delete_api" [("ApiId", VStr "a1b2c3d4")]) o lat] /\
    fst (test_api_lifecycle remote_gateway
           (apigatewayv2_client "http://localhost:4566") initial_world)
    = match o with
      | Ok _ =>
          fst (test_api_lifecycle_try remote_gateway
                 (apigatewayv2_client "http://localhost:4566") "test-9f1c2ab4"
                 (VDict [("ApiId", VStr "a1b2c3d4"); ("Name", VStr "test-9f1c2ab4");
                         ("ProtocolType", VStr "HTTP")])
                 (VStr "a1b2c3d4") world_with_api)
      | Fault cl msg => Raised (Exn (LibError cl) msg)
      end.
Proof.
  apply (test_api_lifecycle_deletes remote_gateway
           (apigatewayv2_client "http://localhost:4566") initial_world "test-9f1c2ab4"
           (snd (fresh_name remote_gateway "test-" initial_world))
           (VDict [("ApiId", VStr "a1b2c3d4"); ("Name", VStr "test-9f1c2ab4");
                   ("ProtocolType", VStr "HTTP")])
           world_with_api (VStr "a1b2c3d4") world_with_api).
  - vm_compute. reflexivity.
  - vm_compute. reflexivity.
  - vm_compute. reflexivity.
  - vm_compute. reflexivity.
Defined.

(** X18: once [test_delivery_stream_lifecycle] has created its stream,
    the last call it makes is the deletion of that stream, whether its
    assertions hold or not; the test ends as its [try] block did unless
    the deletion fails, whose error it then raises. *)
Theorem test_delivery_stream_lifecycle_deletes (remote : Remote) (c : client)
    (s3_bucket : string) w stream_name w1 w2 r w' :
  fresh_name remote "test-" w = (Returned stream_name, w1) ->
  boto_ remote c "create_delivery_stream"
    [("DeliveryStreamName", VStr stream_name);
     ("DeliveryStreamType", VStr "DirectPut");
     ("ExtendedS3DestinationConfiguration",
      VDict [("BucketARN", VStr ("arn:aws:s3:::" ++ s3_bucket));
             ("RoleARN", VStr "arn:aws:iam::000000000000:role/firehose")])] w1
    = (Returned tt, w2) ->
  test_delivery_stream_lifecycle remote c s3_bucket w = (r, w') ->
  exists evs t o lat,
    trace w' = trace w2 ++ evs ++
      [CallEvent t (Boto c "delete_delivery_stream"
                      [("DeliveryStreamName", VStr stream_name)]) o lat] /\
    r = match o with
        | Ok _ => fst (test_delivery_stream_lifecycle_try remote c stream_name w2)
        | Fault cl msg => Raised (Exn (LibError cl) msg)
        end.
Proof.
  intros Hname Hcreate H. unfold test_delivery_stream_lifecycle in H.
  unfold bind at 1 in H. rewrite Hname in H.
  unfold bind at 1 in H. rewrite Hcreate in H.
  eapply try_finally_boto; [| |exact H].
  - unfold test_delivery_stream_lifecycle_try. grows_steps.
    apply grows_silent, silent_py_in.
  - unfold test_delivery_stream_lifecycle_try. catchable_steps.
Qed.

Lemma test_delivery_stream_lifecycle_deletes_witness :
  exists evs t o lat,
    trace (snd (test_delivery_stream_lifecycle remote_healthy
                  (firehose_client "http://localhost:4566") "test-bucket-9f1c2ab4"
                  initial_world))
    = trace world_with_test_stream ++ evs ++
      [CallEvent t (Boto (firehose_client "http://localhost:4566") "delete_delivery_stream"
                      [("DeliveryStreamName", VStr "test-9f1c2ab4")]) o lat] /\
    fst (test_delivery_stream_lifecycle remote_healthy
           (firehose_client "http://localhost:4566") "test-bucket-9f1c2ab4" initial_world)
    = match o with
      | Ok _ => fst (test_delivery_stream_lifecycle_try remote_healthy
                       (firehose_client "http://localhost:4566") "test-9f1c2ab4"
                       world_with_test_stream)
      | Fault cl msg => Raised (Exn (LibError cl) msg)
      end.
Proof.
  apply (test_delivery_stream_lifecycle_deletes remote_healthy
           (firehose_client "http://localhost:4566") "test-bucket-9f1c2ab4" initial_world
           "test-9f1c2ab4" (snd (fresh_name remote_healthy "test-" initial_world))).
  - vm_compute. reflexivity.
  - vm_compute. reflexivity.
  - vm_compute. reflexivity.
Defined.

(** X19: once [test_log_group_lifecycle] has created its log group, the
    last call it makes is the deletion of that group, whether the group
    was found in the description or not; the test ends as its [try]
    block did unless the deletion fails, whose error it then raises. *)
Theorem test_log_group_lifecycle_deletes (remote : Remote) (c : client)
    w group_name w1 w2 r w' :
  fresh_name remote "/test/" w = (Returned group_name, w1) ->
  boto_ remote c "create_log_group" [("logGroupName", VStr group_name)] w1
    = (Returned tt, w2) ->
  test_log_group_lifecycle remote c w = (r, w') ->
  exists evs t o lat,
    trace w' = trace w2 ++ evs ++
      [CallEvent t (Boto c "delete_log_group" [("logGroupName", VStr group_name)]) o lat] /\
    r = match o with
        | Ok _ => fst (test_log_group_lifecycle_try remote c group_name w2)
        | Fault cl msg => Raised (Exn (LibError cl) msg)
        end.
Proof.
  intros Hname Hcreate H. unfold test_log_group_lifecycle in H.
  unfold bind at 1 in H. rewrite Hname in H.
  unfold bind at 1 in H. rewrite Hcreate in H.
  eapply try_finally_boto; [| |exact H].
  - unfold test_log_group_lifecycle_try. grows_steps.
  - unfold test_log_group_lifecycle_try. catchable_steps.
Qed.

Lemma test_log_group_lifecycle_deletes_witness :
  exists evs t o lat,
    trace (snd (test_log_group_lifecycle remote_healthy
                  (logs_client "http://localhost:4566") initial_world))
    = trace world_with_log_group ++ evs ++
      [CallEvent t (Boto (logs_client "http://localhost:4566") "delete_log_group"
                      [("logGroupName", VStr "/test/9f1c2ab4")]) o lat] /\
    fst (test_log_group_lifecycle remote_healthy
           (logs_client "http://localhost:4566") initial_world)
    = match o with
      | Ok _ => fst (test_log_group_lifecycle_try remote_healthy
                       (logs_client "http://localhost:4566") "/test/9f1c2ab4"
                       world_with_log_group)
      | Fault cl msg => Raised (Exn (LibError cl) msg)
      end.
Proof.
  apply (test_log_group_lifecycle_deletes remote_healthy
           (logs_client "http://localhost:4566") initial_world
           "/test/9f1c2ab4" (snd (fresh_name remote_healthy "/test/" initial_world))).
  - vm_compute. reflexivity.
  - vm_compute. reflexivity.
  - vm_compute. reflexivity.
Defined.

(** X20: [test_table_lifecycle] has no [finally]: once it has created
    its table, it deletes the table exactly when the description it
    asked for names that table.  Otherwise (the description fails, lacks
    the field or names another table) the test ends with an exception
    right after the description: no deletion is attempted. *)
Theorem test_table_lifecycle_deletes_iff (remote : Remote) (c : client)
    w table_name w1 w2 o lat r w' :
  fresh_name remote "test-" w = (Returned table_name, w1) ->
  boto_ remote c "create_table"
    [("TableName", VStr table_name);
     ("KeySchema", VList [VDict [("AttributeName", VStr "id"); ("KeyType", VStr "HASH")]]);
     ("AttributeDefinitions",
      VList [VDict [("AttributeName", VStr "id"); ("AttributeType", VStr "S")]]);
     ("BillingMode", VStr "PAY_PER_REQUEST")] w1 = (Returned tt, w2) ->
  invoke remote (clock w2) (trace w2)
    (Boto c "describe_table" [("TableName", VStr table_name)]) = (o, lat) ->
  test_table_lifecycle remote c w = (r, w') ->
  exists evs,
    trace w' = trace w2 ++ evs /\
    if describes o table_name then
      calls evs = [Boto c "describe_table" [("TableName", VStr table_name)];
                   Boto c "delete_table" [("TableName", VStr table_name)]]
    else
      calls evs = [Boto c "describe_table" [("TableName", VStr table_name)]] /\
      exists e, r = Raised e.
Proof.
  intros Hname Hcreate Hdesc H. unfold test_table_lifecycle in H.
  unfold bind at 1 in H. rewrite Hname in H.
  unfold bind at 1 in H. rewrite Hcreate in H.
  unfold bind at 1 in H. unfold perform at 1 in H. rewrite Hdesc in H.
  unfold describes.
  destruct o as [response|cl msg].
  2:{ inversion H; subst. cbn [trace]. eexists. split; [reflexivity|]. cbn. eauto. }
  unfold bind at 1 in H. unfold subscript at 1 in H.
  destruct response as [| | | | | |d|];
    try (inversion H; subst; cbn [trace]; eexists; split; [reflexivity|]; cbn; eauto; fail).
  destruct (lookup "Table" d) as [table|];
    [|inversion H; subst; cbn [trace]; eexists; split; [reflexivity|]; cbn; eauto].
  cbn [ret] in H. unfold bind at 1 in H. unfold subscript at 1 in H.
  destruct table as [| | | | | |t|];
    try (inversion H; subst; cbn [trace]; eexists; split; [reflexivity|]; cbn; eauto; fail).
  destruct (lookup "TableName" t) as [v|];
    [|inversion H; subst; cbn [trace]; eexists; split; [reflexivity|]; cbn; eauto].
  cbn [ret] in H. unfold bind at 1 in H. unfold py_assert in H.
  destruct (eq_str v table_name).
  - cbn [ret] in H.
    match type of H with boto_ remote c ?op ?a ?x = _ =>
      destruct (boto_succeeds_or_fails remote c op a x) as (o2 & lat2 & Hdel) end.
    rewrite Hdel in H. inversion H; subst w'. cbn [trace]. rewrite <- app_assoc.
    eexists. split; reflexivity.
  - inversion H; subst. cbn [trace]. eexists. split; [reflexivity|]. cbn. eauto.
Qed.

Lemma test_table_lifecycle_deletes_iff_witness :
  exists evs,
    trace (snd (test_table_lifecycle remote_healthy
                  (dynamodb_client "http://localhost:4566") initial_world))
    = trace world_with_test_table ++ evs /\
    calls evs = [Boto (dynamodb_client "http://localhost:4566") "describe_table"
                   [("TableName", VStr "test-9f1c2ab4")]] /\
    exists e, fst (test_table_lifecycle remote_healthy
                     (dynamodb_client "http://localhost:4566") initial_world) = Raised e.
Proof.
  apply (test_table_lifecycle_deletes_iff remote_healthy
           (dynamodb_client "http://localhost:4566") initial_world "test-9f1c2ab4"
           (snd (fresh_name remote_healthy "test-" initial_world))
           world_with_test_table
           (Ok (VDict [("Table", VDict [("TableStatus", VStr "ACTIVE")])])) 3%N).
  - vm_compute. reflexivity.
  - vm_compute. reflexivity.
  - vm_compute. reflexivity.
  - vm_compute. reflexivity.
Defined.

(** ** The script as a whole *)

Lemma ran_outcomes tests w outs w' :
  Forall (fun t => passes_or_fails (body t)) tests ->
  ran tests w outs w' ->
  Forall (fun out => snd out = Returned tt \/
                     exists e, snd out = Raised e /\ is_Exception e = true) outs.
Proof.
  intros Htests Hran. induction Hran as [|test rest w r w1 outs w' Hbody _ IH].
  - constructor.
  - inversion Htests as [|? ? Hone Hrest]; subst. constructor; [|now apply IH].
    cbn [snd]. specialize (Hone w). rewrite Hbody in Hone. cbn [fst] in Hone.
    destruct r as [[]|e|]; [now left | right; eauto | contradiction].
Qed.

(** X21: whatever the service answers, [main] runs its four tests in the
    order of the list and ends the process with exit code 0 or 1: each
    test either passes or fails with an exception that the loop catches,
    none stops the run or escapes it.  The code is 0 exactly when all
    four passed, and the summary is the last thing printed. *)
Theorem main_always_exits (remote : Remote) (w : World) :
  exists outs w1 code,
    ran (tests remote) (after_banner w) outs w1 /\
    map fst outs = ["test_health_check"; "test_s3_operations";
                    "test_dynamodb_operations"; "test_lambda_api"]%string /\
    Forall (fun out => snd out = Returned tt \/
                       exists e, snd out = Raised e /\ is_Exception e = true) outs /\
    main remote w =
      (Raised (SystemExit code),
       {| clock := clock w1; trace := trace w1;
          stdout := stdout w1 ++ summary 4 (failures outs) |}) /\
    (code = 0 \/ code = 1) /\
    (code = 0 <-> Forall (fun out => snd out = Returned tt) outs).
Proof.
  destruct (main_on_ran (tests remote) w (tests_pass_or_fail remote))
    as (outs & w1 & Hran & Hmain).
  pose proof (ran_outcomes _ _ _ _ (tests_pass_or_fail remote) Hran) as Houts.
  exists outs, w1, (match failures outs with [] => 0 | _ :: _ => 1 end).
  split; [exact Hran|]. split; [exact (ran_names _ _ _ _ Hran)|].
  split; [exact Houts|]. split; [exact Hmain|].
  split; [destruct (failures outs); auto|].
  transitivity (failures outs = []).
  - destruct (failures outs); split; intros H; try reflexivity; discriminate.
  - rewrite failures_nil. split; intros H.
    + apply Forall_forall. intros out Hin.
      rewrite Forall_forall in H, Houts.
      destruct (Houts out Hin) as [Hr|(e & Hr & _)]; [exact Hr|].
      now contradiction (H out Hin e).
    + apply Forall_forall. intros out Hin e He.
      rewrite Forall_forall in H. rewrite (H out Hin) in He. discriminate.
Qed.

(** ** The fixtures whose teardown is one call *)

(** X22: the teardowns of [dynamodb_table], [secret], [http_api] and
    [delivery_stream] each make exactly one call, the deletion of the
    resource that the fixture yielded (the secret without recovery
    window, the API by its id), and return whatever the answer is. *)
Theorem teardown_single_call (remote : Remote) (c : client)
    (id bucket_name : string) (api_id : value) (w : World) :
  (exists o lat,
     teardown (dynamodb_table remote c) id w
     = (Returned tt, answered w (Boto c "delete_table" [("TableName", VStr id)]) o lat)) /\
  (exists o lat,
     teardown (secret remote c) id w
     = (Returned tt,
        answered w (Boto c "delete_secret"
                      [("SecretId", VStr id); ("ForceDeleteWithoutRecovery", VBool true)])
          o lat)) /\
  (exists o lat,
     teardown (http_api remote c) api_id w
     = (Returned tt, answered w (Boto c "delete_api" [("ApiId", api_id)]) o lat)) /\
  (exists o lat,
     teardown (delivery_stream remote c bucket_name) id w
     = (Returned tt,
        answered w (Boto c "delete_delivery_stream" [("DeliveryStreamName", VStr id)])
          o lat)).
Proof.
  refine (conj _ (conj _ (conj _ _)));
    cbn [teardown dynamodb_table secret http_api delivery_stream];
    apply guarded_call; reflexivity.
Qed.

(** X23: [test_lambda_api] makes one call, [list_functions], and passes
    exactly when the answer is a dict whose 'Functions', taken as the
    empty list when absent, has a length: the content of the list is
    not looked at. *)
Theorem test_lambda_api_passes_iff (remote : Remote) w o lat :
  invoke remote (clock w) (trace w) (Boto (get_client "lambda") "list_functions" [])
    = (o, lat) ->
  (fst (test_lambda_api remote w) = Returned tt <->
   exists d, o = Ok (VDict d) /\
             has_len (match lookup "Functions" d with
                      | Some v => v
                      | None => VList []
                      end) = true) /\
  trace (snd (test_lambda_api remote w))
  = trace w ++ [CallEvent (clock w) (Boto (get_client "lambda") "list_functions" []) o lat].
Proof.
  intros Hcall. destruct (test_lambda_api remote w) as [r w'] eqn:Hrun. cbn [fst snd].
  unfold test_lambda_api in Hrun. cbv zeta in Hrun.
  unfold bind at 1 in Hrun. unfold print at 1 in Hrun.
  unfold bind at 1 in Hrun. unfold perform in Hrun. cbn [clock trace stdout] in Hrun.
  rewrite Hcall in Hrun.
  destruct o as [response|cl msg].
  2:{ inversion Hrun; subst. cbn [trace]. split; [|reflexivity].
      split; [discriminate | intros (d & Hd & _); discriminate]. }
  unfold bind at 1 in Hrun. unfold dict_get in Hrun.
  destruct response as [| | | | | |d|];
    try (inversion Hrun; subst; cbn [trace]; split; [|reflexivity];
         split; [discriminate | intros (d & Hd & _); discriminate]).
  assert (Hget : exists v,
             v = match lookup "Functions" d with Some v => v | None => VList [] end /\
             (match lookup "Functions" d with
              | Some x => ret x
              | None => ret (VList [])
              end) = ret v).
  { destruct (lookup "Functions" d); eauto. }
  destruct Hget as (v & Hv & Hget). rewrite Hget in Hrun. cbn [ret] in Hrun.
  assert (Hiff : forall P : Prop, (P <-> has_len v = true) ->
            (P <-> exists d0, Ok (VDict d) = Ok (VDict d0) /\
                              has_len (match lookup "Functions" d0 with
                                       | Some v => v
                                       | None => VList []
                                       end) = true)).
  { intros P HP. rewrite HP. split.
    - intros Hl. exists d. rewrite <- Hv. auto.
    - intros (d0 & Hd & Hl). inversion Hd; subst d0. now rewrite <- Hv in Hl. }
  unfold bind, py_len, print, ret in Hrun. cbn [clock trace stdout] in Hrun.
  destruct v; inversion Hrun; subst r w'; cbn [trace];
    (split; [apply Hiff; cbn; split; (reflexivity || discriminate || auto) | reflexivity]).
Qed.

Lemma test_lambda_api_passes_iff_witness :
  fst (test_lambda_api remote_healthy initial_world) = Returned tt.
Proof.
  apply (test_lambda_api_passes_iff remote_healthy initial_world
           (Ok (VDict [("Functions", VList [])])) 3%N).
  - reflexivity.
  - exists [("Functions", VList [])]. split; reflexivity.
Defined.
